(** * virtinst/storage.py: storage pool and storage volume builders

    A shallow embedding of [StoragePool] and [StorageVolume] from
    [virtinst/storage.py], and the properties of their defaulting,
    validation and installation logic.

    Conventions of the embedding:
    - an XML property that may be unset is an [option]; Python's [None]
      is Rocq's [None];
    - a Python exception is a value of [exception]; code that may raise
      returns a [result];
    - a method that mutates [self], logs, or calls libvirt runs in the
      monad [M], which threads the object, accumulates the observable
      events, and keeps the object's mutations when an exception
      escapes;
    - messages are those of the untranslated locale: gettext's [_]
      returns its argument. *)

From Stdlib Require Import ZArith Ascii String DecimalString.
From stdpp Require Import base strings gmap list.

Open Scope string_scope.
Open Scope Z_scope.

(** ** Python values *)

Module Py.

(** [bool(s)] for a value that is [None] or a [str]. *)
Definition truthy (o : option string) : bool :=
  match o with
  | Some s => bool_decide (s ≠ "")
  | None => false
  end.

(** [str(x)] / [%s] for a value that is [None] or a [str]. *)
Definition str (o : option string) : string :=
  match o with
  | Some s => s
  | None => "None"
  end.

(** [%d] on an [int]. *)
Definition fmt_d (z : Z) : string := NilZero.string_of_int (Z.to_int z).

(** [x in l] for a list of strings and [x] that is [None] or a [str]. *)
Definition contains (l : list string) (x : option string) : bool :=
  match x with
  | Some s => bool_decide (s ∈ l)
  | None => false
  end.

Definition startswith (s pre : string) : bool := String.prefix pre s.

Definition endswith (s suf : string) : bool :=
  String.prefix (String.rev suf) (String.rev s).

(** [s[n:]] *)
Fixpoint slice_from (n : nat) (s : string) : string :=
  match n, s with
  | O, _ => s
  | S n', String _ s' => slice_from n' s'
  | S _, EmptyString => EmptyString
  end.

(** [s.split("/", 1)]: at most one split, at the first separator. *)
Fixpoint split_slash_once (s : string) : list string :=
  match s with
  | EmptyString => [EmptyString]
  | String c s' =>
      if bool_decide (c = "/"%char) then [EmptyString; s']
      else match split_slash_once s' with
           | hd :: tl => String c hd :: tl
           | [] => [String c EmptyString]
           end
  end.

(** [os.path.join(a, b)] of [posixpath], two string arguments. *)
Definition os_path_join (a b : string) : string :=
  if startswith b "/" then b
  else if bool_decide (a = "") || endswith a "/" then a +:+ b
  else a +:+ "/" +:+ b.

Definition LF : string := String (Ascii.ascii_of_nat 10) EmptyString.

(** [f % args] for the directives [%s] and [%d]; [args] are already
    rendered ([str] for [%s], [fmt_d] for [%d]).  Every use in
    [storage.py] supplies as many arguments as [f] has directives. *)
Fixpoint fmt (f : string) (args : list string) : string :=
  match f with
  | EmptyString => EmptyString
  | String c rest =>
      match rest with
      | String d rest' =>
          if bool_decide (c = "%"%char) &&
             (bool_decide (d = "s"%char) || bool_decide (d = "d"%char))
          then match args with
               | a :: args' => a +:+ fmt rest' args'
               | [] => String c (String d (fmt rest' []))
               end
          else String c (fmt rest args)
      | EmptyString => String c EmptyString
      end
  end.

End Py.

(** ** Exceptions and results *)

(** The exceptions that [except Exception] catches.  The text carried by
    a [TypeError] is the interpreter's and varies with its version. *)
Inductive exception : Type :=
| RuntimeError (msg : string)
| ValueError (msg : string)
| TypeError (msg : string)
| libvirtError (msg : string)
| OtherException (cls msg : string).

(** What the interpreter raises for [None.<attr>]. *)
Definition AttributeError_None (attr : string) : exception :=
  OtherException "AttributeError"
    (Py.fmt "'NoneType' object has no attribute '%s'" [attr]).

(** What the interpreter raises for [None > n]. *)
Definition TypeError_None_gt : exception :=
  TypeError "'>' not supported between instances of 'NoneType' and 'int'".

(** [str(e)] *)
Definition exc_str (e : exception) : string :=
  match e with
  | RuntimeError m | ValueError m | TypeError m | libvirtError m => m
  | OtherException _ m => m
  end.

(** [isinstance(e, libvirt.libvirtError)] *)
Definition is_libvirtError (e : exception) : bool :=
  match e with
  | libvirtError _ => true
  | _ => false
  end.

Inductive result (A : Type) : Type :=
| Return (a : A)
| Raise (e : exception).
Arguments Return {A} a.
Arguments Raise {A} e.

(** gettext in the untranslated locale. *)
Definition gettext (s : string) : string := s.

(** ** libvirt handles and the connection *)

(** A [libvirt.virStorageVol]. *)
Record virStorageVol : Type := {
  vol_key : string;
  vol_XMLDesc : Z -> result string;
}.

(** A [libvirt.virStoragePool]: what each of its calls answers. *)
Record virStoragePool : Type := {
  pool_name : string;
  pool_XMLDesc : Z -> result string;
  (** [info()]: [state, capacity, allocation, available] *)
  info : result (Z * Z * Z * Z);
  build : Z -> result unit;
  create : Z -> result unit;
  refresh : Z -> result unit;
  setAutostart : bool -> result unit;
  undefine : result unit;
  storageVolLookupByName : option string -> result virStorageVol;
  createXML : string -> Z -> result virStorageVol;
  createXMLFrom : string -> virStorageVol -> Z -> result virStorageVol;
}.

(** Constants of the libvirt binding. *)
Module libvirt.
Definition VIR_STORAGE_POOL_BUILD_NEW : Z := 0.
Definition VIR_STORAGE_POOL_RUNNING : Z := 2.
Definition VIR_STORAGE_VOL_CREATE_PREALLOC_METADATA : Z := 1.
Definition VIR_STORAGE_VOL_FILE : Z := 0.
Definition VIR_STORAGE_VOL_BLOCK : Z := 1.
Definition VIR_STORAGE_VOL_DIR : Z := 2.
Definition VIR_STORAGE_VOL_NETWORK : Z := 3.
Definition VIR_STORAGE_VOL_NETDIR : Z := 4.
End libvirt.

(** The connection object ([self.conn]) with its [support] probes. *)
Record Connection : Type := {
  is_session_uri : bool;
  is_really_test : bool;
  storagePoolLookupByName : option string -> result virStoragePool;
  storagePoolDefineXML : string -> Z -> result virStoragePool;
  findStoragePoolSources : string -> string -> Z -> result string;
  support_is_error_nosupport : exception -> bool;
  support_conn_qcow2_lazy_refcounts : bool;
  support_pool_metadata_prealloc : option virStoragePool -> bool;
}.

(** ** Observable events *)

Inductive log_level : Type := DEBUG | WARNING.

Inductive event : Type :=
| Log (level : log_level) (fmt : string) (args : list string)
| PoolBuild (pool : virStoragePool) (flags : Z)
| PoolCreate (pool : virStoragePool) (flags : Z)
| PoolRefresh (pool : virStoragePool) (flags : Z)
| PoolSetAutostart (pool : virStoragePool) (autostart : bool)
| PoolUndefine (pool : virStoragePool)
| PoolDefineXML (xml : string) (flags : Z)
| CacheNewPool (pool : virStoragePool)
| VolCreateXML (pool : virStoragePool) (xml : string) (flags : Z)
| VolCreateXMLFrom (pool : virStoragePool) (xml : string)
    (input_vol : virStorageVol) (flags : Z).

(** ** The monad of methods: object state, event trace, exceptions *)

Record outcome (St A : Type) : Type := Outcome {
  final : St;
  trace : list event;
  value : result A;
}.
Arguments Outcome {St A} final trace value.
Arguments final {St A} o.
Arguments trace {St A} o.
Arguments value {St A} o.

Definition M (St A : Type) : Type := St -> outcome St A.

Definition ret {St A} (a : A) : M St A :=
  fun s => Outcome s [] (Return a).

Definition raise {St A} (e : exception) : M St A :=
  fun s => Outcome s [] (Raise e).

Definition bind {St A B} (m : M St A) (f : A -> M St B) : M St B :=
  fun s =>
    let o := m s in
    match value o with
    | Return a =>
        let o' := f a (final o) in
        Outcome (final o') (trace o ++ trace o') (value o')
    | Raise e => Outcome (final o) (trace o) (Raise e)
    end.

Definition get {St} : M St St := fun s => Outcome s [] (Return s).
Definition modify {St} (f : St -> St) : M St unit :=
  fun s => Outcome (f s) [] (Return tt).
Definition emit {St} (ev : event) : M St unit :=
  fun s => Outcome s [ev] (Return tt).

(** A call whose answer is already a [result]. *)
Definition lift {St A} (r : result A) : M St A :=
  fun s => Outcome s [] r.

(** [try: m  except Exception as e: h e] *)
Definition try_except {St A} (m : M St A) (h : exception -> M St A) : M St A :=
  fun s =>
    let o := m s in
    match value o with
    | Return a => o
    | Raise e =>
        let o' := h e (final o) in
        Outcome (final o') (trace o ++ trace o') (value o')
    end.

Definition when {St} (b : bool) (m : M St unit) : M St unit :=
  if b then m else ret tt.

(** An outcome with more events before it. *)
Definition prepend {St A} (evs : list event) (o : outcome St A)
  : outcome St A :=
  Outcome (final o) (evs ++ trace o) (value o).

(** A method run on another object [o]: its events and exception are
    the caller's, its mutations stay in [o]. *)
Definition on_object {St Obj A} (o : Obj) (m : M Obj A) : M St (Obj * A) :=
  fun s =>
    let r := m o in
    Outcome s (trace r)
      match value r with
      | Return a => Return (final r, a)
      | Raise e => Raise e
      end.

(** [M St] with stdpp's monad notations: [x ← m; k] and [m;; k]. *)
#[global] Instance M_ret {St} : MRet (M St) := fun _ a => ret a.
#[global] Instance M_bind {St} : MBind (M St) := fun _ _ f m => bind m f.

(** ** The XMLBuilder base class

    [xmlbuilder.py] is outside this file; what [storage.py] uses of it
    is taken as an interface. *)

Class XMLBuilder (T : Type) : Type := {
  (** [hasattr(self, propname)] *)
  hasattr : T -> string -> bool;
  (** [self.get_xml()] *)
  get_xml : T -> string;
  (** [T(conn, parsexml=xml)] *)
  parsexml : Connection -> string -> T;
  (** [XMLBuilder.validate_generic_name(label, val)] *)
  validate_generic_name : string -> option string -> result unit;
  (** [self._prop_is_unset(propname)] *)
  _prop_is_unset : T -> string -> bool;
}.

(** ** Module-level constants *)

Definition _DEFAULT_DEV_TARGET : string := "/dev".
Definition _DEFAULT_LVM_TARGET_BASE : string := "/dev/".
Definition _DEFAULT_SCSI_TARGET : string := "/dev/disk/by-path".
Definition _DEFAULT_MPATH_TARGET : string := "/dev/mapper".

(** [os.path.expanduser] reads the process environment; its answer for
    the one path the module expands is a parameter of the process. *)
Record Environ : Type := {
  (** [os.path.expanduser] of [~/.local/share/libvirt/images] *)
  expanduser_images : string;
  (** [libvirt.VIR_STORAGE_VOL_CREATE_REFLINK], when the binding has it *)
  libvirt_VIR_STORAGE_VOL_CREATE_REFLINK : option Z;
}.

Definition _preferred_default_pool_path (env : Environ) (conn : Connection) : string :=
  if is_session_uri conn then expanduser_images env
  else "/var/lib/libvirt/images".

(** [StorageVolume.TYPE_*]: [getattr(libvirt, "VIR_STORAGE_VOL_*", n)],
    where each fallback [n] is the binding's own value. *)
Module VolumeType.
Definition TYPE_FILE : Z := libvirt.VIR_STORAGE_VOL_FILE.
Definition TYPE_BLOCK : Z := libvirt.VIR_STORAGE_VOL_BLOCK.
Definition TYPE_DIR : Z := libvirt.VIR_STORAGE_VOL_DIR.
Definition TYPE_NETWORK : Z := libvirt.VIR_STORAGE_VOL_NETWORK.
Definition TYPE_NETDIR : Z := libvirt.VIR_STORAGE_VOL_NETDIR.
End VolumeType.

(** ** StoragePool *)

Module StoragePool.

Definition TYPE_DIR : string := "dir".
Definition TYPE_FS : string := "fs".
Definition TYPE_NETFS : string := "netfs".
Definition TYPE_LOGICAL : string := "logical".
Definition TYPE_DISK : string := "disk".
Definition TYPE_ISCSI : string := "iscsi".
Definition TYPE_SCSI : string := "scsi".
Definition TYPE_MPATH : string := "mpath".
Definition TYPE_GLUSTER : string := "gluster".
Definition TYPE_RBD : string := "rbd".
Definition TYPE_SHEEPDOG : string := "sheepdog".
Definition TYPE_ZFS : string := "zfs".

(** The fixed set of pool types. *)
Definition all_types : list string :=
  [TYPE_DIR; TYPE_FS; TYPE_NETFS; TYPE_LOGICAL; TYPE_DISK; TYPE_ISCSI;
   TYPE_SCSI; TYPE_MPATH; TYPE_GLUSTER; TYPE_RBD; TYPE_SHEEPDOG; TYPE_ZFS].

(** [class _Host] *)
Record _Host : Type := {
  host_name : option string;
  host_port : option Z;
}.

(** The pool object: the XML properties the methods below read or
    write, and the names of the properties assigned so far
    ([_propstore]'s keys).  The property descriptors live in
    [xmlbuilder.py]; an assignment is taken to store the value and to
    record the property's name. *)
Record t : Type := {
  conn : Connection;
  name : option string;
  type : option string;
  format : option string;
  hosts : list _Host;
  _source_dir : option string;
  _source_adapter : option string;
  _source_device : option string;
  source_name : option string;
  target_path : option string;
  _propstore : gset string;
}.

(** [StoragePool(conn)] *)
Definition new (c : Connection) : t :=
  {| conn := c; name := None; type := None; format := None; hosts := [];
     _source_dir := None; _source_adapter := None; _source_device := None;
     source_name := None; target_path := None; _propstore := ∅ |}.

(** Property assignments [self.<prop> = v]. *)
Definition set_type (v : option string) (self : t) : t :=
  {| conn := conn self; name := name self; type := v; format := format self;
     hosts := hosts self; _source_dir := _source_dir self;
     _source_adapter := _source_adapter self;
     _source_device := _source_device self;
     source_name := source_name self; target_path := target_path self;
     _propstore := {["type"]} ∪ _propstore self |}.

Definition set_format (v : option string) (self : t) : t :=
  {| conn := conn self; name := name self; type := type self; format := v;
     hosts := hosts self; _source_dir := _source_dir self;
     _source_adapter := _source_adapter self;
     _source_device := _source_device self;
     source_name := source_name self; target_path := target_path self;
     _propstore := {["format"]} ∪ _propstore self |}.

Definition set_source_dir (v : option string) (self : t) : t :=
  {| conn := conn self; name := name self; type := type self;
     format := format self; hosts := hosts self; _source_dir := v;
     _source_adapter := _source_adapter self;
     _source_device := _source_device self;
     source_name := source_name self; target_path := target_path self;
     _propstore := {["_source_dir"]} ∪ _propstore self |}.

Definition set_source_adapter (v : option string) (self : t) : t :=
  {| conn := conn self; name := name self; type := type self;
     format := format self; hosts := hosts self;
     _source_dir := _source_dir self; _source_adapter := v;
     _source_device := _source_device self;
     source_name := source_name self; target_path := target_path self;
     _propstore := {["_source_adapter"]} ∪ _propstore self |}.

Definition set_source_device (v : option string) (self : t) : t :=
  {| conn := conn self; name := name self; type := type self;
     format := format self; hosts := hosts self;
     _source_dir := _source_dir self;
     _source_adapter := _source_adapter self; _source_device := v;
     source_name := source_name self; target_path := target_path self;
     _propstore := {["_source_device"]} ∪ _propstore self |}.

Definition set_source_name (v : option string) (self : t) : t :=
  {| conn := conn self; name := name self; type := type self;
     format := format self; hosts := hosts self;
     _source_dir := _source_dir self;
     _source_adapter := _source_adapter self;
     _source_device := _source_device self;
     source_name := v; target_path := target_path self;
     _propstore := {["source_name"]} ∪ _propstore self |}.

Definition set_target_path (v : option string) (self : t) : t :=
  {| conn := conn self; name := name self; type := type self;
     format := format self; hosts := hosts self;
     _source_dir := _source_dir self;
     _source_adapter := _source_adapter self;
     _source_device := _source_device self;
     source_name := source_name self; target_path := v;
     _propstore := {["target_path"]} ∪ _propstore self |}.

(** [obj.add_child(h)] for every host of a list, in order. *)
Definition add_hosts (hs : list _Host) (self : t) : t :=
  {| conn := conn self; name := name self; type := type self;
     format := format self; hosts := hosts self ++ hs;
     _source_dir := _source_dir self;
     _source_adapter := _source_adapter self;
     _source_device := _source_device self;
     source_name := source_name self; target_path := target_path self;
     _propstore := _propstore self |}.

(** [self.type == ty] *)
Definition type_is (self : t) (ty : string) : bool :=
  bool_decide (type self = Some ty).

(** The table [users] of [supports_property]. *)
Definition users : gmap string (list string) :=
  <["source_path" := [TYPE_FS; TYPE_NETFS; TYPE_LOGICAL; TYPE_DISK;
                      TYPE_ISCSI; TYPE_SCSI; TYPE_GLUSTER]]> $
  <["source_name" := [TYPE_LOGICAL; TYPE_GLUSTER; TYPE_RBD;
                      TYPE_SHEEPDOG; TYPE_ZFS]]> $
  <["hosts" := [TYPE_NETFS; TYPE_ISCSI; TYPE_GLUSTER; TYPE_RBD;
                TYPE_SHEEPDOG]]> $
  <["format" := [TYPE_FS; TYPE_NETFS; TYPE_DISK]]> $
  <["iqn" := [TYPE_ISCSI]]> $
  <["target_path" := [TYPE_DIR; TYPE_FS; TYPE_NETFS; TYPE_LOGICAL;
                      TYPE_DISK; TYPE_ISCSI; TYPE_SCSI; TYPE_MPATH]]> ∅.

(** [ensure_pool_is_running(pool_object, refresh)], a static method. *)
Definition ensure_pool_is_running {St} (pool_object : option virStoragePool)
    (refresh' : bool) : M St unit :=
  match pool_object with
  | None => raise (AttributeError_None "info")
  | Some p =>
      '(state, _, _, _) ← lift (info p);
      when (negb (state =? libvirt.VIR_STORAGE_POOL_RUNNING))
        (emit (Log DEBUG "starting pool=%s" [pool_name p]);;
         emit (PoolCreate p 0);;
         lift (create p 0));;
      when refresh'
        (emit (Log DEBUG "refreshing pool=%s" [pool_name p]);;
         emit (PoolRefresh p 0);;
         lift (refresh p 0))
  end.

Section Methods.
Context `{!XMLBuilder t} (env : Environ).

(** [if users.get(propname): return self.type in users[propname]]
    and otherwise [hasattr(self, propname)]. *)
Definition supports_property (self : t) (propname : string) : bool :=
  match users !! propname with
  | Some (ty :: tys) => Py.contains (ty :: tys) (type self)
  | Some [] | None => hasattr self propname
  end.

Definition default_target_path (self : t) : result (option string) :=
  if negb (supports_property self "target_path") then Return None
  else if type_is self TYPE_DIR || type_is self TYPE_NETFS ||
          type_is self TYPE_FS then
    match name self with
    | Some n =>
        Return (Some (Py.os_path_join
                        (_preferred_default_pool_path env (conn self)) n))
    | None =>
        Raise (TypeError
          "expected str, bytes or os.PathLike object, not NoneType")
    end
  else if type_is self TYPE_LOGICAL then
    let name' := if Py.truthy (source_name self) then source_name self
                 else name self in
    match name' with
    | Some n => Return (Some (_DEFAULT_LVM_TARGET_BASE +:+ n))
    | None => Raise (TypeError "must be str, not NoneType")
    end
  else if type_is self TYPE_DISK then Return (Some _DEFAULT_DEV_TARGET)
  else if type_is self TYPE_ISCSI || type_is self TYPE_SCSI then
    Return (Some _DEFAULT_SCSI_TARGET)
  else if type_is self TYPE_MPATH then Return (Some _DEFAULT_MPATH_TARGET)
  else Raise (RuntimeError
                (Py.fmt "No default target_path for type=%s"
                   [Py.str (type self)])).

Definition _type_to_source_prop (self : t) : string :=
  if type_is self TYPE_NETFS || type_is self TYPE_GLUSTER then "_source_dir"
  else if type_is self TYPE_SCSI then "_source_adapter"
  else "_source_device".

(** [getattr(self, self._type_to_source_prop())] *)
Definition source_path (self : t) : option string :=
  let prop := _type_to_source_prop self in
  if bool_decide (prop = "_source_dir") then _source_dir self
  else if bool_decide (prop = "_source_adapter") then _source_adapter self
  else _source_device self.

(** [setattr(self, self._type_to_source_prop(), val)] *)
Definition set_source_path (val : option string) (self : t) : t :=
  let prop := _type_to_source_prop self in
  if bool_decide (prop = "_source_dir") then set_source_dir val self
  else if bool_decide (prop = "_source_adapter")
       then set_source_adapter val self
  else set_source_device val self.

Definition default_source_name (self : t) : option string :=
  if negb (supports_property self "source_name") then None
  else if type_is self TYPE_NETFS then name self
  else if type_is self TYPE_RBD then Some "rbd"
  else if type_is self TYPE_GLUSTER then Some "gv0"
  else if bool_decide ("target_path" ∈ _propstore self) &&
          Py.truthy (target_path self) &&
          Py.startswith (Py.str (target_path self))
            _DEFAULT_LVM_TARGET_BASE then
    let vg := Py.slice_from (String.length _DEFAULT_LVM_TARGET_BASE)
                (Py.str (target_path self)) in
    head (Py.split_slash_once vg)
  else None.

Definition get_disk_type (self : t) : Z :=
  if type_is self TYPE_DISK || type_is self TYPE_LOGICAL ||
     type_is self TYPE_SCSI || type_is self TYPE_MPATH ||
     type_is self TYPE_ZFS then VolumeType.TYPE_BLOCK
  else if type_is self TYPE_GLUSTER || type_is self TYPE_RBD ||
          type_is self TYPE_ISCSI || type_is self TYPE_SHEEPDOG
       then VolumeType.TYPE_NETWORK
  else VolumeType.TYPE_FILE.

(** [validate_name(conn, name)], a static method. *)
Definition validate_name (c : Connection) (nm : option string)
  : result unit :=
  match validate_generic_name (gettext "Storage object") nm with
  | Raise e => Raise e
  | Return _ =>
      match storagePoolLookupByName c nm with
      | Raise e => if is_libvirtError e then Return tt else Raise e
      | Return _ =>
          Raise (ValueError
                   (gettext (Py.fmt
                      "Name '%s' already in use by another pool."
                      [Py.str nm])))
      end
  end.

Definition validate : M t unit :=
  self ← get;
  lift (validate_name (conn self) (name self));;
  when (negb (Py.truthy (target_path self)))
    (v ← lift (default_target_path self);
     modify (set_target_path v));;
  self ← get;
  when (negb (Py.truthy (source_name self)))
    (modify (set_source_name (default_source_name self)));;
  self ← get;
  when (negb (Py.truthy (format self)) &&
        supports_property self "format")
    (modify (set_format (Some "auto")));;
  self ← get;
  when (supports_property self "hosts" &&
        bool_decide (hosts self = []))
    (raise (RuntimeError (gettext "Hostname is required")));;
  when (supports_property self "source_path" &&
        negb (type_is self TYPE_LOGICAL) &&
        negb (Py.truthy (source_path self)))
    (raise (RuntimeError (gettext "Source path is required")));;
  when (type_is self TYPE_DISK &&
        bool_decide (format self = Some "auto"))
    (modify (set_format None)).

(** One guarded libvirt call of [install]: [try: call  except
    Exception as e: errmsg = _(msg) % str(e)], run only when
    [enabled] and no earlier stage has failed. *)
Definition install_stage (enabled : bool) (errmsg : option string)
    (ev : event) (call : result unit) (msg : string)
  : M t (option string) :=
  if enabled && negb (Py.truthy errmsg) then
    try_except (emit ev;; lift call;; mret errmsg)
      (fun e => mret (Some (Py.fmt (gettext msg) [exc_str e])))
  else mret errmsg.

(** [install(meter, create, build, autostart)]; the progress meter
    takes no part in the outcome. *)
Definition install (create' build' autostart : bool)
  : M t virStoragePool :=
  self ← get;
  when (type_is self TYPE_LOGICAL && build' &&
        negb (Py.truthy (source_path self)))
    (raise (ValueError (gettext
       "Must explicitly specify source path if building pool")));;
  when (type_is self TYPE_DISK && build' &&
        bool_decide (format self = Some "auto"))
    (raise (ValueError (gettext
       "Must explicitly specify disk format if formatting disk device.")));;
  let xml := get_xml self in
  emit (Log DEBUG ("Creating storage pool '%s' with xml:" +:+ Py.LF +:+ "%s")
          [Py.str (name self); xml]);;
  pool ← try_except
           (emit (PoolDefineXML xml 0);;
            lift (storagePoolDefineXML (conn self) xml 0))
           (fun e => raise (RuntimeError
              (Py.fmt (gettext "Could not define storage pool: %s")
                 [exc_str e])));
  errmsg ← install_stage build' None
             (PoolBuild pool libvirt.VIR_STORAGE_POOL_BUILD_NEW)
             (build pool libvirt.VIR_STORAGE_POOL_BUILD_NEW)
             "Could not build storage pool: %s";
  errmsg ← install_stage create' errmsg
             (PoolCreate pool 0) (create pool 0)
             "Could not start storage pool: %s";
  errmsg ← install_stage autostart errmsg
             (PoolSetAutostart pool true) (setAutostart pool true)
             "Could not set pool autostart flag: %s";
  if Py.truthy errmsg then
    try_except (emit (PoolUndefine pool);; lift (undefine pool))
      (fun e => emit (Log DEBUG "Error cleaning up pool after failure: %s"
                        [exc_str e]));;
    raise (RuntimeError (Py.str errmsg))
  else
    emit (CacheNewPool pool);;
    mret pool.

(** [_EnumerateSources(conn, xml).sources], each as its
    [get_xml()]; the class is a bare XMLBuilder. *)
Variable enumerate_sources : Connection -> string -> list string.

(** The body of the loop of [pool_list_from_sources]. *)
Definition pool_from_source (c : Connection) (pool_type source_xml : string)
  : t :=
  let pool_xml := Py.fmt ("<pool>" +:+ Py.LF +:+ "%s" +:+ Py.LF +:+ "</pool>")
                    [source_xml] in
  let parseobj := set_type (Some pool_type) (parsexml c pool_xml) in
  let obj := set_type (Some pool_type) (new c) in
  let obj := set_source_path (source_path parseobj) obj in
  let obj := add_hosts (hosts parseobj) obj in
  let obj := set_source_name (source_name parseobj) obj in
  set_format (format parseobj) obj.

(** [pool_list_from_sources(conn, pool_type, host)], a static method. *)
Definition pool_list_from_sources (c : Connection) (pool_type : string)
    (host : option string) : result (list t) :=
  let source_xml :=
    if Py.truthy host
    then Py.fmt "<source><host name='%s'/></source>" [Py.str host]
    else "<source/>" in
  match findStoragePoolSources c pool_type source_xml 0 with
  | Raise e =>
      if support_is_error_nosupport c e then Return [] else Raise e
  | Return xml =>
      Return (map (pool_from_source c pool_type) (enumerate_sources c xml))
  end.

(** [self.name = v] *)
Definition set_name (v : option string) (self : t) : t :=
  {| conn := conn self; name := v; type := type self;
     format := format self; hosts := hosts self;
     _source_dir := _source_dir self;
     _source_adapter := _source_adapter self;
     _source_device := _source_device self;
     source_name := source_name self; target_path := target_path self;
     _propstore := {["name"]} ∪ _propstore self |}.

(** [conn.fetch_all_pools()]: the pool objects the connection caches;
    and [os.path.abspath], which reads the working directory. *)
Variable fetch_all_pools : Connection -> list t.
Variable os_path_abspath : string -> string.

(** The test of the loop of [_lookup_poolxml_by_path]. *)
Definition targets_path (path : string) (poolxml : t) : bool :=
  match target_path poolxml with
  | Some xml_path => bool_decide (os_path_abspath xml_path = path)
  | None => false
  end.

Definition _lookup_poolxml_by_path (c : Connection) (path : string)
  : option t :=
  List.find (targets_path path) (fetch_all_pools c).

(** [_lookup_default_pool(conn)]: the [for ... else] keeps the first
    pool named [default] and otherwise looks the default path up. *)
Definition _lookup_default_pool {St} (c : Connection) : M St (option t) :=
  let name' := "default" in
  let path := _preferred_default_pool_path env c in
  let poolxml :=
    match List.find (fun trypool => bool_decide (name trypool = Some name'))
            (fetch_all_pools c) with
    | Some trypool => Some trypool
    | None => _lookup_poolxml_by_path c path
    end in
  match poolxml with
  | Some found =>
      emit (Log DEBUG "Found default pool name=%s target=%s"
              [Py.str (name found); Py.str (target_path found)]);;
      mret poolxml
  | None => mret poolxml
  end.

(** [build_default_pool(conn, build)], a static method. *)
Definition build_default_pool {St} (c : Connection) (build' : bool)
  : M St (option t) :=
  poolxml ← _lookup_default_pool c;
  match poolxml with
  | Some found => mret (Some found)
  | None =>
      if negb build' then mret None
      else
        let name' := "default" in
        let path := _preferred_default_pool_path env c in
        try_except
          (emit (Log DEBUG
                   "Attempting to build default pool with target '%s'"
                   [path]);;
           let defpool := new c in
           let defpool := set_type (Some TYPE_DIR) defpool in
           let defpool := set_name (Some name') defpool in
           let defpool := set_target_path (Some path) defpool in
           '(defpool, _) ← on_object defpool (install true true true);
           mret (Some defpool))
          (fun e =>
             raise (RuntimeError
                      (Py.fmt (gettext
                         "Couldn't create default storage pool '%s': %s")
                         [path; exc_str e])))
  end.

(** [lookup_pool_by_path(conn, path)], a static method. *)
Definition lookup_pool_by_path (c : Connection) (path : string)
  : result (option virStoragePool) :=
  match _lookup_poolxml_by_path c path with
  | None => Return None
  | Some poolxml =>
      match storagePoolLookupByName c (name poolxml) with
      | Return pool => Return (Some pool)
      | Raise e => Raise e
      end
  end.

End Methods.

End StoragePool.

(** ** StorageVolume *)

Module StorageVolume.

Definition TYPE_FILE : Z := VolumeType.TYPE_FILE.
Definition TYPE_BLOCK : Z := VolumeType.TYPE_BLOCK.
Definition TYPE_DIR : Z := VolumeType.TYPE_DIR.
Definition TYPE_NETWORK : Z := VolumeType.TYPE_NETWORK.
Definition TYPE_NETDIR : Z := VolumeType.TYPE_NETDIR.

(** The volume object: its XML properties, and the attributes set by
    [__init__] ([_input_vol], [_pool], [_pool_xml], [_reflink]). *)
Record t : Type := {
  conn : Connection;
  name : option string;
  type : option string;
  capacity : option Z;
  allocation : option Z;
  format : option string;
  backing_store : option string;
  backing_format : option string;
  lazy_refcounts : option bool;
  _input_vol : option virStorageVol;
  _pool : option virStoragePool;
  _pool_xml : option StoragePool.t;
  _reflink : bool;
}.

(** [self.pool] and [self.input_vol] and [self.reflink] read the
    private attributes. *)
Definition pool (self : t) : option virStoragePool := _pool self.
Definition input_vol (self : t) : option virStorageVol := _input_vol self.
Definition reflink (self : t) : bool := _reflink self.

Definition set_format (v : option string) (self : t) : t :=
  {| conn := conn self; name := name self; type := type self;
     capacity := capacity self; allocation := allocation self;
     format := v; backing_store := backing_store self;
     backing_format := backing_format self;
     lazy_refcounts := lazy_refcounts self;
     _input_vol := _input_vol self; _pool := _pool self;
     _pool_xml := _pool_xml self; _reflink := _reflink self |}.

Definition set_allocation (v : option Z) (self : t) : t :=
  {| conn := conn self; name := name self; type := type self;
     capacity := capacity self; allocation := v;
     format := format self; backing_store := backing_store self;
     backing_format := backing_format self;
     lazy_refcounts := lazy_refcounts self;
     _input_vol := _input_vol self; _pool := _pool self;
     _pool_xml := _pool_xml self; _reflink := _reflink self |}.

Definition set_backing_format (v : option string) (self : t) : t :=
  {| conn := conn self; name := name self; type := type self;
     capacity := capacity self; allocation := allocation self;
     format := format self; backing_store := backing_store self;
     backing_format := v;
     lazy_refcounts := lazy_refcounts self;
     _input_vol := _input_vol self; _pool := _pool self;
     _pool_xml := _pool_xml self; _reflink := _reflink self |}.

Definition set_lazy_refcounts (v : option bool) (self : t) : t :=
  {| conn := conn self; name := name self; type := type self;
     capacity := capacity self; allocation := allocation self;
     format := format self; backing_store := backing_store self;
     backing_format := backing_format self;
     lazy_refcounts := v;
     _input_vol := _input_vol self; _pool := _pool self;
     _pool_xml := _pool_xml self; _reflink := _reflink self |}.

Definition set__pool (p : option virStoragePool) (self : t) : t :=
  {| conn := conn self; name := name self; type := type self;
     capacity := capacity self; allocation := allocation self;
     format := format self; backing_store := backing_store self;
     backing_format := backing_format self;
     lazy_refcounts := lazy_refcounts self;
     _input_vol := _input_vol self; _pool := p;
     _pool_xml := _pool_xml self; _reflink := _reflink self |}.

Definition set__pool_xml (pxml : option StoragePool.t) (self : t) : t :=
  {| conn := conn self; name := name self; type := type self;
     capacity := capacity self; allocation := allocation self;
     format := format self; backing_store := backing_store self;
     backing_format := backing_format self;
     lazy_refcounts := lazy_refcounts self;
     _input_vol := _input_vol self; _pool := _pool self;
     _pool_xml := pxml; _reflink := _reflink self |}.

(** [flags & flag == flag] *)
Definition has_flag (flags flag : Z) : bool :=
  Z.land flags flag =? flag.

Section Methods.
Context `{!XMLBuilder StoragePool.t} `{!XMLBuilder t} (env : Environ).

(** [_get_vol_type], the [file_type] property. *)
Definition file_type (self : t) : result Z :=
  let from_pool :=
    match _pool_xml self with
    | Some pxml => Return (StoragePool.get_disk_type pxml)
    | None => Raise (AttributeError_None "get_disk_type")
    end in
  if Py.truthy (type self) then
    if bool_decide (type self = Some "file") then Return TYPE_FILE
    else if bool_decide (type self = Some "block") then Return TYPE_BLOCK
    else if bool_decide (type self = Some "dir") then Return TYPE_DIR
    else if bool_decide (type self = Some "network")
         then Return TYPE_NETWORK
    else from_pool
  else from_pool.

Definition _supports_format (self : t) : result bool :=
  match file_type self with
  | Raise e => Raise e
  | Return ft =>
      if ft =? TYPE_FILE then Return true
      else match _pool_xml self with
           | None => Raise (AttributeError_None "type")
           | Some pxml =>
               Return (StoragePool.type_is pxml StoragePool.TYPE_GLUSTER)
           end
  end.

Definition supports_property (self : t) (propname : string)
  : result bool :=
  if bool_decide (propname = "format") then _supports_format self
  else Return (hasattr self propname).

(** [validate_name(pool, name)], a static method. *)
Definition validate_name (p : option virStoragePool) (nm : option string)
  : result unit :=
  match validate_generic_name (T:=t) (gettext "Storage object") nm with
  | Raise e => Raise e
  | Return _ =>
      match p with
      | None => Raise (AttributeError_None "storageVolLookupByName")
      | Some p =>
          match storageVolLookupByName p nm with
          | Raise e => if is_libvirtError e then Return tt else Raise e
          | Return _ =>
              Raise (ValueError
                       (gettext (Py.fmt
                          "Name '%s' already in use by another volume."
                          [Py.str nm])))
          end
      end
  end.

Definition MiB : Z := 1024 * 1024.

Definition is_size_conflict (self : t) : result (bool * string) :=
  match pool self with
  | None => Return (false, "")
  | Some p =>
      match info p with
      | Raise e => Raise e
      | Return (_, _, _, avail) =>
          match allocation self with
          | None => Raise TypeError_None_gt
          | Some alloc =>
              if alloc >? avail then
                Return (true,
                  Py.fmt (gettext
                    ("There is not enough free space on the storage " +:+
                     "pool to create the volume. " +:+
                     "(%d M requested allocation > %d M available)"))
                    [Py.fmt_d (alloc / MiB); Py.fmt_d (avail / MiB)])
              else
                match capacity self with
                | None => Raise TypeError_None_gt
                | Some cap =>
                    if cap >? avail then
                      Return (false,
                        Py.fmt (gettext
                          ("The requested volume capacity will exceed the " +:+
                           "available pool space when the volume is fully " +:+
                           "allocated. " +:+
                           "(%d M requested capacity > %d M available)"))
                          [Py.fmt_d (cap / MiB); Py.fmt_d (avail / MiB)])
                    else Return (false, "")
                end
          end
      end
  end.

Definition validate : M t unit :=
  self ← get;
  lift (validate_name (pool self) (name self));;
  when (negb (Py.truthy (format self)))
    (ft ← lift (file_type self);
     when (ft =? TYPE_FILE) (modify (set_format (Some "raw"))));;
  self ← get;
  when (_prop_is_unset self "lazy_refcounts" &&
        bool_decide (format self = Some "qcow2"))
    (modify (set_lazy_refcounts
               (Some (support_conn_qcow2_lazy_refcounts (conn self)))));;
  pxml ← lift (match _pool_xml self with
               | Some pxml => Return pxml
               | None => Raise (AttributeError_None "type")
               end);
  when (StoragePool.type_is pxml StoragePool.TYPE_LOGICAL)
    (self ← get;
     when (negb (bool_decide (allocation self = capacity self)))
       (emit (Log WARNING
                (gettext ("Sparse logical volumes are not supported, " +:+
                          "setting allocation equal to capacity")) []);;
        modify (set_allocation (capacity self))));;
  self ← get;
  '(isfatal, errmsg) ← lift (is_size_conflict self);
  when isfatal (raise (ValueError errmsg));;
  when (bool_decide (errmsg ≠ "")) (emit (Log WARNING errmsg [])).

(** [_set_pool], the setter of the [pool] property. *)
Definition _set_pool (newpool : option virStoragePool) : M t unit :=
  StoragePool.ensure_pool_is_running newpool false;;
  modify (set__pool newpool);;
  self ← get;
  xml ← match _pool self with
        | Some p => lift (pool_XMLDesc p 0)
        | None => raise (AttributeError_None "XMLDesc")
        end;
  modify (set__pool_xml (Some (parsexml (conn self) xml))).

(** [diskbackend.manage_path(conn, path)]: the volume and pool that
    own a path; [diskbackend.py] is outside this file. *)
Variable manage_path :
  Connection -> option string ->
  result (option virStorageVol * option virStoragePool).

Definition _detect_backing_store_format : M t (option string) :=
  self ← get;
  emit (Log DEBUG "Attempting to detect format for backing_store=%s"
          [Py.str (backing_store self)]);;
  '(vol, pool') ← lift (manage_path (conn self) (backing_store self));
  match vol with
  | None =>
      emit (Log DEBUG "Didn't find any volume for backing_store" []);;
      mret None
  | Some vol =>
      xml ← lift (vol_XMLDesc vol 0);
      '(volxml, _) ← on_object (parsexml (conn self) xml)
                       (_set_pool pool');
      emit (Log DEBUG ("Found backing store volume XML:" +:+ Py.LF +:+ "%s")
              [get_xml volxml]);;
      sup ← lift (supports_property volxml "format");
      if sup : bool then
        emit (Log DEBUG "Returning format=%s" [Py.str (format volxml)]);;
        mret (format volxml)
      else
        emit (Log DEBUG
                ("backing_store volume doesn't appear to have " +:+
                 "a file format we can specify, returning None") []);;
        mret None
  end.

(** [getattr(libvirt, "VIR_STORAGE_VOL_CREATE_REFLINK", 1)] *)
Definition reflink_flag : Z :=
  default 1 (libvirt_VIR_STORAGE_VOL_CREATE_REFLINK env).

(** The condition under which [install] asks for metadata
    preallocation. *)
Definition wants_prealloc_metadata (self : t) : bool :=
  bool_decide (format self = Some "qcow2") &&
  negb (Py.truthy (backing_store self)) &&
  negb (is_really_test (conn self)) &&
  support_pool_metadata_prealloc (conn self) (pool self).

(** The flags [install] builds: [(cloneflags, createflags)]. *)
Definition install_flags (self : t) : Z * Z :=
  let cloneflags := 0 in
  let createflags := 0 in
  let '(cloneflags, createflags) :=
    if wants_prealloc_metadata self then
      let createflags :=
        Z.lor createflags libvirt.VIR_STORAGE_VOL_CREATE_PREALLOC_METADATA in
      if bool_decide (capacity self = allocation self) then
        (Z.lor cloneflags libvirt.VIR_STORAGE_VOL_CREATE_PREALLOC_METADATA,
         createflags)
      else (cloneflags, createflags)
    else (cloneflags, createflags) in
  let cloneflags :=
    if reflink self then Z.lor cloneflags reflink_flag else cloneflags in
  (cloneflags, createflags).

(** [install(meter)].  The progress thread and the meter only
    observe the creation; the embedding keeps the calls made on the
    pool and what [install] answers. *)
Definition install : M t virStorageVol :=
  self ← get;
  when (Py.truthy (backing_store self) &&
        negb (Py.truthy (backing_format self)))
    (f ← _detect_backing_store_format;
     modify (set_backing_format f));;
  self ← get;
  let xml := get_xml self in
  emit (Log DEBUG
          ("Creating storage volume '%s' with xml:" +:+ Py.LF +:+ "%s")
          [Py.str (name self); xml]);;
  let '(cloneflags, createflags) := install_flags self in
  try_except
    (vol ← match input_vol self with
           | Some iv =>
               match pool self with
               | Some p =>
                   emit (VolCreateXMLFrom p xml iv cloneflags);;
                   lift (createXMLFrom p xml iv cloneflags)
               | None => raise (AttributeError_None "createXMLFrom")
               end
           | None =>
               emit (Log DEBUG "Using vol create flags=%s"
                       [Py.fmt_d createflags]);;
               match pool self with
               | Some p =>
                   emit (VolCreateXML p xml createflags);;
                   lift (createXML p xml createflags)
               | None => raise (AttributeError_None "createXML")
               end
           end;
     emit (Log DEBUG "Storage volume '%s' install complete."
             [Py.str (name self)]);;
     mret vol)
    (fun e =>
       emit (Log DEBUG "Error creating storage volume" []);;
       raise (RuntimeError
                (Py.fmt "Couldn't create storage volume '%s': '%s'"
                   [Py.str (name self); exc_str e]))).

(** [get_file_extension_for_format(fmt)], a static method. *)
Definition get_file_extension_for_format (fmt : option string) : string :=
  if negb (Py.truthy fmt) then ""
  else if bool_decide (fmt = Some "raw") then ".img"
  else "." +:+ Py.str fmt.

Definition set_capacity (v : option Z) (self : t) : t :=
  {| conn := conn self; name := name self; type := type self;
     capacity := v; allocation := allocation self;
     format := format self; backing_store := backing_store self;
     backing_format := backing_format self;
     lazy_refcounts := lazy_refcounts self;
     _input_vol := _input_vol self; _pool := _pool self;
     _pool_xml := _pool_xml self; _reflink := _reflink self |}.

(** [_set_reflink], the setter of the [reflink] property. *)
Definition set_reflink (v : bool) (self : t) : t :=
  {| conn := conn self; name := name self; type := type self;
     capacity := capacity self; allocation := allocation self;
     format := format self; backing_store := backing_store self;
     backing_format := backing_format self;
     lazy_refcounts := lazy_refcounts self;
     _input_vol := _input_vol self; _pool := _pool self;
     _pool_xml := _pool_xml self; _reflink := v |}.

(** [virStorageVol.storagePoolLookupByVolume()] *)
Variable storagePoolLookupByVolume : virStorageVol -> result virStoragePool.

Definition sync_input_vol (only_format : bool) : M t unit :=
  self ← get;
  xml ← match _input_vol self with
        | Some iv => lift (vol_XMLDesc iv 0)
        | None => raise (AttributeError_None "XMLDesc")
        end;
  let parsevol := parsexml (conn self) xml in
  modify (set_format (format parsevol));;
  modify (set_capacity (capacity parsevol));;
  modify (set_allocation (allocation parsevol));;
  if only_format then mret tt
  else
    self ← get;
    newpool ← match _input_vol self with
              | Some iv => lift (storagePoolLookupByVolume iv)
              | None => raise (AttributeError_None "storagePoolLookupByVolume")
              end;
    _set_pool (Some newpool).

End Methods.

End StorageVolume.

(** ** Concrete objects, used to exercise the methods *)

Module Fixtures.

Definition a_volume : virStorageVol :=
  {| vol_key := "/dev/vg0/lv0"; vol_XMLDesc := fun _ => Return "<volume/>" |}.

(** A pool handle of which every call succeeds; [avail] is the free
    space that [info()] reports. *)
Definition healthy_pool (avail : Z) : virStoragePool :=
  {| pool_name := "vg0";
     pool_XMLDesc := fun _ => Return "<pool type='logical'/>";
     info := Return (libvirt.VIR_STORAGE_POOL_RUNNING,
                     100 * 1024 * 1024 * 1024, 0, avail);
     build := fun _ => Return tt;
     create := fun _ => Return tt;
     refresh := fun _ => Return tt;
     setAutostart := fun _ => Return tt;
     undefine := Return tt;
     storageVolLookupByName :=
       fun _ => Raise (libvirtError "Storage volume not found");
     createXML := fun _ _ => Return a_volume;
     createXMLFrom := fun _ _ _ => Return a_volume |}.

(** A pool handle whose [create] fails and whose [undefine] fails
    as well. *)
Definition failing_pool : virStoragePool :=
  {| pool_name := "p0";
     pool_XMLDesc := fun _ => Return "<pool type='dir'/>";
     info := Return (0, 0, 0, 0);
     build := fun _ => Return tt;
     create := fun _ => Raise (libvirtError "cannot open directory");
     refresh := fun _ => Return tt;
     setAutostart := fun _ => Return tt;
     undefine := Raise (libvirtError "pool is busy");
     storageVolLookupByName :=
       fun _ => Raise (libvirtError "Storage volume not found");
     createXML := fun _ _ => Return a_volume;
     createXMLFrom := fun _ _ _ => Return a_volume |}.

(** A system connection on which no pool exists yet and on which
    source discovery answers [discovery]. *)
Definition a_conn (defined : virStoragePool) (discovery : result string)
  : Connection :=
  {| is_session_uri := false;
     is_really_test := false;
     storagePoolLookupByName :=
       fun _ => Raise (libvirtError "Storage pool not found");
     storagePoolDefineXML := fun _ _ => Return defined;
     findStoragePoolSources := fun _ _ _ => discovery;
     support_is_error_nosupport :=
       fun e => match e with
                | libvirtError m =>
                    bool_decide (m = "this function is not supported")
                | _ => false
                end;
     support_conn_qcow2_lazy_refcounts := true;
     support_pool_metadata_prealloc := fun _ => true |}.

Definition conn0 : Connection :=
  a_conn (healthy_pool 0) (Return "<sources/>").

Definition env0 : Environ :=
  {| expanduser_images := "/home/user/.local/share/libvirt/images";
     libvirt_VIR_STORAGE_VOL_CREATE_REFLINK := Some 2 |}.

(** The generic name check: a name must be given. *)
Definition name_given (label : string) (nm : option string) : result unit :=
  if Py.truthy nm then Return tt
  else Raise (ValueError
                (Py.fmt "A name must be specified for the %s." [label])).

Definition pool_builder : XMLBuilder StoragePool.t :=
  {| hasattr := fun _ propname =>
       bool_decide (propname ∈ ["name"; "type"; "uuid"; "permissions"]);
     get_xml := fun self => "<pool/>";
     parsexml := fun c _ => StoragePool.new c;
     validate_generic_name := name_given;
     _prop_is_unset := fun self propname =>
       bool_decide (propname ∉ StoragePool._propstore self) |}.

Definition a_pool_on (c : Connection) (ty : string) (nm : string)
  : StoragePool.t :=
  {| StoragePool.conn := c;
     StoragePool.name := Some nm;
     StoragePool.type := Some ty;
     StoragePool.format := None;
     StoragePool.hosts := [];
     StoragePool._source_dir := None;
     StoragePool._source_adapter := None;
     StoragePool._source_device := None;
     StoragePool.source_name := None;
     StoragePool.target_path := None;
     StoragePool._propstore := {["name"; "type"]} |}.

Definition a_pool : string → string → StoragePool.t := a_pool_on conn0.

(** A disk pool and a filesystem pool with their source device given,
    and no format. *)
Definition disk_pool : StoragePool.t :=
  StoragePool.set_source_device (Some "/dev/sdb") (a_pool "disk" "disk0").

Definition fs_pool : StoragePool.t :=
  StoragePool.set_source_device (Some "/dev/sdc1") (a_pool "fs" "fs0").

(** A directory pool on a connection whose pools fail to start. *)
Definition doomed_pool : StoragePool.t :=
  a_pool_on (a_conn failing_pool (Return "<sources/>")) "dir" "p0".

(** A connection whose libvirt cannot enumerate pool sources. *)
Definition old_conn : Connection :=
  a_conn (healthy_pool 0)
    (Raise (libvirtError "this function is not supported")).

Definition volume_builder : XMLBuilder StorageVolume.t :=
  {| hasattr := fun _ propname =>
       bool_decide (propname ∈ ["name"; "type"; "capacity"; "allocation"]);
     get_xml := fun self => "<volume/>";
     parsexml := fun c _ =>
       {| StorageVolume.conn := c; StorageVolume.name := None;
          StorageVolume.type := None; StorageVolume.capacity := None;
          StorageVolume.allocation := None; StorageVolume.format := None;
          StorageVolume.backing_store := None;
          StorageVolume.backing_format := None;
          StorageVolume.lazy_refcounts := None;
          StorageVolume._input_vol := None; StorageVolume._pool := None;
          StorageVolume._pool_xml := None;
          StorageVolume._reflink := false |};
     validate_generic_name := name_given;
     _prop_is_unset := fun self propname =>
       match StorageVolume.lazy_refcounts self with
       | Some _ => false
       | None => true
       end |}.

Definition GiB : Z := 1024 * 1024 * 1024.

(** A volume of [cap] bytes with [alloc] allocated, in a pool of
    type [ty] that reports [avail] free bytes. *)
Definition a_volume_in (ty : string) (fmt : option string)
    (cap alloc avail : Z) : StorageVolume.t :=
  {| StorageVolume.conn := conn0;
     StorageVolume.name := Some "vol0";
     StorageVolume.type := None;
     StorageVolume.capacity := Some cap;
     StorageVolume.allocation := Some alloc;
     StorageVolume.format := fmt;
     StorageVolume.backing_store := None;
     StorageVolume.backing_format := None;
     StorageVolume.lazy_refcounts := None;
     StorageVolume._input_vol := None;
     StorageVolume._pool := Some (healthy_pool avail);
     StorageVolume._pool_xml := Some (a_pool ty "vg0");
     StorageVolume._reflink := false |}.

(** A binding without [VIR_STORAGE_VOL_CREATE_REFLINK], and a sparse
    raw volume to be cloned with reflink. *)
Definition env_without_reflink : Environ :=
  {| expanduser_images := "/home/user/.local/share/libvirt/images";
     libvirt_VIR_STORAGE_VOL_CREATE_REFLINK := None |}.

Definition a_reflink_volume : StorageVolume.t :=
  {| StorageVolume.conn := conn0;
     StorageVolume.name := Some "clone0";
     StorageVolume.type := None;
     StorageVolume.capacity := Some (20 * GiB);
     StorageVolume.allocation := Some (5 * GiB);
     StorageVolume.format := Some "raw";
     StorageVolume.backing_store := None;
     StorageVolume.backing_format := None;
     StorageVolume.lazy_refcounts := None;
     StorageVolume._input_vol := Some a_volume;
     StorageVolume._pool := Some (healthy_pool (50 * GiB));
     StorageVolume._pool_xml := Some (a_pool "dir" "default");
     StorageVolume._reflink := true |}.

End Fixtures.

(** ** Vocabulary of the statements *)

(** The pool's type is one of [tys]. *)
Definition has_type_in (self : StoragePool.t) (tys : list string) : Prop :=
  ∃ ty, StoragePool.type self = Some ty ∧ ty ∈ tys.

(** The property names that [supports_property] looks up in its table. *)
Definition table_properties : list string :=
  ["source_path"; "source_name"; "hosts"; "format"; "iqn"; "target_path"].

(** The pool after the three defaulting assignments of
    [StoragePool.validate], where [v] is what [default_target_path]
    answered. *)
Definition defaulted `{!XMLBuilder StoragePool.t} (self : StoragePool.t)
    (v : option string) : StoragePool.t :=
  let s1 := if Py.truthy (StoragePool.target_path self) then self
            else StoragePool.set_target_path v self in
  let s2 := if Py.truthy (StoragePool.source_name s1) then s1
            else StoragePool.set_source_name
                   (StoragePool.default_source_name s1) s1 in
  if negb (Py.truthy (StoragePool.format s2)) &&
     StoragePool.supports_property s2 "format"
  then StoragePool.set_format (Some "auto") s2
  else s2.

(** The two required-field failures of [StoragePool.validate]: no host
    for a type that supports hosts; no source path for a type, other than
    logical, that supports a source path. *)
Definition missing_host `{!XMLBuilder StoragePool.t} (self : StoragePool.t)
  : Prop :=
  StoragePool.supports_property self "hosts" = true ∧
  StoragePool.hosts self = [].

Definition missing_source_path `{!XMLBuilder StoragePool.t}
    (self : StoragePool.t) : Prop :=
  StoragePool.supports_property self "source_path" = true ∧
  StoragePool.type self ≠ Some "logical" ∧
  Py.truthy (StoragePool.source_path self) = false.

(** A stage of [StoragePool.install] that does not fail: it is not
    asked for, or its libvirt call returns. *)
Definition stage_ok (enabled : bool) (call : result unit) : Prop :=
  enabled = false ∨ call = Return tt.

(** The event of a stage, when the stage is asked for. *)
Definition attempted (enabled : bool) (ev : event) : list event :=
  if enabled then [ev] else [].

(** What [StoragePool.install] does up to and including the definition
    of the pool. *)
Definition install_header `{!XMLBuilder StoragePool.t} (self : StoragePool.t)
  : list event :=
  [Log DEBUG ("Creating storage pool '%s' with xml:" +:+ Py.LF +:+ "%s")
     [Py.str (StoragePool.name self); get_xml self];
   PoolDefineXML (get_xml self) 0].

(** The clean-up after a failed stage: the undefine, and the log entry
    when the undefine fails too. *)
Definition cleanup (pool : virStoragePool) : list event :=
  PoolUndefine pool ::
  match undefine pool with
  | Return _ => []
  | Raise e => [Log DEBUG "Error cleaning up pool after failure: %s"
                  [exc_str e]]
  end.

(** A method that does not assign to its object. *)
Definition stateless {St A} (m : M St A) : Prop :=
  ∀ s, final (m s) = s.

(** The source descriptor that [pool_list_from_sources] sends. *)
Definition discovery_request (host : option string) : string :=
  match host with
  | Some h =>
      if bool_decide (h = "") then "<source/>"
      else "<source><host name='" +:+ h +:+ "'/></source>"
  | None => "<source/>"
  end.

(** The two messages of [is_size_conflict], for amounts in bytes. *)
Definition allocation_conflict_message (alloc avail : Z) : string :=
  "There is not enough free space on the storage pool to create the volume. ("
  +:+ Py.fmt_d (alloc / 1048576) +:+ " M requested allocation > "
  +:+ Py.fmt_d (avail / 1048576) +:+ " M available)".

Definition capacity_conflict_message (cap avail : Z) : string :=
  "The requested volume capacity will exceed the available pool space when the volume is fully allocated. ("
  +:+ Py.fmt_d (cap / 1048576) +:+ " M requested capacity > "
  +:+ Py.fmt_d (avail / 1048576) +:+ " M available)".

(** The warning of [StorageVolume.validate] for a sparse volume in a
    logical pool. *)
Definition sparse_warning : event :=
  Log WARNING
    "Sparse logical volumes are not supported, setting allocation equal to capacity"
    [].

(** The four conditions under which [StorageVolume.install] asks for
    metadata preallocation. *)
Definition prealloc_conditions (self : StorageVolume.t) : Prop :=
  StorageVolume.format self = Some "qcow2" ∧
  Py.truthy (StorageVolume.backing_store self) = false ∧
  is_really_test (StorageVolume.conn self) = false ∧
  support_pool_metadata_prealloc (StorageVolume.conn self)
    (StorageVolume.pool self) = true.

(** A method that leaves the observation [f] of its object as it was,
    whatever it answers. *)
Definition preserves {St A X} (f : St → X) (m : M St A) : Prop :=
  ∀ s, f (final (m s)) = f s.

(** The volume's type is one of [tys]. *)
Definition vol_has_type_in (self : StorageVolume.t) (tys : list string)
  : Prop :=
  ∃ ty, StorageVolume.type self = Some ty ∧ ty ∈ tys.

(** What a stage of [StoragePool.install] leaves in [errmsg], and the
    libvirt call it makes, if it makes one. *)
Definition stage_errmsg (enabled : bool) (errmsg : option string)
    (call : result unit) (msg : string) : option string :=
  if enabled && negb (Py.truthy errmsg) then
    match call with
    | Return _ => errmsg
    | Raise e => Some (Py.fmt msg [exc_str e])
    end
  else errmsg.

Definition stage_events (enabled : bool) (errmsg : option string)
    (ev : event) : list event :=
  if enabled && negb (Py.truthy errmsg) then [ev] else [].

(** The two refusals of [StoragePool.install] before any libvirt call. *)
Definition build_needs_source_path `{!XMLBuilder StoragePool.t}
    (self : StoragePool.t) (build' : bool) : bool :=
  StoragePool.type_is self "logical" && build' &&
  negb (Py.truthy (StoragePool.source_path self)).

Definition build_needs_format (self : StoragePool.t) (build' : bool) : bool :=
  StoragePool.type_is self "disk" && build' &&
  bool_decide (StoragePool.format self = Some "auto").

(** The pool's target path, made absolute, is [path]. *)
Definition points_at (os_path_abspath : string → string) (path : string)
    (poolxml : StoragePool.t) : Prop :=
  ∃ xml_path, StoragePool.target_path poolxml = Some xml_path ∧
              os_path_abspath xml_path = path.

(** The pool that [build_default_pool] describes before installing it. *)
Definition default_pool (env : Environ) (c : Connection) : StoragePool.t :=
  StoragePool.set_target_path (Some (_preferred_default_pool_path env c))
    (StoragePool.set_name (Some "default")
       (StoragePool.set_type (Some "dir") (StoragePool.new c))).

(** The libvirt call by which [StorageVolume.install] creates the
    volume, and what it answers: a clone of the input volume when there
    is one, a fresh volume otherwise. *)
Definition create_request `{!XMLBuilder StorageVolume.t} (env : Environ)
    (self : StorageVolume.t) : list event :=
  match StorageVolume.pool self with
  | None => []
  | Some p =>
      match StorageVolume.input_vol self with
      | Some iv =>
          [VolCreateXMLFrom p (get_xml self) iv
             (fst (StorageVolume.install_flags env self))]
      | None =>
          [VolCreateXML p (get_xml self)
             (snd (StorageVolume.install_flags env self))]
      end
  end.

Definition create_answer `{!XMLBuilder StorageVolume.t} (env : Environ)
    (self : StorageVolume.t) : result virStorageVol :=
  match StorageVolume.input_vol self, StorageVolume.pool self with
  | Some iv, Some p =>
      createXMLFrom p (get_xml self) iv
        (fst (StorageVolume.install_flags env self))
  | None, Some p =>
      createXML p (get_xml self) (snd (StorageVolume.install_flags env self))
  | Some _, None => Raise (AttributeError_None "createXMLFrom")
  | None, None => Raise (AttributeError_None "createXML")
  end.

(** [s] has no path separator. *)
Fixpoint no_slash (s : string) : Prop :=
  match s with
  | EmptyString => True
  | String c s' => c ≠ "/"%char ∧ no_slash s'
  end.

(** [s] is empty or begins a new path segment. *)
Definition at_segment_end (s : string) : Prop :=
  s = "" ∨ ∃ s', s = String "/" s'.

(** * Properties *)

(** ** Python helpers *)

Lemma contains_true (l : list string) (x : option string) :
  Py.contains l x = true ↔ ∃ s, x = Some s ∧ s ∈ l.
Proof.
  destruct x as [s|]; simpl.
  - rewrite bool_decide_eq_true. split.
    + intros Hs. exists s. auto.
    + intros (s' & Heq & Hs). congruence.
  - split; [discriminate | intros (s & Heq & _); discriminate].
Qed.

Lemma truthy_Some_nonempty (o : option string) :
  Py.truthy o = true ↔ ∃ s, o = Some s ∧ s ≠ "".
Proof.
  destruct o as [s|]; simpl.
  - rewrite bool_decide_eq_true. split.
    + intros Hs. exists s. auto.
    + intros (s' & Heq & Hs). congruence.
  - split; [discriminate | intros (s & Heq & _); discriminate].
Qed.

Lemma prefix_empty (s : string) : String.prefix "" s = true.
Proof. now destruct s. Qed.

Lemma startswith_app (pre s : string) : Py.startswith (pre +:+ s) pre = true.
Proof.
  unfold Py.startswith. induction pre as [| c pre IH].
  - apply prefix_empty.
  - change (String c pre +:+ s) with (String c (pre +:+ s)). simpl.
    now destruct (Ascii.ascii_dec c c).
Qed.

Lemma slice_from_app (pre s : string) :
  Py.slice_from (String.length pre) (pre +:+ s) = s.
Proof.
  induction pre as [| c pre IH]; [now destruct s |].
  change (String c pre +:+ s) with (String c (pre +:+ s)). simpl. exact IH.
Qed.

Lemma truthy_app (pre s : string) :
  pre ≠ "" → Py.truthy (Some (pre +:+ s)) = true.
Proof.
  intros Hpre. apply bool_decide_eq_true. destruct pre; [done | discriminate].
Qed.

Lemma in_propstore_other (k k' : string) (ps : gset string) :
  k ≠ k' → k ∈ {[k']} ∪ ps ↔ k ∈ ps.
Proof. rewrite elem_of_union, elem_of_singleton. tauto. Qed.

(** ** Running the monad, one step at a time *)

Section MonadSteps.
Context {St A B : Type}.
Implicit Types (s : St) (f : A → M St B).

Lemma prepend_nil (o : outcome St A) : prepend [] o = o.
Proof. now destruct o. Qed.

Lemma prepend_prepend (evs evs' : list event) (o : outcome St A) :
  prepend evs (prepend evs' o) = prepend (evs ++ evs') o.
Proof. unfold prepend. simpl. now rewrite app_assoc. Qed.

Lemma bind_ret (a : A) f s : (mret a ≫= f) s = f a s.
Proof. unfold mbind, M_bind, bind, mret, M_ret, ret. simpl. now destruct (f a s). Qed.

Lemma bind_get (k : St → M St B) s : (get ≫= k) s = k s s.
Proof. unfold mbind, M_bind, bind, get. simpl. now destruct (k s s). Qed.

Lemma bind_modify (g : St → St) (k : unit → M St B) s :
  (modify g ≫= k) s = k tt (g s).
Proof. unfold mbind, M_bind, bind, modify. simpl. now destruct (k tt (g s)). Qed.

Lemma bind_raise (e : exception) f s :
  (raise e ≫= f) s = Outcome s [] (Raise e).
Proof. reflexivity. Qed.

Lemma bind_lift (r : result A) f s :
  (lift r ≫= f) s
  = match r with
    | Return a => f a s
    | Raise e => Outcome s [] (Raise e)
    end.
Proof.
  unfold mbind, M_bind, bind, lift. destruct r as [a | e]; simpl;
    [now destruct (f a s) | reflexivity].
Qed.

Lemma bind_emit (ev : event) (k : unit → M St B) s :
  (emit ev ≫= k) s = prepend [ev] (k tt s).
Proof. reflexivity. Qed.

Lemma bind_when (c : bool) (m : M St unit) (k : unit → M St B) s :
  (when c m ≫= k) s = if c then (m ≫= k) s else k tt s.
Proof.
  destruct c; [reflexivity |].
  unfold mbind, M_bind, bind, when, ret. simpl. now destruct (k tt s).
Qed.

Lemma bind_if {C : Type} (c : bool) (m1 m2 : M St C) (k : C → M St B) s :
  ((if c then m1 else m2) ≫= k) s = if c then (m1 ≫= k) s else (m2 ≫= k) s.
Proof. now destruct c. Qed.

Lemma bind_bind {C : Type} (m : M St C) (g : C → M St A) f s :
  ((m ≫= g) ≫= f) s = (m ≫= (λ x, g x ≫= f)) s.
Proof.
  unfold mbind, M_bind, bind.
  destruct (m s) as [s1 t1 [c | e]]; simpl; [| reflexivity].
  destruct (g c s1) as [s2 t2 [a | e]]; simpl; [| reflexivity].
  now rewrite app_assoc.
Qed.

End MonadSteps.

(** Methods built without [modify] are stateless. *)
Section Stateless.
Context {St A B : Type}.

Lemma stateless_ret (a : A) : stateless (St:=St) (mret a).
Proof. now intros s. Qed.

Lemma stateless_raise (e : exception) : stateless (St:=St) (A:=A) (raise e).
Proof. now intros s. Qed.

Lemma stateless_get : stateless (St:=St) get.
Proof. now intros s. Qed.

Lemma stateless_emit (ev : event) : stateless (St:=St) (emit ev).
Proof. now intros s. Qed.

Lemma stateless_lift (r : result A) : stateless (St:=St) (lift r).
Proof. now intros s. Qed.

Lemma stateless_bind (m : M St A) (f : A → M St B) :
  stateless m → (∀ a, stateless (f a)) → stateless (m ≫= f).
Proof.
  intros Hm Hf s. unfold mbind, M_bind, bind.
  specialize (Hm s). destruct (m s) as [s1 t1 [a | e]]; simpl in *.
  - rewrite Hf. exact Hm.
  - exact Hm.
Qed.

Lemma stateless_try_except (m : M St A) (h : exception → M St A) :
  stateless m → (∀ e, stateless (h e)) → stateless (try_except m h).
Proof.
  intros Hm Hh s. unfold try_except.
  specialize (Hm s). destruct (m s) as [s1 t1 [a | e]]; simpl in *.
  - exact Hm.
  - rewrite Hh. exact Hm.
Qed.

Lemma stateless_if (c : bool) (m1 m2 : M St A) :
  stateless m1 → stateless m2 → stateless (if c then m1 else m2).
Proof. now destruct c. Qed.

End Stateless.

Lemma stateless_when {St} (c : bool) (m : M St unit) :
  stateless m → stateless (when c m).
Proof. intros Hm. destruct c; [exact Hm | now intros s]. Qed.

Create HintDb stateless discriminated.
#[export] Hint Resolve stateless_ret stateless_raise stateless_get
  stateless_emit stateless_lift : stateless.

(** Follow the structure of a method down to its primitive steps. *)
Ltac prove_stateless :=
  repeat (intros; cbv zeta;
          first [ solve [auto with stateless]
                | apply stateless_when
                | apply stateless_if
                | apply stateless_try_except
                | apply stateless_bind ]).

Lemma when_run {St} (c : bool) (m : M St unit) (s : St) :
  when c m s = if c then m s else Outcome s [] (Return tt).
Proof. now destruct c. Qed.

(** ** The capability table of [StoragePool.supports_property] *)

Section PoolTable.
Context `{!XMLBuilder StoragePool.t}.

Lemma supports_property_lookup (self : StoragePool.t) (propname : string)
    (ty : string) (tys : list string) :
  StoragePool.users !! propname = Some (ty :: tys) →
  StoragePool.supports_property self propname
  = Py.contains (ty :: tys) (StoragePool.type self).
Proof.
  intros Hlookup. unfold StoragePool.supports_property. now rewrite Hlookup.
Qed.

Lemma supports_property_unknown (self : StoragePool.t) (propname : string) :
  propname ∉ table_properties →
  StoragePool.supports_property self propname = hasattr self propname.
Proof.
  intros Hnot. unfold StoragePool.supports_property, StoragePool.users.
  unfold table_properties in Hnot.
  repeat (rewrite lookup_insert_ne;
          [| intros <-; apply Hnot; repeat constructor]).
  now rewrite lookup_empty.
Qed.

(** For a property of the table the answer depends on the pool's type
    only. *)
Lemma supports_property_type_only (p q : StoragePool.t) (propname : string) :
  propname ∈ table_properties →
  StoragePool.type p = StoragePool.type q →
  StoragePool.supports_property p propname
  = StoragePool.supports_property q propname.
Proof.
  intros Hin Hty. unfold table_properties in Hin.
  repeat (apply elem_of_cons in Hin as [-> | Hin]);
    [ .. | by apply elem_of_nil in Hin ];
    (erewrite !supports_property_lookup by reflexivity; now rewrite Hty).
Qed.

(** C2: for each of the six property names of the table,
    [supports_property] answers [True] exactly when the pool's type is in
    the table's list for that name (format: fs, netfs, disk; hosts: netfs,
    iscsi, gluster, rbd, sheepdog; ...); for any other property name it
    answers whether the attribute is present on the object. *)
Theorem supports_property_table (self : StoragePool.t) :
  (StoragePool.supports_property self "source_path" = true ↔
     has_type_in self
       ["fs"; "netfs"; "logical"; "disk"; "iscsi"; "scsi"; "gluster"]) ∧
  (StoragePool.supports_property self "source_name" = true ↔
     has_type_in self ["logical"; "gluster"; "rbd"; "sheepdog"; "zfs"]) ∧
  (StoragePool.supports_property self "hosts" = true ↔
     has_type_in self ["netfs"; "iscsi"; "gluster"; "rbd"; "sheepdog"]) ∧
  (StoragePool.supports_property self "format" = true ↔
     has_type_in self ["fs"; "netfs"; "disk"]) ∧
  (StoragePool.supports_property self "iqn" = true ↔
     has_type_in self ["iscsi"]) ∧
  (StoragePool.supports_property self "target_path" = true ↔
     has_type_in self
       ["dir"; "fs"; "netfs"; "logical"; "disk"; "iscsi"; "scsi"; "mpath"]) ∧
  (∀ propname,
     propname ∉ ["source_path"; "source_name"; "hosts"; "format"; "iqn";
                 "target_path"] →
     StoragePool.supports_property self propname = hasattr self propname).
Proof.
  repeat split;
    try (erewrite supports_property_lookup by reflexivity;
         apply contains_true).
  apply supports_property_unknown.
Qed.

End PoolTable.

(** ** Defaults of a pool: [default_target_path], [default_source_name] *)

Section PoolDefaults.
Context `{!XMLBuilder StoragePool.t} (env : Environ).

Lemma type_is_true (self : StoragePool.t) (ty : string) :
  StoragePool.type_is self ty = true ↔ StoragePool.type self = Some ty.
Proof. unfold StoragePool.type_is. apply bool_decide_eq_true. Qed.

Lemma type_is_other (self : StoragePool.t) (ty ty' : string) :
  StoragePool.type self = Some ty → ty ≠ ty' →
  StoragePool.type_is self ty' = false.
Proof.
  intros Hty Hne. unfold StoragePool.type_is. rewrite Hty.
  apply bool_decide_eq_false. congruence.
Qed.

Lemma type_is_same (self : StoragePool.t) (ty : string) :
  StoragePool.type self = Some ty → StoragePool.type_is self ty = true.
Proof. apply type_is_true. Qed.

Lemma supports_target_path (self : StoragePool.t) :
  StoragePool.supports_property self "target_path" = true ↔
  has_type_in self
    ["dir"; "fs"; "netfs"; "logical"; "disk"; "iscsi"; "scsi"; "mpath"].
Proof.
  erewrite supports_property_lookup by reflexivity. apply contains_true.
Qed.

Lemma supports_source_name (self : StoragePool.t) :
  StoragePool.supports_property self "source_name" = true ↔
  has_type_in self ["logical"; "gluster"; "rbd"; "sheepdog"; "zfs"].
Proof.
  erewrite supports_property_lookup by reflexivity. apply contains_true.
Qed.

Lemma supports_property_of_type (self : StoragePool.t) (propname : string)
    (ty : string) (tys : list string) (ty0 : string) :
  StoragePool.users !! propname = Some (ty :: tys) →
  StoragePool.type self = Some ty0 →
  StoragePool.supports_property self propname = bool_decide (ty0 ∈ ty :: tys).
Proof.
  intros Hlookup Hty. rewrite (supports_property_lookup _ _ _ _ Hlookup).
  now rewrite Hty.
Qed.

(** Decide every [type_is] and table [supports_property] test of the
    goal from the pool's known type. *)
Ltac settle_type Hty :=
  unfold StoragePool.TYPE_DIR, StoragePool.TYPE_FS, StoragePool.TYPE_NETFS,
    StoragePool.TYPE_LOGICAL, StoragePool.TYPE_DISK, StoragePool.TYPE_ISCSI,
    StoragePool.TYPE_SCSI, StoragePool.TYPE_MPATH, StoragePool.TYPE_GLUSTER,
    StoragePool.TYPE_RBD, StoragePool.TYPE_SHEEPDOG, StoragePool.TYPE_ZFS;
  repeat first
    [ rewrite (type_is_same _ _ Hty)
    | rewrite (type_is_other _ _ _ Hty) by discriminate
    | erewrite supports_property_of_type by first [ reflexivity | exact Hty ] ];
  repeat match goal with
    | |- context [bool_decide (?x ∈ ?l)] =>
        let b := eval vm_compute in (bool_decide (x ∈ l)) in
        change (bool_decide (x ∈ l)) with b
    end;
  simpl.

(** Split [has_type_in self [t1; ..; tn]] into its [n] cases. *)
Ltac type_cases H :=
  let ty := fresh "ty" in
  let Hty := fresh "Hty" in
  let Hin := fresh "Hin" in
  destruct H as (ty & Hty & Hin);
  repeat (apply elem_of_cons in Hin as [-> | Hin]);
  [ .. | by apply elem_of_nil in Hin ].

Lemma default_target_path_file_types (self : StoragePool.t) (n : string) :
  StoragePool.name self = Some n →
  has_type_in self ["dir"; "fs"; "netfs"] →
  StoragePool.default_target_path env self
  = Return (Some (Py.os_path_join
                    (_preferred_default_pool_path env (StoragePool.conn self))
                    n)).
Proof.
  intros Hname Hin. unfold StoragePool.default_target_path.
  type_cases Hin; settle_type Hty; now rewrite Hname.
Qed.

Lemma default_target_path_logical (self : StoragePool.t) (n : string) :
  StoragePool.name self = Some n →
  has_type_in self ["logical"] →
  StoragePool.default_target_path env self
  = Return (Some ("/dev/" +:+
                  (if Py.truthy (StoragePool.source_name self)
                   then Py.str (StoragePool.source_name self) else n))).
Proof.
  intros Hname Hin. unfold StoragePool.default_target_path.
  type_cases Hin; settle_type Hty.
  destruct (Py.truthy (StoragePool.source_name self)) eqn:Htruthy.
  - apply truthy_Some_nonempty in Htruthy as (s & -> & _). reflexivity.
  - now rewrite Hname.
Qed.

Lemma default_target_path_devices (self : StoragePool.t) :
  (has_type_in self ["disk"] →
   StoragePool.default_target_path env self = Return (Some "/dev")) ∧
  (has_type_in self ["iscsi"; "scsi"] →
   StoragePool.default_target_path env self
   = Return (Some "/dev/disk/by-path")) ∧
  (has_type_in self ["mpath"] →
   StoragePool.default_target_path env self = Return (Some "/dev/mapper")).
Proof.
  repeat split; intros Hin; unfold StoragePool.default_target_path;
    type_cases Hin; settle_type Hty; reflexivity.
Qed.

Lemma default_target_path_unsupported (self : StoragePool.t) :
  ¬ has_type_in self
      ["dir"; "fs"; "netfs"; "logical"; "disk"; "iscsi"; "scsi"; "mpath"] →
  StoragePool.default_target_path env self = Return None.
Proof.
  intros Hnot. unfold StoragePool.default_target_path.
  destruct (StoragePool.supports_property self "target_path") eqn:Hsup.
  - now apply supports_target_path in Hsup.
  - reflexivity.
Qed.

(** The final [raise RuntimeError] of [default_target_path] is never
    reached: every type that passes the [supports_property] guard has a
    rule. *)
Lemma default_target_path_no_RuntimeError (self : StoragePool.t) (msg : string) :
  StoragePool.default_target_path env self ≠ Raise (RuntimeError msg).
Proof.
  destruct (StoragePool.supports_property self "target_path") eqn:Hsup.
  - apply supports_target_path in Hsup.
    unfold StoragePool.default_target_path.
    type_cases Hsup; settle_type Hty; repeat case_match; discriminate.
  - unfold StoragePool.default_target_path. now rewrite Hsup.
Qed.

(** With a name, [default_target_path] returns. *)
Lemma default_target_path_returns (self : StoragePool.t) (n : string) :
  StoragePool.name self = Some n →
  ∃ v, StoragePool.default_target_path env self = Return v.
Proof.
  intros Hname.
  destruct (StoragePool.supports_property self "target_path") eqn:Hsup.
  - apply supports_target_path in Hsup.
    unfold StoragePool.default_target_path.
    type_cases Hsup; settle_type Hty; rewrite ?Hname;
      destruct (StoragePool.source_name self); simpl;
      repeat case_match; simplify_eq; eauto.
  - exists None. unfold StoragePool.default_target_path. now rewrite Hsup.
Qed.

Lemma split_slash_once_first (vg rest : string) :
  no_slash vg → at_segment_end rest →
  head (Py.split_slash_once (vg +:+ rest)) = Some vg.
Proof.
  intros Hvg Hrest. induction vg as [| c vg IH]; simpl.
  - destruct Hrest as [-> | [s' ->]]; reflexivity.
  - destruct Hvg as [Hc Hvg]. rewrite bool_decide_eq_false_2 by exact Hc.
    specialize (IH Hvg).
    destruct (Py.split_slash_once (vg +:+ rest)) as [| hd tl];
      [discriminate |].
    simpl in IH. injection IH as ->. reflexivity.
Qed.

Lemma default_source_name_unsupported (self : StoragePool.t) :
  ¬ has_type_in self ["logical"; "gluster"; "rbd"; "sheepdog"; "zfs"] →
  StoragePool.default_source_name self = None.
Proof.
  intros Hnot. unfold StoragePool.default_source_name.
  destruct (StoragePool.supports_property self "source_name") eqn:Hsup.
  - now apply supports_source_name in Hsup.
  - reflexivity.
Qed.

Lemma default_source_name_volume_group (self : StoragePool.t)
    (vg rest : string) :
  has_type_in self ["logical"; "sheepdog"; "zfs"] →
  "target_path" ∈ StoragePool._propstore self →
  StoragePool.target_path self = Some ("/dev/" +:+ vg +:+ rest) →
  no_slash vg → at_segment_end rest →
  StoragePool.default_source_name self = Some vg.
Proof.
  intros Hin Hset Htarget Hvg Hrest. unfold StoragePool.default_source_name.
  rewrite Htarget, (bool_decide_eq_true_2 _ Hset).
  unfold _DEFAULT_LVM_TARGET_BASE. cbn [Py.str].
  rewrite startswith_app, slice_from_app, truthy_app
    by (intros [=]).
  rewrite (split_slash_once_first _ _ Hvg Hrest).
  type_cases Hin; settle_type Hty; reflexivity.
Qed.

Lemma default_source_name_no_volume_group (self : StoragePool.t) :
  has_type_in self ["logical"; "sheepdog"; "zfs"] →
  "target_path" ∉ StoragePool._propstore self ∨
  Py.truthy (StoragePool.target_path self) = false ∨
  Py.startswith (Py.str (StoragePool.target_path self)) "/dev/" = false →
  StoragePool.default_source_name self = None.
Proof.
  intros Hin Hno. unfold StoragePool.default_source_name.
  assert (bool_decide ("target_path" ∈ StoragePool._propstore self) &&
          Py.truthy (StoragePool.target_path self) &&
          Py.startswith (Py.str (StoragePool.target_path self))
            _DEFAULT_LVM_TARGET_BASE = false) as Hcond.
  { destruct Hno as [Hno | [Hno | Hno]].
    - now rewrite (bool_decide_eq_false_2 _ Hno).
    - rewrite Hno. apply andb_false_intro1, andb_false_r.
    - unfold _DEFAULT_LVM_TARGET_BASE. rewrite Hno. apply andb_false_r. }
  rewrite Hcond.
  type_cases Hin; settle_type Hty; reflexivity.
Qed.

(** C4, as amended: [default_source_name] returns ["rbd"] for an rbd
    pool and ["gv0"] for a gluster pool; for the other types that support
    [source_name] (logical, sheepdog, zfs) it returns the first path
    segment after the prefix [/dev/] of a target path that was explicitly
    set and begins with that prefix, and [None] without such a target
    path; and it returns [None] for every type that does not support
    [source_name], netfs included. *)
Theorem default_source_name_by_type (self : StoragePool.t) :
  (has_type_in self ["rbd"] →
   StoragePool.default_source_name self = Some "rbd") ∧
  (has_type_in self ["gluster"] →
   StoragePool.default_source_name self = Some "gv0") ∧
  (has_type_in self ["logical"; "sheepdog"; "zfs"] →
   ∀ vg rest,
     "target_path" ∈ StoragePool._propstore self →
     StoragePool.target_path self = Some ("/dev/" +:+ vg +:+ rest) →
     no_slash vg → at_segment_end rest →
     StoragePool.default_source_name self = Some vg) ∧
  (has_type_in self ["logical"; "sheepdog"; "zfs"] →
   "target_path" ∉ StoragePool._propstore self ∨
   Py.truthy (StoragePool.target_path self) = false ∨
   Py.startswith (Py.str (StoragePool.target_path self)) "/dev/" = false →
   StoragePool.default_source_name self = None) ∧
  (has_type_in self ["netfs"] →
   StoragePool.default_source_name self = None) ∧
  (¬ has_type_in self ["logical"; "gluster"; "rbd"; "sheepdog"; "zfs"] →
   StoragePool.default_source_name self = None).
Proof.
  split; [| split; [| split; [| split; [| split]]]].
  - intros Hin. unfold StoragePool.default_source_name.
    type_cases Hin; settle_type Hty; reflexivity.
  - intros Hin. unfold StoragePool.default_source_name.
    type_cases Hin; settle_type Hty; reflexivity.
  - intros Hin vg rest Hset Htarget Hvg Hrest.
    now apply (default_source_name_volume_group self vg rest).
  - apply default_source_name_no_volume_group.
  - intros Hin. unfold StoragePool.default_source_name.
    type_cases Hin; settle_type Hty; reflexivity.
  - apply default_source_name_unsupported.
Qed.

(** ** [StoragePool.validate] *)

Lemma validate_unfold (self : StoragePool.t) (v : option string) :
  StoragePool.validate_name (StoragePool.conn self) (StoragePool.name self)
  = Return tt →
  Py.truthy (StoragePool.target_path self) = true ∨
  StoragePool.default_target_path env self = Return v →
  StoragePool.validate env self
  = let s3 := defaulted self v in
    if StoragePool.supports_property s3 "hosts" &&
       bool_decide (StoragePool.hosts s3 = [])
    then Outcome s3 [] (Raise (RuntimeError "Hostname is required"))
    else if StoragePool.supports_property s3 "source_path" &&
            negb (StoragePool.type_is s3 "logical") &&
            negb (Py.truthy (StoragePool.source_path s3))
    then Outcome s3 [] (Raise (RuntimeError "Source path is required"))
    else if StoragePool.type_is s3 "disk" &&
            bool_decide (StoragePool.format s3 = Some "auto")
    then Outcome (StoragePool.set_format None s3) [] (Return tt)
    else Outcome s3 [] (Return tt).
Proof.
  intros Hname Hdtp.
  unfold StoragePool.validate, defaulted, gettext,
    StoragePool.TYPE_LOGICAL, StoragePool.TYPE_DISK.
  rewrite bind_get, bind_lift, Hname, bind_when.
  (* the three defaulting assignments *)
  destruct (Py.truthy (StoragePool.target_path self)) eqn:Htp; cbn [negb];
    [| destruct Hdtp as [Hdtp | Hdtp]; [discriminate |];
       rewrite bind_bind, bind_lift, Hdtp, bind_modify ];
    cbv zeta; cbv iota;
    rewrite bind_get, bind_when;
    match goal with
    | |- context [if negb (Py.truthy ?x) then _ else _] =>
        destruct (Py.truthy x) eqn:Hsn
    end; cbn [negb]; cbv iota; rewrite ?bind_modify;
    rewrite bind_get, bind_when;
    match goal with
    | |- context [if ?c then (_ ≫= _) _ else _] => destruct c eqn:Hfmt
    end; cbv iota; rewrite ?bind_modify;
    (* the required-field checks and the disk exception *)
    rewrite bind_get, bind_when;
    match goal with
    | |- context [if ?c then (_ ≫= _) _ else _] => destruct c
    end; try reflexivity;
    rewrite bind_when;
    match goal with
    | |- context [if ?c then (_ ≫= _) _ else _] => destruct c
    end; try reflexivity;
    rewrite when_run;
    match goal with
    | |- context [if ?c then _ else _] => destruct c
    end; reflexivity.
Qed.

Lemma validate_name_raises (self : StoragePool.t) (e : exception) :
  StoragePool.validate_name (StoragePool.conn self) (StoragePool.name self)
  = Raise e →
  StoragePool.validate env self = Outcome self [] (Raise e).
Proof.
  intros Hname. unfold StoragePool.validate.
  now rewrite bind_get, bind_lift, Hname.
Qed.

Lemma validate_default_raises (self : StoragePool.t) (e : exception) :
  StoragePool.validate_name (StoragePool.conn self) (StoragePool.name self)
  = Return tt →
  Py.truthy (StoragePool.target_path self) = false →
  StoragePool.default_target_path env self = Raise e →
  StoragePool.validate env self = Outcome self [] (Raise e).
Proof.
  intros Hname Htp Hdtp. unfold StoragePool.validate.
  rewrite bind_get, bind_lift, Hname, bind_when, Htp. cbn [negb].
  now rewrite bind_bind, bind_lift, Hdtp.
Qed.

(** What the defaulting assignments leave untouched, and what they set. *)
Lemma defaulted_type (self : StoragePool.t) (v : option string) :
  StoragePool.type (defaulted self v) = StoragePool.type self.
Proof. unfold defaulted. now repeat case_match. Qed.

Lemma defaulted_hosts (self : StoragePool.t) (v : option string) :
  StoragePool.hosts (defaulted self v) = StoragePool.hosts self.
Proof. unfold defaulted. now repeat case_match. Qed.

Lemma defaulted_source_path (self : StoragePool.t) (v : option string) :
  StoragePool.source_path (defaulted self v) = StoragePool.source_path self.
Proof. unfold defaulted. now repeat case_match. Qed.

Lemma defaulted_supports (self : StoragePool.t) (v : option string)
    (propname : string) :
  propname ∈ table_properties →
  StoragePool.supports_property (defaulted self v) propname
  = StoragePool.supports_property self propname.
Proof.
  intros Hin. apply supports_property_type_only; [exact Hin |].
  apply defaulted_type.
Qed.

Lemma defaulted_type_is (self : StoragePool.t) (v : option string)
    (ty : string) :
  StoragePool.type_is (defaulted self v) ty = StoragePool.type_is self ty.
Proof. unfold StoragePool.type_is. now rewrite defaulted_type. Qed.

Lemma defaulted_target_path (self : StoragePool.t) (v : option string) :
  StoragePool.target_path (defaulted self v)
  = if Py.truthy (StoragePool.target_path self)
    then StoragePool.target_path self else v.
Proof. unfold defaulted. now repeat case_match. Qed.

Lemma defaulted_target_path_set (self : StoragePool.t) (v : option string) :
  Py.truthy (StoragePool.target_path self) = false →
  "target_path" ∈ StoragePool._propstore (defaulted self v).
Proof.
  intros Htp. unfold defaulted. rewrite Htp.
  repeat case_match; simpl;
    rewrite ?(in_propstore_other "target_path") by discriminate;
    apply elem_of_union_l, elem_of_singleton; reflexivity.
Qed.

Lemma defaulted_format (self : StoragePool.t) (v : option string) :
  StoragePool.format (defaulted self v)
  = if negb (Py.truthy (StoragePool.format self)) &&
       StoragePool.supports_property self "format"
    then Some "auto" else StoragePool.format self.
Proof.
  unfold defaulted. cbv zeta.
  set (s1 := if Py.truthy (StoragePool.target_path self) then self
             else StoragePool.set_target_path v self).
  set (s2 := if Py.truthy (StoragePool.source_name s1) then s1
             else StoragePool.set_source_name
                    (StoragePool.default_source_name s1) s1).
  assert (StoragePool.type s2 = StoragePool.type self) as Hty
    by (subst s2 s1; now repeat case_match).
  assert (StoragePool.format s2 = StoragePool.format self) as Hfmt
    by (subst s2 s1; now repeat case_match).
  rewrite (supports_property_type_only s2 self "format")
    by (exact Hty || (unfold table_properties; repeat constructor)).
  rewrite Hfmt. now case_match.
Qed.

Lemma default_source_name_same (p q : StoragePool.t) :
  StoragePool.type p = StoragePool.type q →
  StoragePool.name p = StoragePool.name q →
  StoragePool.target_path p = StoragePool.target_path q →
  ("target_path" ∈ StoragePool._propstore p ↔
   "target_path" ∈ StoragePool._propstore q) →
  StoragePool.default_source_name p = StoragePool.default_source_name q.
Proof.
  intros Hty Hname Htp Hset. unfold StoragePool.default_source_name.
  rewrite (supports_property_type_only p q "source_name")
    by (exact Hty || (unfold table_properties; repeat constructor)).
  unfold StoragePool.type_is. rewrite Hty, Hname, Htp.
  now rewrite (bool_decide_ext _ _ Hset).
Qed.

Lemma defaulted_source_name (self : StoragePool.t) (v : option string) :
  Py.truthy (StoragePool.source_name self) = false →
  StoragePool.source_name (defaulted self v)
  = StoragePool.default_source_name (defaulted self v).
Proof.
  intros Hsn. unfold defaulted. cbv zeta.
  set (s1 := if Py.truthy (StoragePool.target_path self) then self
             else StoragePool.set_target_path v self).
  assert (StoragePool.source_name s1 = StoragePool.source_name self) as Hsn1
    by (subst s1; now case_match).
  rewrite Hsn1, Hsn.
  transitivity (StoragePool.default_source_name s1).
  - now case_match.
  - apply default_source_name_same; case_match; simpl; try reflexivity;
      rewrite ?(in_propstore_other "target_path") by discriminate;
      reflexivity.
Qed.

(** C1, as amended: for a named pool, [default_target_path] returns the
    default pool root joined with the name for dir, fs and netfs; the LVM
    base followed by [source_name] if set, else the name, for logical;
    [/dev] for disk; [/dev/disk/by-path] for iscsi and scsi;
    [/dev/mapper] for mpath; and for every other type (gluster, rbd,
    sheepdog, zfs, ...) it returns [None].  It never raises its
    [RuntimeError]. *)
Theorem default_target_path_by_type (self : StoragePool.t) (n : string) :
  StoragePool.name self = Some n →
  (has_type_in self ["dir"; "fs"; "netfs"] →
   StoragePool.default_target_path env self
   = Return (Some (Py.os_path_join
                     (_preferred_default_pool_path env (StoragePool.conn self))
                     n))) ∧
  (has_type_in self ["logical"] →
   StoragePool.default_target_path env self
   = Return (Some ("/dev/" +:+
                   (if Py.truthy (StoragePool.source_name self)
                    then Py.str (StoragePool.source_name self) else n)))) ∧
  (has_type_in self ["disk"] →
   StoragePool.default_target_path env self = Return (Some "/dev")) ∧
  (has_type_in self ["iscsi"; "scsi"] →
   StoragePool.default_target_path env self
   = Return (Some "/dev/disk/by-path")) ∧
  (has_type_in self ["mpath"] →
   StoragePool.default_target_path env self = Return (Some "/dev/mapper")) ∧
  (¬ has_type_in self
       ["dir"; "fs"; "netfs"; "logical"; "disk"; "iscsi"; "scsi"; "mpath"] →
   StoragePool.default_target_path env self = Return None) ∧
  (∀ msg,
     StoragePool.default_target_path env self ≠ Raise (RuntimeError msg)).
Proof.
  intros Hname.
  split; [ now apply default_target_path_file_types |].
  split; [ now apply default_target_path_logical |].
  split; [ apply default_target_path_devices |].
  split; [ apply default_target_path_devices |].
  split; [ apply default_target_path_devices |].
  split; [ apply default_target_path_unsupported |].
  apply default_target_path_no_RuntimeError.
Qed.

(** A [validate] that returns has passed the name check and, where it
    needed a default target path, obtained one. *)
Lemma validate_returns_inv (self : StoragePool.t) :
  value (StoragePool.validate env self) = Return tt →
  StoragePool.validate_name (StoragePool.conn self) (StoragePool.name self)
  = Return tt ∧
  ∃ v, Py.truthy (StoragePool.target_path self) = true ∨
       StoragePool.default_target_path env self = Return v.
Proof.
  intros Hval.
  destruct (StoragePool.validate_name (StoragePool.conn self)
              (StoragePool.name self)) as [[] | e] eqn:Hname.
  - split; [reflexivity |].
    destruct (Py.truthy (StoragePool.target_path self)) eqn:Htp;
      [exists None; now left |].
    destruct (StoragePool.default_target_path env self) as [v | e] eqn:Hdtp;
      [exists v; now right |].
    now rewrite (validate_default_raises self e Hname Htp Hdtp) in Hval.
  - now rewrite (validate_name_raises self e Hname) in Hval.
Qed.

(** C3: after a [validate] that succeeds, a disk pool whose format was
    ["auto"], given or defaulted, has no format; a pool of another type
    that supports [format] and had none has the format ["auto"]. *)
Theorem validate_format (self : StoragePool.t) :
  value (StoragePool.validate env self) = Return tt →
  (has_type_in self ["disk"] →
   StoragePool.format self = Some "auto" ∨
   Py.truthy (StoragePool.format self) = false →
   StoragePool.format (final (StoragePool.validate env self)) = None) ∧
  (¬ has_type_in self ["disk"] →
   StoragePool.supports_property self "format" = true →
   Py.truthy (StoragePool.format self) = false →
   StoragePool.format (final (StoragePool.validate env self)) = Some "auto").
Proof.
  intros Hval.
  destruct (validate_returns_inv self Hval) as (Hname & v & Hdtp).
  rewrite (validate_unfold self v Hname Hdtp) in Hval |- *. cbv zeta in *.
  rewrite !defaulted_type_is in *.
  destruct (StoragePool.supports_property (defaulted self v) "hosts" &&
            bool_decide (StoragePool.hosts (defaulted self v) = []));
    [discriminate |].
  destruct (StoragePool.supports_property (defaulted self v) "source_path" &&
            negb (StoragePool.type_is self "logical") &&
            negb (Py.truthy (StoragePool.source_path (defaulted self v))));
    [discriminate |].
  clear Hval. split.
  - intros Hdisk Hfmt.
    assert (StoragePool.type self = Some "disk") as Hty
      by (type_cases Hdisk; exact Hty).
    rewrite defaulted_format. settle_type Hty.
    destruct Hfmt as [-> | ->]; reflexivity.
  - intros Hdisk Hsup Hfmt.
    assert (StoragePool.type_is self "disk" = false) as ->.
    { destruct (StoragePool.type_is self "disk") eqn:His; [| reflexivity].
      exfalso. apply Hdisk. apply type_is_true in His.
      exists "disk". split; [exact His | constructor]. }
    cbn [andb final]. now rewrite defaulted_format, Hfmt, Hsup.
Qed.

(** C10: [validate] is not atomic.  When it raises for a missing host
    or a missing source path, the pool keeps the defaults assigned before
    the check: the computed target path, the default source name, and
    the format ["auto"]. *)
Theorem validate_not_atomic (self : StoragePool.t) (n : string) :
  StoragePool.name self = Some n →
  StoragePool.validate_name (StoragePool.conn self) (StoragePool.name self)
  = Return tt →
  missing_host self ∨ missing_source_path self →
  let o := StoragePool.validate env self in
  (missing_host self →
   value o = Raise (RuntimeError "Hostname is required")) ∧
  (¬ missing_host self →
   value o = Raise (RuntimeError "Source path is required")) ∧
  (Py.truthy (StoragePool.target_path self) = false →
   StoragePool.default_target_path env self
   = Return (StoragePool.target_path (final o))) ∧
  (Py.truthy (StoragePool.source_name self) = false →
   StoragePool.source_name (final o)
   = StoragePool.default_source_name (final o)) ∧
  (Py.truthy (StoragePool.format self) = false →
   StoragePool.supports_property self "format" = true →
   StoragePool.format (final o) = Some "auto").
Proof.
  intros Hn Hname Hmissing o.
  destruct (default_target_path_returns self n Hn) as [v Hdtp].
  assert (final o = defaulted self v ∧
          (missing_host self →
           value o = Raise (RuntimeError "Hostname is required")) ∧
          (¬ missing_host self →
           value o = Raise (RuntimeError "Source path is required")))
    as (Hfinal & Hhost & Hsource).
  { subst o. rewrite (validate_unfold self v Hname (or_intror Hdtp)).
    cbv zeta. rewrite !defaulted_type_is, defaulted_hosts,
      defaulted_source_path.
    rewrite !defaulted_supports by (unfold table_properties; repeat constructor).
    destruct (StoragePool.supports_property self "hosts" &&
              bool_decide (StoragePool.hosts self = [])) eqn:Hh.
    - split; [reflexivity |]. split; [reflexivity |].
      intros Hnot. exfalso. apply Hnot.
      apply andb_true_iff in Hh as [Hsup Hhosts].
      split; [exact Hsup | now apply bool_decide_eq_true in Hhosts].
    - assert (¬ missing_host self) as Hnot.
      { intros [Hsup Hhosts]. rewrite Hsup, Hhosts in Hh.
        now rewrite bool_decide_eq_true_2 in Hh. }
      destruct Hmissing as [Hmh | (Hsup & Hlog & Hsp)]; [contradiction |].
      rewrite Hsup, Hsp.
      assert (StoragePool.type_is self "logical" = false) as ->.
      { apply bool_decide_eq_false. exact Hlog. }
      simpl. split; [reflexivity |]. split; [contradiction | reflexivity]. }
  split; [exact Hhost |]. split; [exact Hsource |].
  rewrite Hfinal. split; [| split].
  - intros Htp. now rewrite defaulted_target_path, Htp.
  - apply defaulted_source_name.
  - intros Hfmt Hsup. now rewrite defaulted_format, Hfmt, Hsup.
Qed.

End PoolDefaults.

(** ** [StoragePool.install] *)

Lemma append_empty_r (s : string) : s +:+ "" = s.
Proof.
  induction s as [| c s IH]; [reflexivity |].
  change (String c s +:+ "") with (String c (s +:+ "")). now rewrite IH.
Qed.

(** A format that ends in its only directive. *)
Ltac solve_fmt_tail :=
  intros; vm_compute; repeat f_equal; apply append_empty_r.

Lemma fmt_could_not_build (a : string) :
  Py.fmt "Could not build storage pool: %s" [a]
  = "Could not build storage pool: " +:+ a.
Proof. solve_fmt_tail. Qed.

Lemma fmt_could_not_start (a : string) :
  Py.fmt "Could not start storage pool: %s" [a]
  = "Could not start storage pool: " +:+ a.
Proof. solve_fmt_tail. Qed.

Lemma fmt_could_not_autostart (a : string) :
  Py.fmt "Could not set pool autostart flag: %s" [a]
  = "Could not set pool autostart flag: " +:+ a.
Proof. solve_fmt_tail. Qed.

Section TryExcept.
Context {St A B : Type}.

(** A traced call under [try]/[except], followed by [k]. *)
Lemma bind_try_call (ev : event) (r : result A) (h : exception → M St A)
    (k : A → M St B) (s : St) :
  (try_except (emit ev;; lift r) h ≫= k) s
  = prepend [ev] match r with
                 | Return a => k a s
                 | Raise e => (h e ≫= k) s
                 end.
Proof.
  unfold try_except, mbind, M_bind, bind, emit, lift, prepend.
  destruct r as [a | e]; simpl.
  - reflexivity.
  - destruct (h e s) as [s1 t1 [a | e1]]; reflexivity.
Qed.

End TryExcept.

Section PoolInstall.
Context `{!XMLBuilder StoragePool.t}.

Lemma bind_install_stage {B : Type} (enabled : bool) (errmsg : option string)
    (ev : event) (call : result unit) (msg : string)
    (k : option string → M StoragePool.t B) (s : StoragePool.t) :
  (StoragePool.install_stage enabled errmsg ev call msg ≫= k) s
  = if enabled && negb (Py.truthy errmsg) then
      prepend [ev] match call with
                   | Return _ => k errmsg s
                   | Raise e => k (Some (Py.fmt msg [exc_str e])) s
                   end
    else k errmsg s.
Proof.
  unfold StoragePool.install_stage, gettext.
  destruct (enabled && negb (Py.truthy errmsg)); [| apply bind_ret].
  unfold try_except, mbind, M_bind, bind, emit, lift, mret, M_ret, ret,
    prepend.
  destruct call as [[] | e]; simpl.
  - reflexivity.
  - now destruct (k _ s).
Qed.

(** A stage that does not fail leaves [errmsg] unset. *)
Lemma bind_install_stage_ok {B : Type} (enabled : bool) (ev : event)
    (call : result unit) (msg : string)
    (k : option string → M StoragePool.t B) (s : StoragePool.t) :
  stage_ok enabled call →
  (StoragePool.install_stage enabled None ev call msg ≫= k) s
  = prepend (attempted enabled ev) (k None s).
Proof.
  intros Hok. rewrite bind_install_stage. unfold attempted.
  destruct enabled; simpl; [| now rewrite prepend_nil].
  destruct Hok as [Hoff | ->]; [discriminate | reflexivity].
Qed.

(** The first stage that fails sets [errmsg]. *)
Lemma bind_install_stage_fails {B : Type} (ev : event) (call : result unit)
    (e : exception) (msg : string)
    (k : option string → M StoragePool.t B) (s : StoragePool.t) :
  call = Raise e →
  (StoragePool.install_stage true None ev call msg ≫= k) s
  = prepend [ev] (k (Some (Py.fmt msg [exc_str e])) s).
Proof. intros ->. now rewrite bind_install_stage. Qed.

(** Once a stage has failed, the later stages are skipped. *)
Lemma bind_install_stage_skipped {B : Type} (enabled : bool) (errmsg : string)
    (ev : event) (call : result unit) (msg : string)
    (k : option string → M StoragePool.t B) (s : StoragePool.t) :
  errmsg ≠ "" →
  (StoragePool.install_stage enabled (Some errmsg) ev call msg ≫= k) s
  = k (Some errmsg) s.
Proof.
  intros Hmsg. rewrite bind_install_stage. simpl.
  rewrite (bool_decide_eq_true_2 _ Hmsg). now rewrite andb_false_r.
Qed.

(** The clean-up and the final [raise]: the undefine is attempted, its
    failure is logged and does not replace [msg]. *)
Lemma install_cleanup_run (pool : virStoragePool) (msg : string)
    (s : StoragePool.t) :
  (try_except (emit (PoolUndefine pool);; lift (undefine pool))
     (λ e, emit (Log DEBUG "Error cleaning up pool after failure: %s"
                   [exc_str e]));;
   raise (A:=virStoragePool) (RuntimeError (Py.str (Some msg)))) s
  = Outcome s (cleanup pool) (Raise (RuntimeError msg)).
Proof.
  rewrite bind_try_call. unfold cleanup.
  destruct (undefine pool) as [[] | e]; reflexivity.
Qed.

(** The start of [install], up to the first stage. *)
Ltac install_begin Hpre1 Hpre2 Hdef :=
  unfold StoragePool.install, StoragePool.TYPE_LOGICAL,
    StoragePool.TYPE_DISK;
  rewrite bind_get, bind_when, Hpre1, bind_when, Hpre2, bind_emit,
    bind_try_call, Hdef.

(** The end of [install] after a stage has set [errmsg]. *)
Ltac install_fail :=
  rewrite ?bind_install_stage_skipped by discriminate;
  rewrite truthy_app by discriminate;
  rewrite install_cleanup_run;
  unfold prepend, install_header, attempted; simpl;
  rewrite <- ?app_assoc; split; reflexivity.

(** C6: in [install], once the pool is defined, a failure of the build,
    start or autostart step skips the steps after it, attempts the
    undefine (a failure of which is logged and swallowed), and raises the
    [RuntimeError] of the stage that failed; when no step fails the pool
    handle is registered with the connection's cache and returned. *)
Theorem install_stages (self : StoragePool.t) (create' build' autostart : bool)
    (pool : virStoragePool) :
  StoragePool.type_is self "logical" && build' &&
    negb (Py.truthy (StoragePool.source_path self)) = false →
  StoragePool.type_is self "disk" && build' &&
    bool_decide (StoragePool.format self = Some "auto") = false →
  storagePoolDefineXML (StoragePool.conn self) (get_xml self) 0
  = Return pool →
  let o := StoragePool.install create' build' autostart self in
  let build_ev := PoolBuild pool libvirt.VIR_STORAGE_POOL_BUILD_NEW in
  let build_call := build pool libvirt.VIR_STORAGE_POOL_BUILD_NEW in
  (∀ e, build' = true → build_call = Raise e →
     value o
     = Raise (RuntimeError ("Could not build storage pool: " +:+ exc_str e)) ∧
     trace o = (install_header self ++ [build_ev] ++ cleanup pool)%list) ∧
  (∀ e, stage_ok build' build_call →
     create' = true → create pool 0 = Raise e →
     value o
     = Raise (RuntimeError ("Could not start storage pool: " +:+ exc_str e)) ∧
     trace o = (install_header self ++ attempted build' build_ev ++
                [PoolCreate pool 0] ++ cleanup pool)%list) ∧
  (∀ e, stage_ok build' build_call → stage_ok create' (create pool 0) →
     autostart = true → setAutostart pool true = Raise e →
     value o
     = Raise (RuntimeError
                ("Could not set pool autostart flag: " +:+ exc_str e)) ∧
     trace o = (install_header self ++ attempted build' build_ev ++
                attempted create' (PoolCreate pool 0) ++
                [PoolSetAutostart pool true] ++ cleanup pool)%list) ∧
  (stage_ok build' build_call → stage_ok create' (create pool 0) →
   stage_ok autostart (setAutostart pool true) →
     value o = Return pool ∧
     trace o = (install_header self ++ attempted build' build_ev ++
                attempted create' (PoolCreate pool 0) ++
                attempted autostart (PoolSetAutostart pool true) ++
                [CacheNewPool pool])%list).
Proof.
  intros Hpre1 Hpre2 Hdef o build_ev build_call. subst o build_ev build_call.
  split; [| split; [| split]].
  - intros e -> Hbuild. install_begin Hpre1 Hpre2 Hdef.
    rewrite (bind_install_stage_fails _ _ _ _ _ _ Hbuild).
    rewrite fmt_could_not_build. install_fail.
  - intros e Hb -> Hcreate. install_begin Hpre1 Hpre2 Hdef.
    rewrite (bind_install_stage_ok _ _ _ _ _ _ Hb).
    rewrite (bind_install_stage_fails _ _ _ _ _ _ Hcreate).
    rewrite fmt_could_not_start. install_fail.
  - intros e Hb Hc -> Hauto. install_begin Hpre1 Hpre2 Hdef.
    rewrite (bind_install_stage_ok _ _ _ _ _ _ Hb).
    rewrite (bind_install_stage_ok _ _ _ _ _ _ Hc).
    rewrite (bind_install_stage_fails _ _ _ _ _ _ Hauto).
    rewrite fmt_could_not_autostart. install_fail.
  - intros Hb Hc Ha. install_begin Hpre1 Hpre2 Hdef.
    rewrite (bind_install_stage_ok _ _ _ _ _ _ Hb).
    rewrite (bind_install_stage_ok _ _ _ _ _ _ Hc).
    rewrite (bind_install_stage_ok _ _ _ _ _ _ Ha).
    change (Py.truthy None) with false. cbv iota. rewrite bind_emit.
    unfold prepend, install_header, attempted; simpl.
    rewrite <- ?app_assoc. split; reflexivity.
Qed.

(** [install] leaves the pool object as it was. *)
Lemma install_stateless (create' build' autostart : bool) :
  stateless (StoragePool.install create' build' autostart).
Proof.
  unfold StoragePool.install, StoragePool.install_stage.
  prove_stateless.
Qed.

End PoolInstall.

(** ** [StoragePool.pool_list_from_sources] *)

Section PoolSources.
Context `{!XMLBuilder StoragePool.t}.
Variable enumerate_sources : Connection → string → list string.

Lemma fmt_discovery_request (h : string) :
  Py.fmt "<source><host name='%s'/></source>" [h]
  = "<source><host name='" +:+ h +:+ "'/></source>".
Proof. reflexivity. Qed.

Lemma pool_list_from_sources_request (c : Connection) (pool_type : string)
    (host : option string) :
  StoragePool.pool_list_from_sources enumerate_sources c pool_type host
  = match findStoragePoolSources c pool_type (discovery_request host) 0 with
    | Raise e => if support_is_error_nosupport c e then Return [] else Raise e
    | Return xml =>
        Return (map (StoragePool.pool_from_source c pool_type)
                  (enumerate_sources c xml))
    end.
Proof.
  unfold StoragePool.pool_list_from_sources, discovery_request.
  destruct host as [h |]; cbn [Py.truthy Py.str]; [| reflexivity].
  destruct (decide (h = "")) as [-> | Hne].
  - reflexivity.
  - rewrite (bool_decide_eq_true_2 _ Hne), (bool_decide_eq_false_2 _ Hne).
    now rewrite fmt_discovery_request.
Qed.

(** C7: when the connection's source discovery raises,
    [pool_list_from_sources] returns the empty list if the connection
    classifies the error as not supported, and raises the same exception
    otherwise. *)
Theorem pool_list_from_sources_errors (c : Connection) (pool_type : string)
    (host : option string) (e : exception) :
  findStoragePoolSources c pool_type (discovery_request host) 0 = Raise e →
  (support_is_error_nosupport c e = true →
   StoragePool.pool_list_from_sources enumerate_sources c pool_type host
   = Return []) ∧
  (support_is_error_nosupport c e = false →
   StoragePool.pool_list_from_sources enumerate_sources c pool_type host
   = Raise e).
Proof.
  intros Hfind. rewrite pool_list_from_sources_request, Hfind.
  split; intros ->; reflexivity.
Qed.

End PoolSources.

(** ** [StorageVolume.is_size_conflict] *)

Section VolumeSize.
Context `{!XMLBuilder StoragePool.t} `{!XMLBuilder StorageVolume.t}.

Lemma fmt_allocation_conflict (alloc avail : Z) :
  Py.fmt
    ("There is not enough free space on the storage " +:+
     "pool to create the volume. " +:+
     "(%d M requested allocation > %d M available)")
    [Py.fmt_d (alloc / StorageVolume.MiB); Py.fmt_d (avail / StorageVolume.MiB)]
  = allocation_conflict_message alloc avail.
Proof. reflexivity. Qed.

Lemma fmt_capacity_conflict (cap avail : Z) :
  Py.fmt
    ("The requested volume capacity will exceed the " +:+
     "available pool space when the volume is fully " +:+
     "allocated. " +:+
     "(%d M requested capacity > %d M available)")
    [Py.fmt_d (cap / StorageVolume.MiB); Py.fmt_d (avail / StorageVolume.MiB)]
  = capacity_conflict_message cap avail.
Proof. reflexivity. Qed.

Lemma capacity_conflict_message_nonempty (cap avail : Z) :
  capacity_conflict_message cap avail ≠ "".
Proof. discriminate. Qed.

(** C5: [is_size_conflict] answers [(False, "")] without a pool; with a
    pool that reports [avail] free bytes it answers [(True, msg)] exactly
    when the allocation exceeds [avail], the message giving both amounts
    in whole mebibytes; [(False, msg)], [msg] not empty, when the
    allocation does not exceed [avail] but the capacity does; and
    [(False, "")] otherwise. *)
Theorem is_size_conflict_cases (self : StorageVolume.t) :
  (StorageVolume.pool self = None →
   StorageVolume.is_size_conflict self = Return (false, "")) ∧
  (∀ p state pool_cap pool_alloc avail alloc,
     StorageVolume.pool self = Some p →
     info p = Return (state, pool_cap, pool_alloc, avail) →
     StorageVolume.allocation self = Some alloc →
     ((∃ msg, StorageVolume.is_size_conflict self = Return (true, msg)) ↔
      alloc > avail) ∧
     (alloc > avail →
      StorageVolume.is_size_conflict self
      = Return (true, allocation_conflict_message alloc avail)) ∧
     (∀ cap,
        StorageVolume.capacity self = Some cap →
        alloc ≤ avail →
        (cap > avail →
         StorageVolume.is_size_conflict self
         = Return (false, capacity_conflict_message cap avail) ∧
         capacity_conflict_message cap avail ≠ "") ∧
        (cap ≤ avail →
         StorageVolume.is_size_conflict self = Return (false, "")))).
Proof.
  split.
  - intros Hpool. unfold StorageVolume.is_size_conflict. now rewrite Hpool.
  - intros p state pool_cap pool_alloc avail alloc Hpool Hinfo Halloc.
    unfold StorageVolume.is_size_conflict, gettext.
    rewrite Hpool, Hinfo, Halloc, fmt_allocation_conflict.
    destruct (Z.gtb_spec alloc avail) as [Hgt | Hle].
    + split; [| split].
      * split; [lia | eauto].
      * reflexivity.
      * intros cap Hcap Hle. lia.
    + split; [| split].
      * split; [| lia]. intros [msg Hmsg].
        destruct (StorageVolume.capacity self) as [cap |]; [| discriminate].
        destruct (cap >? avail); discriminate.
      * lia.
      * intros cap Hcap _. rewrite Hcap, fmt_capacity_conflict.
        destruct (Z.gtb_spec cap avail) as [Hgt' | Hle'].
        -- split; [| lia]. intros _.
           split; [reflexivity | apply capacity_conflict_message_nonempty].
        -- split; [lia | reflexivity].
Qed.

End VolumeSize.

(** ** [StorageVolume.validate] in a logical pool *)

Section VolumeValidate.
Context `{!XMLBuilder StoragePool.t} `{!XMLBuilder StorageVolume.t}.

Lemma file_type_returns (self : StorageVolume.t) (pxml : StoragePool.t) :
  StorageVolume._pool_xml self = Some pxml →
  ∃ ft, StorageVolume.file_type self = Return ft.
Proof.
  intros Hpxml. unfold StorageVolume.file_type. rewrite Hpxml.
  repeat case_match; eauto.
Qed.

(** The run of [validate] on a sparse volume that fits its logical
    pool: the format and lazy-refcounts defaults, then the forced
    allocation. *)
Lemma validate_logical_run (self : StorageVolume.t)
    (p : virStoragePool) (pxml : StoragePool.t)
    (state pool_cap pool_alloc avail cap ft : Z) :
  StorageVolume.validate_name (StorageVolume.pool self)
    (StorageVolume.name self) = Return tt →
  StorageVolume.pool self = Some p →
  StorageVolume._pool_xml self = Some pxml →
  StoragePool.type pxml = Some "logical" →
  info p = Return (state, pool_cap, pool_alloc, avail) →
  StorageVolume.capacity self = Some cap →
  StorageVolume.allocation self ≠ StorageVolume.capacity self →
  cap ≤ avail →
  StorageVolume.file_type self = Return ft →
  StorageVolume.validate self
  = let s1 := if negb (Py.truthy (StorageVolume.format self)) &&
                 (ft =? StorageVolume.TYPE_FILE)
              then StorageVolume.set_format (Some "raw") self else self in
    let s2 := if _prop_is_unset s1 "lazy_refcounts" &&
                 bool_decide (StorageVolume.format s1 = Some "qcow2")
              then StorageVolume.set_lazy_refcounts
                     (Some (support_conn_qcow2_lazy_refcounts
                              (StorageVolume.conn self))) s1
              else s1 in
    Outcome (StorageVolume.set_allocation (Some cap) s2) [sparse_warning]
      (Return tt).
Proof.
  intros Hname Hpool Hpxml Hlogical Hinfo Hcap Hsparse Hfits Hft.
  unfold StorageVolume.validate, gettext, StorageVolume.TYPE_FILE.
  rewrite bind_get, bind_lift, Hname, bind_when.
  (* default format *)
  destruct (Py.truthy (StorageVolume.format self)) eqn:Hfmt; cbn [negb andb];
    [| rewrite bind_bind, bind_lift, Hft, bind_when;
       destruct (ft =? VolumeType.TYPE_FILE) eqn:Hfile;
       [rewrite bind_modify |] ];
    cbv zeta; cbv iota;
    (* lazy refcounts *)
    rewrite bind_get, bind_when;
    match goal with
    | |- context [if ?c then (_ ≫= _) _ else _] => destruct c eqn:Hlazy
    end;
    rewrite ?bind_modify;
    (* the logical pool: allocation forced to capacity *)
    rewrite bind_lift;
    cbn [StorageVolume._pool_xml StorageVolume.set_format
           StorageVolume.set_lazy_refcounts];
    rewrite Hpxml; cbv iota; unfold StoragePool.TYPE_LOGICAL;
    rewrite bind_when, (type_is_same _ _ Hlogical);
    rewrite bind_bind, bind_get, bind_when;
    cbn [StorageVolume.allocation StorageVolume.capacity
           StorageVolume.set_format StorageVolume.set_lazy_refcounts];
    rewrite (bool_decide_eq_false_2 _ Hsparse); cbn [negb];
    rewrite bind_bind, bind_emit, bind_modify, bind_get, bind_lift;
    (* the size check passes *)
    unfold StorageVolume.is_size_conflict;
    cbn [StorageVolume.pool StorageVolume._pool StorageVolume.allocation
           StorageVolume.capacity StorageVolume.set_allocation
           StorageVolume.set_format StorageVolume.set_lazy_refcounts];
    unfold StorageVolume.pool in Hpool; rewrite Hpool, Hinfo, Hcap;
    assert ((cap >? avail) = false) as -> by lia;
    reflexivity.
Qed.

(** C8: [validate] on a volume of a logical pool whose allocation
    differs from its capacity sets the allocation to the capacity, logs
    one warning and returns, provided the name passes validation and the
    capacity fits the space the pool reports. *)
Theorem validate_logical_allocation (self : StorageVolume.t)
    (p : virStoragePool) (pxml : StoragePool.t)
    (state pool_cap pool_alloc avail cap : Z) :
  StorageVolume.validate_name (StorageVolume.pool self)
    (StorageVolume.name self) = Return tt →
  StorageVolume.pool self = Some p →
  StorageVolume._pool_xml self = Some pxml →
  StoragePool.type pxml = Some "logical" →
  info p = Return (state, pool_cap, pool_alloc, avail) →
  StorageVolume.capacity self = Some cap →
  StorageVolume.allocation self ≠ StorageVolume.capacity self →
  cap ≤ avail →
  let o := StorageVolume.validate self in
  value o = Return tt ∧
  StorageVolume.allocation (final o) = StorageVolume.capacity self ∧
  StorageVolume.capacity (final o) = StorageVolume.capacity self ∧
  trace o = [sparse_warning].
Proof.
  intros Hname Hpool Hpxml Hlogical Hinfo Hcap Hsparse Hfits o. subst o.
  destruct (file_type_returns self pxml Hpxml) as [ft Hft].
  rewrite (validate_logical_run self p pxml state pool_cap pool_alloc avail
             cap ft) by assumption.
  cbv zeta. cbn [value final trace]. rewrite Hcap.
  repeat split. repeat case_match; exact Hcap.
Qed.

End VolumeValidate.

(** ** The creation flags of [StorageVolume.install] *)

Section VolumeInstall.
Context `{!XMLBuilder StoragePool.t} `{!XMLBuilder StorageVolume.t}.
Context (env : Environ).

Lemma wants_prealloc_metadata_true (self : StorageVolume.t) :
  StorageVolume.wants_prealloc_metadata self = true ↔ prealloc_conditions self.
Proof.
  unfold StorageVolume.wants_prealloc_metadata, prealloc_conditions.
  rewrite !andb_true_iff, !negb_true_iff, bool_decide_eq_true. tauto.
Qed.

Lemma has_flag_prealloc_lor (flags other : Z) :
  Z.land other libvirt.VIR_STORAGE_VOL_CREATE_PREALLOC_METADATA = 0 →
  StorageVolume.has_flag (Z.lor flags other)
    libvirt.VIR_STORAGE_VOL_CREATE_PREALLOC_METADATA
  = StorageVolume.has_flag flags
      libvirt.VIR_STORAGE_VOL_CREATE_PREALLOC_METADATA.
Proof.
  intros Hother. unfold StorageVolume.has_flag.
  now rewrite Z.land_lor_distr_l, Hother, Z.lor_0_r.
Qed.

(** C9: the create flags carry the prealloc-metadata flag exactly when
    the format is qcow2, no backing store is set, the connection is not a
    test connection and the connection's probe confirms metadata
    preallocation for the pool; the clone flags carry it exactly when, in
    addition, capacity equals allocation.  (The reflink flag, when asked
    for, is assumed to be a bit other than the prealloc one.) *)
Theorem install_prealloc_flags (self : StorageVolume.t) :
  (StorageVolume.reflink self = true →
   Z.land (StorageVolume.reflink_flag env)
     libvirt.VIR_STORAGE_VOL_CREATE_PREALLOC_METADATA = 0) →
  let cloneflags := fst (StorageVolume.install_flags env self) in
  let createflags := snd (StorageVolume.install_flags env self) in
  (StorageVolume.has_flag createflags
     libvirt.VIR_STORAGE_VOL_CREATE_PREALLOC_METADATA = true ↔
   prealloc_conditions self) ∧
  (prealloc_conditions self →
   (StorageVolume.has_flag cloneflags
      libvirt.VIR_STORAGE_VOL_CREATE_PREALLOC_METADATA = true ↔
    StorageVolume.capacity self = StorageVolume.allocation self)) ∧
  (¬ prealloc_conditions self →
   StorageVolume.has_flag cloneflags
     libvirt.VIR_STORAGE_VOL_CREATE_PREALLOC_METADATA = false).
Proof.
  intros Hreflink cloneflags createflags. subst cloneflags createflags.
  unfold StorageVolume.install_flags.
  rewrite <- wants_prealloc_metadata_true.
  assert (∀ flags,
            StorageVolume.has_flag
              (if StorageVolume.reflink self
               then Z.lor flags (StorageVolume.reflink_flag env) else flags)
              libvirt.VIR_STORAGE_VOL_CREATE_PREALLOC_METADATA
            = StorageVolume.has_flag flags
                libvirt.VIR_STORAGE_VOL_CREATE_PREALLOC_METADATA) as Hclone.
  { intros flags. destruct (StorageVolume.reflink self); [| reflexivity].
    now apply has_flag_prealloc_lor, Hreflink. }
  destruct (StorageVolume.wants_prealloc_metadata self).
  - destruct (decide (StorageVolume.capacity self
                      = StorageVolume.allocation self)) as [Heq | Hne].
    + rewrite (bool_decide_eq_true_2 _ Heq). cbn [fst snd]. rewrite Hclone.
      repeat split; intros; first [done | congruence].
    + rewrite (bool_decide_eq_false_2 _ Hne). cbn [fst snd]. rewrite Hclone.
      repeat split; intros; first [done | congruence].
  - cbn [fst snd]. rewrite Hclone.
    repeat split; intros; first [done | congruence].
Qed.

(** The flags reach libvirt: without an input volume [install] calls
    [createXML] with the create flags, with one it calls [createXMLFrom]
    with the clone flags. *)
Variable manage_path :
  Connection → option string →
  result (option virStorageVol * option virStoragePool).

Lemma try_except_run {St A} (m : M St A) (h : exception → M St A) (s : St) :
  try_except m h s
  = match value (m s) with
    | Return _ => m s
    | Raise e => prepend (trace (m s)) (h e (final (m s)))
    end.
Proof. reflexivity. Qed.

Ltac find_event :=
  repeat first [ apply list_elem_of_here | apply list_elem_of_further ].

Lemma install_create_call (self : StorageVolume.t) (p : virStoragePool) :
  Py.truthy (StorageVolume.backing_store self) &&
    negb (Py.truthy (StorageVolume.backing_format self)) = false →
  StorageVolume.pool self = Some p →
  StorageVolume.input_vol self = None →
  VolCreateXML p (get_xml self) (snd (StorageVolume.install_flags env self))
  ∈ trace (StorageVolume.install env manage_path self).
Proof.
  intros Hdetect Hpool Hinput. unfold StorageVolume.install.
  rewrite bind_get, bind_when, Hdetect, bind_get, bind_emit.
  destruct (StorageVolume.install_flags env self) as [cloneflags createflags].
  rewrite try_except_run, Hinput, Hpool.
  rewrite !bind_bind, bind_emit, bind_bind, bind_emit, bind_lift.
  destruct (createXML p (get_xml self) createflags); simpl; find_event.
Qed.

Lemma install_clone_call (self : StorageVolume.t) (p : virStoragePool)
    (iv : virStorageVol) :
  Py.truthy (StorageVolume.backing_store self) &&
    negb (Py.truthy (StorageVolume.backing_format self)) = false →
  StorageVolume.pool self = Some p →
  StorageVolume.input_vol self = Some iv →
  VolCreateXMLFrom p (get_xml self) iv
    (fst (StorageVolume.install_flags env self))
  ∈ trace (StorageVolume.install env manage_path self).
Proof.
  intros Hdetect Hpool Hinput. unfold StorageVolume.install.
  rewrite bind_get, bind_when, Hdetect, bind_get, bind_emit.
  destruct (StorageVolume.install_flags env self) as [cloneflags createflags].
  rewrite try_except_run, Hinput, Hpool.
  rewrite !bind_bind, bind_emit, bind_lift.
  destruct (createXMLFrom p (get_xml self) iv cloneflags); simpl; find_event.
Qed.

End VolumeInstall.

(** ** The theorems at concrete pools and volumes *)

Section Examples.
Import Fixtures.
#[local] Existing Instance pool_builder.
#[local] Existing Instance volume_builder.

(** C1, counterexample: a gluster pool has no mapped default, and
    [default_target_path] returns [None] for it instead of raising. *)
Lemma default_target_path_gluster_does_not_raise :
  ¬ ∃ e, StoragePool.default_target_path env0 (a_pool "gluster" "gv")
         = Raise e.
Proof. intros [e He]. vm_compute in He. discriminate He. Qed.

(** A directory pool named [images] on a system connection. *)
Lemma default_target_path_by_type_witness :
  StoragePool.name (a_pool "dir" "images") = Some "images" ∧
  StoragePool.default_target_path env0 (a_pool "dir" "images")
  = Return (Some "/var/lib/libvirt/images/images").
Proof.
  split; [reflexivity |].
  apply (default_target_path_by_type env0 (a_pool "dir" "images") "images");
    [reflexivity |].
  exists "dir". split; [reflexivity | apply list_elem_of_here].
Defined.

(** C4, counterexample: for a netfs pool named [share] with no source
    name, [default_source_name] does not return the pool's name. *)
Lemma default_source_name_netfs_is_not_the_name :
  StoragePool.source_name (a_pool "netfs" "share") = None ∧
  StoragePool.default_source_name (a_pool "netfs" "share") ≠ Some "share".
Proof. split; [reflexivity |]. vm_compute. discriminate. Qed.

(** A disk pool and a filesystem pool, each with a source device and no
    format: [validate] returns on both, leaving the first without a
    format and the second with ["auto"]. *)
Lemma validate_format_witness :
  value (StoragePool.validate env0 disk_pool) = Return tt ∧
  StoragePool.format (final (StoragePool.validate env0 disk_pool)) = None ∧
  value (StoragePool.validate env0 fs_pool) = Return tt ∧
  StoragePool.format (final (StoragePool.validate env0 fs_pool))
  = Some "auto".
Proof.
  split; [reflexivity |]. split; [| split; [reflexivity |]].
  - apply (validate_format env0 disk_pool); [reflexivity | |].
    + exists "disk". split; [reflexivity | apply list_elem_of_here].
    + right. reflexivity.
  - apply (validate_format env0 fs_pool); [reflexivity | | reflexivity ..].
    intros (ty & Hty & Hin). injection Hty as <-.
    apply elem_of_cons in Hin as [Hin | Hin];
      [discriminate Hin | by apply elem_of_nil in Hin].
Defined.

(** A pool whose start fails and whose undefine fails too: the
    autostart step is skipped, the undefine is attempted and its failure
    logged, and the error raised is the start error. *)
Lemma install_stages_witness :
  storagePoolDefineXML (StoragePool.conn doomed_pool) (get_xml doomed_pool) 0
  = Return failing_pool ∧
  create failing_pool 0 = Raise (libvirtError "cannot open directory") ∧
  value (StoragePool.install true true true doomed_pool)
  = Raise (RuntimeError
             "Could not start storage pool: cannot open directory") ∧
  trace (StoragePool.install true true true doomed_pool)
  = (install_header doomed_pool ++
     [PoolBuild failing_pool 0; PoolCreate failing_pool 0;
      PoolUndefine failing_pool;
      Log DEBUG "Error cleaning up pool after failure: %s" ["pool is busy"]]
    )%list.
Proof.
  split; [reflexivity |]. split; [reflexivity |].
  destruct (install_stages doomed_pool true true true failing_pool)
    as (_ & Hcreate & _); [reflexivity .. |].
  apply (Hcreate (libvirtError "cannot open directory"));
    [right; reflexivity | reflexivity | reflexivity].
Defined.

(** Source discovery on a connection that does not support it. *)
Lemma pool_list_from_sources_errors_witness :
  findStoragePoolSources old_conn "logical" (discovery_request None) 0
  = Raise (libvirtError "this function is not supported") ∧
  StoragePool.pool_list_from_sources (λ _ _, []) old_conn "logical" None
  = Return [].
Proof.
  split; [reflexivity |].
  apply (pool_list_from_sources_errors (λ _ _, []) old_conn "logical" None
           (libvirtError "this function is not supported"));
    reflexivity.
Defined.

(** Capacity 20 GiB, allocation 5 GiB, in a logical pool with 50 GiB
    free. *)
Lemma validate_logical_allocation_witness :
  let v := a_volume_in "logical" None (20 * GiB) (5 * GiB) (50 * GiB) in
  StorageVolume.allocation v ≠ StorageVolume.capacity v ∧
  value (StorageVolume.validate v) = Return tt ∧
  StorageVolume.allocation (final (StorageVolume.validate v))
  = Some (20 * GiB) ∧
  StorageVolume.capacity (final (StorageVolume.validate v))
  = Some (20 * GiB) ∧
  trace (StorageVolume.validate v) = [sparse_warning].
Proof.
  cbv zeta. split; [discriminate |].
  apply (validate_logical_allocation
           (a_volume_in "logical" None (20 * GiB) (5 * GiB) (50 * GiB))
           (healthy_pool (50 * GiB)) (a_pool "logical" "vg0")
           libvirt.VIR_STORAGE_POOL_RUNNING (100 * 1024 * 1024 * 1024) 0
           (50 * GiB) (20 * GiB));
    first [reflexivity | discriminate].
Defined.

(** A qcow2 volume, fully allocated, with no backing store. *)
Lemma install_prealloc_flags_witness :
  let v := a_volume_in "dir" (Some "qcow2") (10 * GiB) (10 * GiB) (50 * GiB) in
  prealloc_conditions v ∧
  StorageVolume.has_flag (snd (StorageVolume.install_flags env0 v))
    libvirt.VIR_STORAGE_VOL_CREATE_PREALLOC_METADATA = true ∧
  StorageVolume.has_flag (fst (StorageVolume.install_flags env0 v))
    libvirt.VIR_STORAGE_VOL_CREATE_PREALLOC_METADATA = true.
Proof.
  cbv zeta.
  assert (prealloc_conditions
            (a_volume_in "dir" (Some "qcow2") (10 * GiB) (10 * GiB)
               (50 * GiB))) as Hcond
    by (repeat split; reflexivity).
  split; [exact Hcond |].
  destruct (install_prealloc_flags env0
              (a_volume_in "dir" (Some "qcow2") (10 * GiB) (10 * GiB)
                 (50 * GiB)))
    as (Hcreate & Hclone & _); [intros _; reflexivity |].
  split; [now apply Hcreate | now apply Hclone].
Defined.

(** A netfs pool without a host: [validate] raises, and the pool has
    received its default target path and format. *)
Lemma validate_not_atomic_witness :
  let p := a_pool "netfs" "share" in
  let o := StoragePool.validate env0 p in
  missing_host p ∧
  value o = Raise (RuntimeError "Hostname is required") ∧
  StoragePool.target_path p = None ∧
  StoragePool.target_path (final o) = Some "/var/lib/libvirt/images/share" ∧
  StoragePool.format p = None ∧
  StoragePool.format (final o) = Some "auto".
Proof.
  cbv zeta.
  assert (missing_host (a_pool "netfs" "share")) as Hmissing
    by (split; reflexivity).
  destruct (validate_not_atomic env0 (a_pool "netfs" "share") "share")
    as (Hhost & _ & _ & _ & Hformat);
    [reflexivity | reflexivity | left; exact Hmissing |].
  split; [exact Hmissing |]. split; [exact (Hhost Hmissing) |].
  split; [reflexivity |]. split; [reflexivity |].
  split; [reflexivity | exact (Hformat eq_refl eq_refl)].
Defined.

(** A filesystem pool supports [format] and not [hosts]; [uuid] is not
    in the table and is answered by [hasattr]. *)
Lemma supports_property_table_witness :
  StoragePool.supports_property fs_pool "format" = true ∧
  StoragePool.supports_property fs_pool "hosts" = false ∧
  StoragePool.supports_property fs_pool "uuid" = true.
Proof.
  destruct (supports_property_table fs_pool)
    as (_ & _ & Hhosts & Hformat & _ & _ & Hother).
  split; [| split].
  - apply Hformat. exists "fs". split; [reflexivity | apply list_elem_of_here].
  - apply not_true_is_false. intros Hsup.
    apply Hhosts in Hsup as (ty & Hty & Hin). injection Hty as <-.
    repeat (apply elem_of_cons in Hin as [Hin | Hin]; [discriminate Hin |]).
    by apply elem_of_nil in Hin.
  - rewrite Hother; [reflexivity |].
    intros Hin.
    repeat (apply elem_of_cons in Hin as [Hin | Hin]; [discriminate Hin |]).
    by apply elem_of_nil in Hin.
Defined.

(** A logical pool whose target path was set to [/dev/vg7/lv0]. *)
Lemma default_source_name_by_type_witness :
  let p := StoragePool.set_target_path (Some "/dev/vg7/lv0")
             (a_pool "logical" "pool0") in
  "target_path" ∈ StoragePool._propstore p ∧
  StoragePool.default_source_name p = Some "vg7".
Proof.
  cbv zeta.
  assert ("target_path"
          ∈ StoragePool._propstore
              (StoragePool.set_target_path (Some "/dev/vg7/lv0")
                 (a_pool "logical" "pool0"))) as Hset
    by (apply elem_of_union_l, elem_of_singleton; reflexivity).
  split; [exact Hset |].
  destruct (default_source_name_by_type
              (StoragePool.set_target_path (Some "/dev/vg7/lv0")
                 (a_pool "logical" "pool0")))
    as (_ & _ & Hvg & _).
  apply (Hvg (ex_intro _ "logical" (conj eq_refl (list_elem_of_here _ _)))
           "vg7" "/lv0" Hset eq_refl).
  - repeat split; discriminate.
  - right. exists "lv0". reflexivity.
Defined.

(** Capacity 20 GiB, allocation 5 GiB, 10 GiB free: a warning, not a
    fatal conflict. *)
Lemma is_size_conflict_cases_witness :
  let v := a_volume_in "dir" None (20 * GiB) (5 * GiB) (10 * GiB) in
  StorageVolume.is_size_conflict v
  = Return (false,
            "The requested volume capacity will exceed the available pool space when the volume is fully allocated. (20480 M requested capacity > 10240 M available)").
Proof.
  cbv zeta.
  destruct (is_size_conflict_cases
              (a_volume_in "dir" None (20 * GiB) (5 * GiB) (10 * GiB)))
    as [_ Hpool].
  destruct (Hpool (healthy_pool (10 * GiB)) libvirt.VIR_STORAGE_POOL_RUNNING
              (100 * 1024 * 1024 * 1024) 0 (10 * GiB) (5 * GiB)
              eq_refl eq_refl eq_refl) as (_ & _ & Hcap).
  destruct (Hcap (20 * GiB) eq_refl) as [Hover _]; [discriminate |].
  apply Hover. reflexivity.
Defined.

(** With less free space than the capacity, the forced allocation is
    itself the size conflict: [validate] raises after it has changed the
    allocation. *)
Remark validate_logical_overcommitted :
  let v := a_volume_in "logical" None (20 * GiB) (5 * GiB) (10 * GiB) in
  StorageVolume.is_size_conflict v
  = Return (false, capacity_conflict_message (20 * GiB) (10 * GiB)) ∧
  value (StorageVolume.validate v)
  = Raise (ValueError (allocation_conflict_message (20 * GiB) (10 * GiB))) ∧
  StorageVolume.allocation (final (StorageVolume.validate v))
  = Some (20 * GiB).
Proof. cbv zeta. repeat split; reflexivity. Qed.

(** Why the reflink flag must be a bit of its own: on a binding
    without the reflink constant the fallback value is the prealloc bit,
    and a reflink clone then carries it although none of the prealloc
    conditions holds. *)
Remark reflink_fallback_is_the_prealloc_bit :
  ¬ prealloc_conditions a_reflink_volume ∧
  StorageVolume.install_flags env_without_reflink a_reflink_volume = (1, 0) ∧
  StorageVolume.install_flags env0 a_reflink_volume = (2, 0).
Proof.
  split; [| split; reflexivity].
  intros (Hformat & _). discriminate Hformat.
Qed.

End Examples.

(** * Further properties *)

(** ** The source path of a pool: one of three fields, chosen by type *)

Section PoolSourcePath.

Lemma type_to_source_prop_cases (self : StoragePool.t) :
  StoragePool._type_to_source_prop self = "_source_dir" ∧
    has_type_in self ["netfs"; "gluster"] ∨
  StoragePool._type_to_source_prop self = "_source_adapter" ∧
    has_type_in self ["scsi"] ∨
  StoragePool._type_to_source_prop self = "_source_device" ∧
    ¬ has_type_in self ["netfs"; "gluster"; "scsi"].
Proof.
  unfold StoragePool._type_to_source_prop, StoragePool.type_is, has_type_in.
  unfold StoragePool.TYPE_NETFS, StoragePool.TYPE_GLUSTER,
    StoragePool.TYPE_SCSI.
  destruct (StoragePool.type self) as [ty |].
  - repeat case_bool_decide; simplify_eq; simpl.
    + left. split; [reflexivity |]. exists "netfs".
      split; [reflexivity | repeat constructor].
    + left. split; [reflexivity |]. exists "gluster".
      split; [reflexivity | repeat constructor].
    + right. left. split; [reflexivity |]. exists "scsi".
      split; [reflexivity | repeat constructor].
    + right. right. split; [reflexivity |]. intros (ty' & [= <-] & Hin).
      repeat (apply elem_of_cons in Hin as [-> | Hin]; [congruence |]).
      by apply elem_of_nil in Hin.
  - right. right. split; [reflexivity |]. intros (ty' & [=] & _).
Qed.

Lemma type_to_source_prop_type_only (p q : StoragePool.t) :
  StoragePool.type p = StoragePool.type q →
  StoragePool._type_to_source_prop p = StoragePool._type_to_source_prop q.
Proof.
  intros Hty. unfold StoragePool._type_to_source_prop, StoragePool.type_is.
  now rewrite Hty.
Qed.

Lemma set_source_path_type (self : StoragePool.t) (v : option string) :
  StoragePool.type (StoragePool.set_source_path v self)
  = StoragePool.type self.
Proof.
  unfold StoragePool.set_source_path. cbv zeta.
  destruct (bool_decide _); [reflexivity |].
  destruct (bool_decide _); reflexivity.
Qed.

Lemma source_path_after_set (self : StoragePool.t) (v : option string) :
  StoragePool.source_path (StoragePool.set_source_path v self) = v.
Proof.
  unfold StoragePool.source_path. cbv zeta.
  rewrite (type_to_source_prop_type_only _ self (set_source_path_type self v)).
  unfold StoragePool.set_source_path. cbv zeta.
  destruct (bool_decide _); [reflexivity |].
  destruct (bool_decide _); reflexivity.
Qed.

(** X1: assigning [source_path] and reading it back gives the assigned
    value for every pool type; the assignment leaves the type and the two
    fields that the type does not select as they were. *)
Theorem source_path_round_trip (self : StoragePool.t) (v : option string) :
  let self' := StoragePool.set_source_path v self in
  StoragePool.source_path self' = v ∧
  StoragePool.type self' = StoragePool.type self ∧
  (¬ has_type_in self ["netfs"; "gluster"] →
   StoragePool._source_dir self' = StoragePool._source_dir self) ∧
  (¬ has_type_in self ["scsi"] →
   StoragePool._source_adapter self' = StoragePool._source_adapter self) ∧
  (has_type_in self ["netfs"; "gluster"; "scsi"] →
   StoragePool._source_device self' = StoragePool._source_device self).
Proof.
  cbv zeta. split; [apply source_path_after_set |].
  unfold StoragePool.set_source_path. cbv zeta.
  destruct (type_to_source_prop_cases self)
    as [[-> Hin] | [[-> Hin] | [-> Hin]]]; simpl;
    (split; [reflexivity |]); (split; [| split]); intros Hty;
    try reflexivity; exfalso.
  - exact (Hty Hin).
  - exact (Hty Hin).
  - exact (Hin Hty).
Qed.

(** X2: a source path assigned under one type is not the one read after
    the type changes to a type that keeps its source in another field:
    the pool then reads what that other field held before. *)
Theorem source_path_lost_on_retype (self : StoragePool.t)
    (v ty' : option string) :
  StoragePool._type_to_source_prop (StoragePool.set_type ty' self)
  ≠ StoragePool._type_to_source_prop self →
  StoragePool.source_path
    (StoragePool.set_type ty' (StoragePool.set_source_path v self))
  = StoragePool.source_path (StoragePool.set_type ty' self).
Proof.
  intros Hsel. unfold StoragePool.source_path. cbv zeta.
  rewrite (type_to_source_prop_type_only
             (StoragePool.set_type ty' (StoragePool.set_source_path v self))
             (StoragePool.set_type ty' self) eq_refl).
  unfold StoragePool.set_source_path. cbv zeta.
  destruct (type_to_source_prop_cases (StoragePool.set_type ty' self))
    as [[Hnew _] | [[Hnew _] | [Hnew _]]]; rewrite Hnew in Hsel |- *;
    destruct (type_to_source_prop_cases self)
      as [[Hself _] | [[Hself _] | [Hself _]]]; rewrite Hself in Hsel |- *;
    try congruence; reflexivity.
Qed.


End PoolSourcePath.

(** ** Classification of pools and volumes *)

Ltac unfold_pool_types :=
  unfold StoragePool.TYPE_DIR, StoragePool.TYPE_FS, StoragePool.TYPE_NETFS,
    StoragePool.TYPE_LOGICAL, StoragePool.TYPE_DISK, StoragePool.TYPE_ISCSI,
    StoragePool.TYPE_SCSI, StoragePool.TYPE_MPATH, StoragePool.TYPE_GLUSTER,
    StoragePool.TYPE_RBD, StoragePool.TYPE_SHEEPDOG, StoragePool.TYPE_ZFS in *.

(** Membership of a string known to differ from every element. *)
Ltac not_in_list :=
  let Hin := fresh "Hin" in
  intros Hin;
  repeat (apply elem_of_cons in Hin as [-> | Hin]; [congruence |]);
  by apply elem_of_nil in Hin.

(** Split on whether [ty] is one of the strings of [l]. *)
Ltac split_on ty l :=
  lazymatch l with
  | [] => idtac
  | ?x :: ?l' => destruct (decide (ty = x)) as [-> | ?]; [| split_on ty l']
  end.

Lemma has_type_in_contains (self : StoragePool.t) (tys : list string) :
  has_type_in self tys ↔ Py.contains tys (StoragePool.type self) = true.
Proof. symmetry. apply contains_true. Qed.

Lemma not_has_type_in_contains (self : StoragePool.t) (tys : list string) :
  ¬ has_type_in self tys ↔ Py.contains tys (StoragePool.type self) = false.
Proof. rewrite has_type_in_contains. apply not_true_iff_false. Qed.

(** [get_disk_type] as a function of the type alone. *)
Lemma get_disk_type_contains (self : StoragePool.t) :
  StoragePool.get_disk_type self
  = if Py.contains ["disk"; "logical"; "scsi"; "mpath"; "zfs"]
         (StoragePool.type self)
    then VolumeType.TYPE_BLOCK
    else if Py.contains ["gluster"; "rbd"; "iscsi"; "sheepdog"]
              (StoragePool.type self)
    then VolumeType.TYPE_NETWORK
    else VolumeType.TYPE_FILE.
Proof.
  unfold StoragePool.get_disk_type, StoragePool.type_is. unfold_pool_types.
  destruct (StoragePool.type self) as [ty |]; [| reflexivity].
  split_on ty ["disk"; "logical"; "scsi"; "mpath"; "zfs"; "gluster"; "rbd";
               "iscsi"; "sheepdog"]; try reflexivity.
  unfold Py.contains.
  rewrite !bool_decide_eq_false_2; [reflexivity | ..];
    first [ congruence | not_in_list ].
Qed.

Lemma get_disk_type_range (self : StoragePool.t) :
  StoragePool.get_disk_type self ≠ VolumeType.TYPE_DIR ∧
  StoragePool.get_disk_type self ≠ VolumeType.TYPE_NETDIR.
Proof.
  rewrite get_disk_type_contains.
  repeat match goal with
         | |- context [Py.contains ?l ?x] => destruct (Py.contains l x)
         end; split; discriminate.
Qed.

(** X3: [get_disk_type] answers block exactly for disk, logical, scsi,
    mpath and zfs pools, network exactly for gluster, rbd, iscsi and
    sheepdog pools, and file for every other pool, typed or not; it never
    answers the directory or network-directory class. *)
Theorem get_disk_type_table (self : StoragePool.t) :
  (StoragePool.get_disk_type self = VolumeType.TYPE_BLOCK ↔
   has_type_in self ["disk"; "logical"; "scsi"; "mpath"; "zfs"]) ∧
  (StoragePool.get_disk_type self = VolumeType.TYPE_NETWORK ↔
   has_type_in self ["gluster"; "rbd"; "iscsi"; "sheepdog"]) ∧
  (StoragePool.get_disk_type self = VolumeType.TYPE_FILE ↔
   ¬ has_type_in self ["disk"; "logical"; "scsi"; "mpath"; "zfs"; "gluster";
                       "rbd"; "iscsi"; "sheepdog"]) ∧
  StoragePool.get_disk_type self ≠ VolumeType.TYPE_DIR ∧
  StoragePool.get_disk_type self ≠ VolumeType.TYPE_NETDIR.
Proof.
  rewrite get_disk_type_contains, !has_type_in_contains.
  destruct (StoragePool.type self) as [ty |].
  - split_on ty ["disk"; "logical"; "scsi"; "mpath"; "zfs"; "gluster"; "rbd";
                 "iscsi"; "sheepdog"];
      try (vm_compute; repeat split; intros; congruence).
    unfold Py.contains.
    rewrite !bool_decide_eq_false_2;
      [ vm_compute; repeat split; intros; congruence | .. ];
      not_in_list.
  - vm_compute; repeat split; intros; congruence.
Qed.

Section VolumeClass.
Context `{!XMLBuilder StoragePool.t} `{!XMLBuilder StorageVolume.t}.

(** The class of a volume whose own type is none of the four names that
    [file_type] knows comes from the pool. *)
Lemma file_type_from_pool (self : StorageVolume.t) :
  ¬ vol_has_type_in self ["file"; "block"; "dir"; "network"] →
  StorageVolume.file_type self
  = match StorageVolume._pool_xml self with
    | Some pxml => Return (StoragePool.get_disk_type pxml)
    | None => Raise (AttributeError_None "get_disk_type")
    end.
Proof.
  intros Hty. unfold StorageVolume.file_type. cbv zeta.
  destruct (StorageVolume.type self) as [ty |] eqn:Ety; [| reflexivity].
  rewrite !bool_decide_eq_false_2;
    [ by destruct (Py.truthy (Some ty)) | .. ];
    intros [= Heq]; apply Hty; exists ty; (split; [exact Ety |]);
    subst ty; repeat constructor.
Qed.

(** X4: a volume's own type, when it is file, block, dir or network,
    decides its class without looking at the pool; with any other type,
    or none, the class is the pool's disk class, and asking for it
    without a pool description raises.  The answer is never the
    network-directory class, and it is the directory class only for a
    volume typed dir. *)
Theorem file_type_classification (self : StorageVolume.t) :
  (vol_has_type_in self ["file"] →
   StorageVolume.file_type self = Return StorageVolume.TYPE_FILE) ∧
  (vol_has_type_in self ["block"] →
   StorageVolume.file_type self = Return StorageVolume.TYPE_BLOCK) ∧
  (vol_has_type_in self ["dir"] →
   StorageVolume.file_type self = Return StorageVolume.TYPE_DIR) ∧
  (vol_has_type_in self ["network"] →
   StorageVolume.file_type self = Return StorageVolume.TYPE_NETWORK) ∧
  (¬ vol_has_type_in self ["file"; "block"; "dir"; "network"] →
   (∀ pxml, StorageVolume._pool_xml self = Some pxml →
      StorageVolume.file_type self
      = Return (StoragePool.get_disk_type pxml)) ∧
   (StorageVolume._pool_xml self = None →
      ∃ e, StorageVolume.file_type self = Raise e)) ∧
  (∀ ft, StorageVolume.file_type self = Return ft →
     ft ≠ StorageVolume.TYPE_NETDIR ∧
     (ft = StorageVolume.TYPE_DIR → vol_has_type_in self ["dir"])).
Proof.
  assert (Hexp : ∀ ty, vol_has_type_in self [ty] →
                       StorageVolume.type self = Some ty).
  { intros ty (ty' & Ety & Hin). apply elem_of_cons in Hin as [-> | Hin];
      [exact Ety | by apply elem_of_nil in Hin]. }
  split; [| split; [| split; [| split; [| split; [split |]]]]].
  - intros Hty%Hexp. unfold StorageVolume.file_type. now rewrite Hty.
  - intros Hty%Hexp. unfold StorageVolume.file_type. now rewrite Hty.
  - intros Hty%Hexp. unfold StorageVolume.file_type. now rewrite Hty.
  - intros Hty%Hexp. unfold StorageVolume.file_type. now rewrite Hty.
  - intros pxml Hp. rewrite file_type_from_pool, Hp by assumption.
    reflexivity.
  - intros Hp. rewrite file_type_from_pool, Hp by assumption. eauto.
  - intros ft Hft.
    assert (Hpool : ¬ vol_has_type_in self ["file"; "block"; "dir"; "network"]
                    → ft ≠ StorageVolume.TYPE_NETDIR ∧
                      ft ≠ StorageVolume.TYPE_DIR).
    { intros Hno. rewrite (file_type_from_pool _ Hno) in Hft.
      destruct (StorageVolume._pool_xml self) as [pxml |]; [| congruence].
      injection Hft as <-.
      destruct (get_disk_type_range pxml). by split. }
    destruct (StorageVolume.type self) as [ty |] eqn:Ety.
    + split_on ty ["file"; "block"; "dir"; "network"];
        try (unfold StorageVolume.file_type in Hft; rewrite Ety in Hft;
             vm_compute in Hft; injection Hft as <-;
             split; [discriminate | try discriminate]).
      * intros _. exists "dir". split; [exact Ety | repeat constructor].
      * destruct Hpool as [Hnd Hd]; [| by split].
        intros (ty' & Ety' & Hin). rewrite Ety in Ety'.
        injection Ety' as <-. revert Hin. not_in_list.
    + destruct Hpool as [Hnd Hd]; [| by split].
      intros (ty' & Ety' & _). rewrite Ety in Ety'. discriminate.
Qed.

Lemma file_type_explicit (self : StorageVolume.t) (ty : string) :
  StorageVolume.type self = Some ty →
  ty ∈ ["file"; "block"; "dir"; "network"] →
  StorageVolume.file_type self
  = Return (if bool_decide (ty = "file") then StorageVolume.TYPE_FILE
            else if bool_decide (ty = "block") then StorageVolume.TYPE_BLOCK
            else if bool_decide (ty = "dir") then StorageVolume.TYPE_DIR
            else StorageVolume.TYPE_NETWORK).
Proof.
  intros Ety Hin. unfold StorageVolume.file_type. rewrite Ety.
  repeat (apply elem_of_cons in Hin as [-> | Hin]; [reflexivity |]).
  by apply elem_of_nil in Hin.
Qed.

Lemma supports_format_unfold (self : StorageVolume.t) :
  StorageVolume.supports_property self "format"
  = match StorageVolume.file_type self with
    | Raise e => Raise e
    | Return ft =>
        if ft =? StorageVolume.TYPE_FILE then Return true
        else match StorageVolume._pool_xml self with
             | None => Raise (AttributeError_None "type")
             | Some pxml =>
                 Return (StoragePool.type_is pxml StoragePool.TYPE_GLUSTER)
             end
    end.
Proof. reflexivity. Qed.

(** X5: whether a volume supports a format.  A volume typed file always
    does, pool or no pool.  A volume typed block, dir or network does
    exactly in a gluster pool.  A volume that takes its class from the
    pool does exactly when the pool is not of a block type and not rbd,
    iscsi or sheepdog.  Except for a volume typed file, the question
    raises when the volume has no pool description. *)
Theorem volume_supports_format (self : StorageVolume.t) :
  (vol_has_type_in self ["file"] →
   StorageVolume.supports_property self "format" = Return true) ∧
  (vol_has_type_in self ["block"; "dir"; "network"] →
   ∀ pxml, StorageVolume._pool_xml self = Some pxml →
     ∃ b, StorageVolume.supports_property self "format" = Return b ∧
          (b = true ↔ has_type_in pxml ["gluster"])) ∧
  (¬ vol_has_type_in self ["file"; "block"; "dir"; "network"] →
   ∀ pxml, StorageVolume._pool_xml self = Some pxml →
     ∃ b, StorageVolume.supports_property self "format" = Return b ∧
          (b = true ↔
           ¬ has_type_in pxml ["disk"; "logical"; "scsi"; "mpath"; "zfs";
                               "rbd"; "iscsi"; "sheepdog"])) ∧
  (¬ vol_has_type_in self ["file"] →
   StorageVolume._pool_xml self = None →
   ∃ e, StorageVolume.supports_property self "format" = Raise e).
Proof.
  rewrite supports_format_unfold.
  split; [| split; [| split]].
  - intros (ty & Ety & Hin).
    rewrite (file_type_explicit self ty Ety).
    + apply elem_of_cons in Hin as [-> | Hin]; [reflexivity |].
      by apply elem_of_nil in Hin.
    + revert Hin. rewrite !elem_of_cons. tauto.
  - intros (ty & Ety & Hin) pxml Hp.
    rewrite (file_type_explicit self ty Ety), Hp.
    + eexists. split.
      * repeat (apply elem_of_cons in Hin as [-> | Hin]; [reflexivity |]).
        by apply elem_of_nil in Hin.
      * unfold StoragePool.type_is, has_type_in. unfold_pool_types.
        rewrite bool_decide_eq_true. split.
        -- intros Eg. exists "gluster". split; [exact Eg | repeat constructor].
        -- intros (ty' & Eg & Hg). apply elem_of_cons in Hg as [-> | Hg];
             [exact Eg | by apply elem_of_nil in Hg].
    + revert Hin. rewrite !elem_of_cons. tauto.
  - intros Hno pxml Hp. rewrite (file_type_from_pool _ Hno), Hp.
    rewrite get_disk_type_contains. setoid_rewrite has_type_in_contains.
    unfold StoragePool.type_is. unfold_pool_types.
    destruct (StoragePool.type pxml) as [ty |].
    + split_on ty ["disk"; "logical"; "scsi"; "mpath"; "zfs"; "gluster";
                   "rbd"; "iscsi"; "sheepdog"];
        try (eexists; split; [reflexivity |]; vm_compute;
             split; intros; congruence).
      unfold Py.contains.
      rewrite !bool_decide_eq_false_2 by first [congruence | not_in_list].
      eexists; split; [reflexivity |]. split; intros; congruence.
    + eexists; split; [reflexivity |]. vm_compute. split; intros; congruence.
  - intros Hnf Hp.
    destruct (StorageVolume.type self) as [ty |] eqn:Ety.
    + split_on ty ["file"; "block"; "dir"; "network"].
      * destruct Hnf. exists "file". split; [exact Ety | repeat constructor].
      * rewrite (file_type_explicit self _ Ety), Hp by repeat constructor.
        simpl. eauto.
      * rewrite (file_type_explicit self _ Ety), Hp by repeat constructor.
        simpl. eauto.
      * rewrite (file_type_explicit self _ Ety), Hp by repeat constructor.
        simpl. eauto.
      * rewrite file_type_from_pool, Hp; [eauto |].
        intros (ty' & Ety' & Hin). rewrite Ety in Ety'.
        injection Ety' as <-. revert Hin. not_in_list.
    + rewrite file_type_from_pool, Hp; [eauto |].
      intros (ty' & Ety' & _). rewrite Ety in Ety'. discriminate.
Qed.

(** X6: the file extension of a format is empty exactly for a missing or
    empty format; otherwise it is a dot followed by a non-empty name, the
    name being img for raw and the format itself for every other format,
    so that raw and img are the only two formats with the same extension. *)
Theorem file_extension_for_format (fmt : option string) :
  (StorageVolume.get_file_extension_for_format fmt = "" ↔
   Py.truthy fmt = false) ∧
  (∀ f, fmt = Some f → f ≠ "" →
     StorageVolume.get_file_extension_for_format fmt
     = "." +:+ (if bool_decide (f = "raw") then "img" else f)) ∧
  (∀ f g, f ≠ "" → g ≠ "" →
     StorageVolume.get_file_extension_for_format (Some f)
     = StorageVolume.get_file_extension_for_format (Some g) →
     f = g ∨ (f = "raw" ∧ g = "img") ∨ (f = "img" ∧ g = "raw")).
Proof.
  assert (Hext : ∀ f, f ≠ "" →
            StorageVolume.get_file_extension_for_format (Some f)
            = "." +:+ (if bool_decide (f = "raw") then "img" else f)).
  { intros f Hf. unfold StorageVolume.get_file_extension_for_format.
    simpl. rewrite (bool_decide_eq_true_2 _ Hf). simpl.
    destruct (decide (f = "raw")) as [-> | Hraw]; [reflexivity |].
    rewrite !bool_decide_eq_false_2; [reflexivity | congruence..]. }
  split; [| split].
  - destruct fmt as [f |]; [| by split].
    destruct (decide (f = "")) as [-> | Hf]; [by split |].
    rewrite (Hext f Hf). simpl. rewrite (bool_decide_eq_true_2 _ Hf).
    change ("." +:+ ?x) with (String "." x). split; discriminate.
  - intros f -> Hf. by apply Hext.
  - intros f g Hf Hg. rewrite (Hext f Hf), (Hext g Hg).
    intros Heq.
    assert (Hinj : ∀ a b : string, "." +:+ a = "." +:+ b → a = b).
    { intros a b. change ("." +:+ a) with (String "." a).
      change ("." +:+ b) with (String "." b). congruence. }
    apply Hinj in Heq. clear Hinj.
    destruct (decide (f = "raw")) as [-> | Hfr];
      destruct (decide (g = "raw")) as [-> | Hgr].
    + by left.
    + rewrite bool_decide_eq_true_2 in Heq by reflexivity.
      rewrite bool_decide_eq_false_2 in Heq by assumption. subst g.
      right. left. by split.
    + rewrite bool_decide_eq_false_2 in Heq by assumption.
      rewrite bool_decide_eq_true_2 in Heq by reflexivity. subst f.
      right. right. by split.
    + rewrite !bool_decide_eq_false_2 in Heq by assumption. by left.
Qed.

End VolumeClass.

(** ** Starting a pool and checking names *)

Section PoolRunning.
Context {St : Type}.

(** The whole run of [ensure_pool_is_running] on a pool whose [info()]
    answers. *)
Lemma ensure_pool_is_running_run (p : virStoragePool) (refresh' : bool)
    (state cap alloc avail : Z) (s : St) :
  info p = Return (state, cap, alloc, avail) →
  StoragePool.ensure_pool_is_running (Some p) refresh' s
  = let started :=
      if state =? libvirt.VIR_STORAGE_POOL_RUNNING then Return tt
      else create p 0 in
    Outcome s
      ((if state =? libvirt.VIR_STORAGE_POOL_RUNNING then []
        else [Log DEBUG "starting pool=%s" [pool_name p]; PoolCreate p 0]) ++
       (match started with
        | Return _ =>
            if refresh'
            then [Log DEBUG "refreshing pool=%s" [pool_name p];
                  PoolRefresh p 0]
            else []
        | Raise _ => []
        end))%list
      match started with
      | Return _ => if refresh' then refresh p 0 else Return tt
      | Raise e => Raise e
      end.
Proof.
  intros Hinfo. unfold StoragePool.ensure_pool_is_running.
  rewrite bind_lift, Hinfo. cbv zeta.
  unfold mbind, M_bind, bind, when, emit, lift, ret.
  destruct (state =? libvirt.VIR_STORAGE_POOL_RUNNING); simpl.
  - destruct refresh'; simpl; [| reflexivity].
    destruct (refresh p 0) as [[] | e]; reflexivity.
  - destruct (create p 0) as [[] | e]; simpl; [| reflexivity].
    destruct refresh'; simpl; [| reflexivity].
    destruct (refresh p 0) as [[] | e]; reflexivity.
Qed.

(** X7: [ensure_pool_is_running] starts the pool exactly when [info()]
    does not report it running, and refreshes it exactly when asked to
    and the pool is running or has just been started: a failed start
    skips the refresh.  It raises what the failed start or the failed
    refresh raised, and never touches the caller's state. *)
Theorem ensure_pool_is_running_steps (p : virStoragePool) (refresh' : bool)
    (state cap alloc avail : Z) (s : St) :
  info p = Return (state, cap, alloc, avail) →
  let o := StoragePool.ensure_pool_is_running (Some p) refresh' s in
  final o = s ∧
  (PoolCreate p 0 ∈ trace o ↔ state ≠ libvirt.VIR_STORAGE_POOL_RUNNING) ∧
  (PoolRefresh p 0 ∈ trace o ↔
   refresh' = true ∧
   (state = libvirt.VIR_STORAGE_POOL_RUNNING ∨ create p 0 = Return tt)) ∧
  (∀ e, value o = Raise e ↔
        (state ≠ libvirt.VIR_STORAGE_POOL_RUNNING ∧ create p 0 = Raise e) ∨
        (refresh' = true ∧ refresh p 0 = Raise e ∧
         (state = libvirt.VIR_STORAGE_POOL_RUNNING ∨
          create p 0 = Return tt))).
Proof.
  intros Hinfo. cbv zeta. rewrite (ensure_pool_is_running_run _ _ _ _ _ _ _ Hinfo).
  cbv zeta. simpl final. simpl trace. simpl value.
  destruct (Z.eqb_spec state libvirt.VIR_STORAGE_POOL_RUNNING) as [Hrun | Hrun].
  - split; [reflexivity |]. destruct refresh'; simpl;
      rewrite ?elem_of_cons, ?elem_of_nil; split; try split; try intros e;
      try split; intros; try tauto; try (intuition congruence).
  - split; [reflexivity |].
    destruct (create p 0) as [[] | ec]; destruct refresh'; simpl;
      rewrite ?elem_of_cons, ?elem_of_nil; split; try split; try intros e;
      try split; intros; try tauto; try (intuition congruence).
Qed.

End PoolRunning.

Section Names.
Context `{!XMLBuilder StoragePool.t} `{!XMLBuilder StorageVolume.t}.

Lemma fmt_pool_name_in_use (a : string) :
  Py.fmt "Name '%s' already in use by another pool." [a]
  = "Name '" +:+ a +:+ "' already in use by another pool.".
Proof. reflexivity. Qed.

Lemma fmt_volume_name_in_use (a : string) :
  Py.fmt "Name '%s' already in use by another volume." [a]
  = "Name '" +:+ a +:+ "' already in use by another volume.".
Proof. reflexivity. Qed.

(** X8: a pool name is accepted exactly when the generic name check
    passes and the lookup of the name on the connection fails with a
    libvirt error.  A lookup that finds a pool makes the name a
    [ValueError] that quotes it; any other failure of the lookup is
    raised as it is; and a name that the generic check refuses is refused
    whatever the connection holds. *)
Theorem pool_validate_name_cases (c : Connection) (nm : option string) :
  (StoragePool.validate_name c nm = Return tt ↔
   validate_generic_name (T:=StoragePool.t) "Storage object" nm = Return tt ∧
   ∃ e, storagePoolLookupByName c nm = Raise e ∧ is_libvirtError e = true) ∧
  (∀ found,
     validate_generic_name (T:=StoragePool.t) "Storage object" nm
     = Return tt →
     storagePoolLookupByName c nm = Return found →
     StoragePool.validate_name c nm
     = Raise (ValueError ("Name '" +:+ Py.str nm +:+
                          "' already in use by another pool."))) ∧
  (∀ e,
     validate_generic_name (T:=StoragePool.t) "Storage object" nm
     = Return tt →
     storagePoolLookupByName c nm = Raise e → is_libvirtError e = false →
     StoragePool.validate_name c nm = Raise e) ∧
  (∀ e c',
     validate_generic_name (T:=StoragePool.t) "Storage object" nm = Raise e →
     StoragePool.validate_name c' nm = Raise e).
Proof.
  unfold StoragePool.validate_name, gettext.
  split; [| split; [| split]].
  - destruct (validate_generic_name _ nm) as [[] | e0].
    + destruct (storagePoolLookupByName c nm) as [found | e].
      * split; [discriminate |]. intros (_ & e & [=] & _).
      * destruct (is_libvirtError e) eqn:Elv; split.
        -- eauto.
        -- reflexivity.
        -- intros [= ->]. 
        -- intros (_ & e' & [= <-] & He'). congruence.
    + split; [discriminate |]. intros ([=] & _).
  - intros found -> ->. now rewrite fmt_pool_name_in_use.
  - intros e -> -> ->. reflexivity.
  - intros e c' ->. reflexivity.
Qed.

(** X9: a volume name is accepted exactly when the generic name check
    passes and the lookup of the name in the pool fails with a libvirt
    error; a volume found under the name makes it a [ValueError] that
    quotes it, and any other failure of the lookup is raised as it is.
    Without a pool the check of a well-formed name raises instead of
    answering. *)
Theorem volume_validate_name_cases (p : virStoragePool) (nm : option string) :
  (StorageVolume.validate_name (Some p) nm = Return tt ↔
   validate_generic_name (T:=StorageVolume.t) "Storage object" nm
   = Return tt ∧
   ∃ e, storageVolLookupByName p nm = Raise e ∧ is_libvirtError e = true) ∧
  (∀ found,
     validate_generic_name (T:=StorageVolume.t) "Storage object" nm
     = Return tt →
     storageVolLookupByName p nm = Return found →
     StorageVolume.validate_name (Some p) nm
     = Raise (ValueError ("Name '" +:+ Py.str nm +:+
                          "' already in use by another volume."))) ∧
  (∀ e,
     validate_generic_name (T:=StorageVolume.t) "Storage object" nm
     = Return tt →
     storageVolLookupByName p nm = Raise e → is_libvirtError e = false →
     StorageVolume.validate_name (Some p) nm = Raise e) ∧
  (validate_generic_name (T:=StorageVolume.t) "Storage object" nm
   = Return tt →
   ∃ e, StorageVolume.validate_name None nm = Raise e ∧
        is_libvirtError e = false).
Proof.
  unfold StorageVolume.validate_name, gettext.
  split; [| split; [| split]].
  - destruct (validate_generic_name _ nm) as [[] | e0].
    + destruct (storageVolLookupByName p nm) as [found | e].
      * split; [discriminate |]. intros (_ & e & [=] & _).
      * destruct (is_libvirtError e) eqn:Elv; split.
        -- eauto.
        -- reflexivity.
        -- intros [= ->].
        -- intros (_ & e' & [= <-] & He'). congruence.
    + split; [discriminate |]. intros ([=] & _).
  - intros found -> ->. now rewrite fmt_volume_name_in_use.
  - intros e -> -> ->. reflexivity.
  - intros ->. eexists. split; reflexivity.
Qed.

End Names.

(** ** The outcomes of [StoragePool.install] *)

(** Settle statements about which events a concrete trace holds. *)
Ltac settle_events :=
  repeat split; intros;
  rewrite ?elem_of_cons, ?elem_of_nil in *;
  repeat match goal with H : ∃ _, _ |- _ => destruct H end;
  simplify_eq;
  solve [intuition (simplify_eq; eauto 12)].

Section PoolInstallOutcomes.
Context `{!XMLBuilder StoragePool.t}.

Lemma bind_install_stage_run {B : Type} (enabled : bool)
    (errmsg : option string) (ev : event) (call : result unit) (msg : string)
    (k : option string → M StoragePool.t B) (s : StoragePool.t) :
  (StoragePool.install_stage enabled errmsg ev call msg ≫= k) s
  = prepend (stage_events enabled errmsg ev)
      (k (stage_errmsg enabled errmsg call msg) s).
Proof.
  rewrite bind_install_stage. unfold stage_events, stage_errmsg.
  destruct (enabled && negb (Py.truthy errmsg));
    [now destruct call | now rewrite prepend_nil].
Qed.

(** The whole run of [install]. *)
Lemma install_run (self : StoragePool.t) (create' build' autostart : bool) :
  StoragePool.install create' build' autostart self
  = if build_needs_source_path self build' then
      Outcome self []
        (Raise (ValueError
                  "Must explicitly specify source path if building pool"))
    else if build_needs_format self build' then
      Outcome self []
        (Raise (ValueError
           "Must explicitly specify disk format if formatting disk device."))
    else
      match storagePoolDefineXML (StoragePool.conn self) (get_xml self) 0 with
      | Raise e =>
          Outcome self (install_header self)
            (Raise (RuntimeError
                      (Py.fmt "Could not define storage pool: %s"
                         [exc_str e])))
      | Return pool =>
          let e1 := stage_errmsg build' None
                      (build pool libvirt.VIR_STORAGE_POOL_BUILD_NEW)
                      "Could not build storage pool: %s" in
          let e2 := stage_errmsg create' e1 (create pool 0)
                      "Could not start storage pool: %s" in
          let e3 := stage_errmsg autostart e2 (setAutostart pool true)
                      "Could not set pool autostart flag: %s" in
          Outcome self
            (install_header self ++
             stage_events build' None
               (PoolBuild pool libvirt.VIR_STORAGE_POOL_BUILD_NEW) ++
             stage_events create' e1 (PoolCreate pool 0) ++
             stage_events autostart e2 (PoolSetAutostart pool true) ++
             (if Py.truthy e3 then cleanup pool else [CacheNewPool pool]))%list
            (if Py.truthy e3 then Raise (RuntimeError (Py.str e3))
             else Return pool)
      end.
Proof.
  unfold StoragePool.install, build_needs_source_path, build_needs_format,
    StoragePool.TYPE_LOGICAL, StoragePool.TYPE_DISK, gettext.
  rewrite bind_get, bind_when.
  destruct (StoragePool.type_is self "logical" && build' &&
            negb (Py.truthy (StoragePool.source_path self)));
    [reflexivity |].
  rewrite bind_when.
  destruct (StoragePool.type_is self "disk" && build' &&
            bool_decide (StoragePool.format self = Some "auto"));
    [reflexivity |].
  rewrite bind_emit, bind_try_call.
  destruct (storagePoolDefineXML (StoragePool.conn self) (get_xml self) 0)
    as [pool | e]; [| reflexivity].
  rewrite !bind_install_stage_run. cbv zeta.
  set (e1 := stage_errmsg build' None _ _).
  set (e2 := stage_errmsg create' e1 _ _).
  set (e3 := stage_errmsg autostart e2 _ _).
  destruct e3 as [msg |] eqn:E3; [destruct (Py.truthy (Some msg)) eqn:Hmsg |].
  - rewrite install_cleanup_run. unfold prepend, install_header. simpl.
    rewrite <- ?app_assoc. reflexivity.
  - rewrite bind_emit. unfold prepend, install_header. simpl.
    rewrite <- ?app_assoc. reflexivity.
  - change (Py.truthy None) with false. cbv iota.
    rewrite bind_emit. unfold prepend, install_header. simpl.
    rewrite <- ?app_assoc. reflexivity.
Qed.

Lemma stage_events_only (enabled : bool) (errmsg : option string)
    (ev x : event) :
  x ∈ stage_events enabled errmsg ev → x = ev.
Proof.
  unfold stage_events. destruct (_ && _); intros Hx.
  - apply elem_of_cons in Hx as [-> | Hx];
      [reflexivity | by apply elem_of_nil in Hx].
  - by apply elem_of_nil in Hx.
Qed.

(** X10: the outcomes of [install].  The pool object is left as it was.
    The handle is registered with the connection's cache exactly when
    [install] returns it, and then it is the handle that the definition
    answered and no undefine was attempted.  An undefine is attempted
    only for the handle that the definition answered and only when
    [install] raises a [RuntimeError]; conversely every error after a
    successful definition attempts it.  Every exception of [install] is a
    [ValueError] or a [RuntimeError], and it is a [ValueError] exactly
    when nothing was logged and no libvirt call was made. *)
Theorem install_outcomes (self : StoragePool.t)
    (create' build' autostart : bool) :
  let o := StoragePool.install create' build' autostart self in
  let defined := storagePoolDefineXML (StoragePool.conn self)
                   (get_xml self) 0 in
  final o = self ∧
  (∀ pool, value o = Return pool ↔ CacheNewPool pool ∈ trace o) ∧
  (∀ pool, value o = Return pool →
     defined = Return pool ∧ ∀ p, PoolUndefine p ∉ trace o) ∧
  (∀ pool, PoolUndefine pool ∈ trace o →
     defined = Return pool ∧ ∃ msg, value o = Raise (RuntimeError msg)) ∧
  (∀ pool e, defined = Return pool → value o = Raise e →
     PoolDefineXML (get_xml self) 0 ∈ trace o →
     PoolUndefine pool ∈ trace o) ∧
  (∀ e, value o = Raise e → ∃ msg, e = ValueError msg ∨ e = RuntimeError msg) ∧
  (trace o = [] ↔ ∃ msg, value o = Raise (ValueError msg)).
Proof.
  cbv zeta. rewrite install_run.
  destruct (build_needs_source_path self build');
    [simpl; settle_events |].
  destruct (build_needs_format self build');
    [simpl; settle_events |].
  destruct (storagePoolDefineXML (StoragePool.conn self) (get_xml self) 0)
    as [pool | e].
  - cbv zeta.
    set (e1 := stage_errmsg build' None _ _).
    set (e2 := stage_errmsg create' e1 _ _).
    set (e3 := stage_errmsg autostart e2 _ _).
    clearbody e3. clearbody e2. clearbody e1.
    unfold install_header, cleanup.
    destruct (Py.truthy e3); destruct (undefine pool) as [[] | eu];
      cbn [final trace value app];
      repeat split; intros;
      repeat first [ rewrite elem_of_cons in *
                   | rewrite elem_of_app in *
                   | rewrite elem_of_nil in * ];
      unfold not; intros;
      repeat match goal with
             | H : False |- _ => destruct H
             | H : ∃ _, _ |- _ => destruct H
             | H : _ ∨ _ |- _ => destruct H
             | H : _ ∈ stage_events _ _ _ |- _ =>
                 apply stage_events_only in H
             end;
      simplify_eq; eauto 12.
  - unfold install_header. simpl. settle_events.
Qed.

End PoolInstallOutcomes.

(** ** What [StoragePool.validate] changes, and when it returns *)

Section PoolValidateOutcomes.
Context `{!XMLBuilder StoragePool.t} (env : Environ).

(** The defaults touch the target path, the source name and the format,
    and nothing else. *)
Lemma defaulted_frame (self : StoragePool.t) (v : option string) :
  StoragePool.conn (defaulted self v) = StoragePool.conn self ∧
  StoragePool.name (defaulted self v) = StoragePool.name self ∧
  StoragePool._source_dir (defaulted self v) = StoragePool._source_dir self ∧
  StoragePool._source_adapter (defaulted self v)
  = StoragePool._source_adapter self ∧
  StoragePool._source_device (defaulted self v)
  = StoragePool._source_device self.
Proof.
  unfold defaulted. cbv zeta.
  repeat match goal with
         | |- context [if ?c then _ else _] => destruct c
         end; repeat split; reflexivity.
Qed.

Lemma defaulted_source_name_kept (self : StoragePool.t) (v : option string) :
  Py.truthy (StoragePool.source_name self) = true →
  StoragePool.source_name (defaulted self v) = StoragePool.source_name self.
Proof.
  intros Hsn. unfold defaulted. cbv zeta.
  assert (Hs1 : StoragePool.source_name
                  (if Py.truthy (StoragePool.target_path self) then self
                   else StoragePool.set_target_path v self)
                = StoragePool.source_name self)
    by now destruct (Py.truthy (StoragePool.target_path self)).
  rewrite Hs1, Hsn.
  now destruct (_ && _).
Qed.

Lemma missing_host_bool (self : StoragePool.t) :
  missing_host self ↔
  StoragePool.supports_property self "hosts" &&
  bool_decide (StoragePool.hosts self = []) = true.
Proof.
  unfold missing_host. now rewrite andb_true_iff, bool_decide_eq_true.
Qed.

Lemma missing_source_path_bool (self : StoragePool.t) :
  missing_source_path self ↔
  StoragePool.supports_property self "source_path" &&
  negb (StoragePool.type_is self "logical") &&
  negb (Py.truthy (StoragePool.source_path self)) = true.
Proof.
  unfold missing_source_path, StoragePool.type_is.
  rewrite !andb_true_iff, !negb_true_iff, bool_decide_eq_false. tauto.
Qed.

(** [validate], once the name is accepted and a target path is given or
    computed, in terms of the pool it started from. *)
Lemma validate_outcome (self : StoragePool.t) (v : option string) :
  StoragePool.validate_name (StoragePool.conn self) (StoragePool.name self)
  = Return tt →
  Py.truthy (StoragePool.target_path self) = true ∨
  StoragePool.default_target_path env self = Return v →
  StoragePool.validate env self
  = if StoragePool.supports_property self "hosts" &&
       bool_decide (StoragePool.hosts self = [])
    then Outcome (defaulted self v) []
           (Raise (RuntimeError "Hostname is required"))
    else if StoragePool.supports_property self "source_path" &&
            negb (StoragePool.type_is self "logical") &&
            negb (Py.truthy (StoragePool.source_path self))
    then Outcome (defaulted self v) []
           (Raise (RuntimeError "Source path is required"))
    else if StoragePool.type_is self "disk" &&
            bool_decide (StoragePool.format (defaulted self v) = Some "auto")
    then Outcome (StoragePool.set_format None (defaulted self v)) []
           (Return tt)
    else Outcome (defaulted self v) [] (Return tt).
Proof.
  intros Hname Hdtp. rewrite (validate_unfold env self v Hname Hdtp).
  cbv zeta. rewrite !defaulted_type_is, defaulted_hosts, defaulted_source_path.
  rewrite !defaulted_supports by (unfold table_properties; repeat constructor).
  reflexivity.
Qed.

(** X11: [validate] logs nothing and, whatever it answers, leaves the
    connection, the name, the type, the hosts and the three source
    fields of the pool as they were.  A target path or a source name
    that was given is kept, and a given format is kept except that the
    format auto of a disk pool is removed when [validate] returns. *)
Theorem pool_validate_frame (self : StoragePool.t) :
  let o := StoragePool.validate env self in
  trace o = [] ∧
  StoragePool.conn (final o) = StoragePool.conn self ∧
  StoragePool.name (final o) = StoragePool.name self ∧
  StoragePool.type (final o) = StoragePool.type self ∧
  StoragePool.hosts (final o) = StoragePool.hosts self ∧
  StoragePool._source_dir (final o) = StoragePool._source_dir self ∧
  StoragePool._source_adapter (final o) = StoragePool._source_adapter self ∧
  StoragePool._source_device (final o) = StoragePool._source_device self ∧
  (Py.truthy (StoragePool.target_path self) = true →
   StoragePool.target_path (final o) = StoragePool.target_path self) ∧
  (Py.truthy (StoragePool.source_name self) = true →
   StoragePool.source_name (final o) = StoragePool.source_name self) ∧
  (Py.truthy (StoragePool.format self) = true →
   StoragePool.format (final o) = StoragePool.format self ∨
   (has_type_in self ["disk"] ∧ StoragePool.format self = Some "auto" ∧
    value o = Return tt ∧ StoragePool.format (final o) = None)).
Proof.
  cbv zeta.
  assert (Hkept : ∀ v,
    let s3 := defaulted self v in
    StoragePool.conn s3 = StoragePool.conn self ∧
    StoragePool.name s3 = StoragePool.name self ∧
    StoragePool.type s3 = StoragePool.type self ∧
    StoragePool.hosts s3 = StoragePool.hosts self ∧
    StoragePool._source_dir s3 = StoragePool._source_dir self ∧
    StoragePool._source_adapter s3 = StoragePool._source_adapter self ∧
    StoragePool._source_device s3 = StoragePool._source_device self ∧
    (Py.truthy (StoragePool.target_path self) = true →
     StoragePool.target_path s3 = StoragePool.target_path self) ∧
    (Py.truthy (StoragePool.source_name self) = true →
     StoragePool.source_name s3 = StoragePool.source_name self) ∧
    (Py.truthy (StoragePool.format self) = true →
     StoragePool.format s3 = StoragePool.format self)).
  { intros v. cbv zeta.
    destruct (defaulted_frame self v) as (Hc & Hn & Hd & Ha & Hv).
    repeat split; try assumption.
    - apply defaulted_type.
    - apply defaulted_hosts.
    - intros Ht. now rewrite defaulted_target_path, Ht.
    - apply defaulted_source_name_kept.
    - intros Hf. now rewrite defaulted_format, Hf. }
  assert (Hself : ∀ e,
    StoragePool.validate env self = Outcome self [] (Raise e) →
    trace (StoragePool.validate env self) = [] ∧
    StoragePool.conn (final (StoragePool.validate env self))
    = StoragePool.conn self ∧
    StoragePool.name (final (StoragePool.validate env self))
    = StoragePool.name self ∧
    StoragePool.type (final (StoragePool.validate env self))
    = StoragePool.type self ∧
    StoragePool.hosts (final (StoragePool.validate env self))
    = StoragePool.hosts self ∧
    StoragePool._source_dir (final (StoragePool.validate env self))
    = StoragePool._source_dir self ∧
    StoragePool._source_adapter (final (StoragePool.validate env self))
    = StoragePool._source_adapter self ∧
    StoragePool._source_device (final (StoragePool.validate env self))
    = StoragePool._source_device self ∧
    (Py.truthy (StoragePool.target_path self) = true →
     StoragePool.target_path (final (StoragePool.validate env self))
     = StoragePool.target_path self) ∧
    (Py.truthy (StoragePool.source_name self) = true →
     StoragePool.source_name (final (StoragePool.validate env self))
     = StoragePool.source_name self) ∧
    (Py.truthy (StoragePool.format self) = true →
     StoragePool.format (final (StoragePool.validate env self))
     = StoragePool.format self ∨
     (has_type_in self ["disk"] ∧ StoragePool.format self = Some "auto" ∧
      value (StoragePool.validate env self) = Return tt ∧
      StoragePool.format (final (StoragePool.validate env self)) = None))).
  { intros e ->. simpl. repeat split; auto. }
  destruct (StoragePool.validate_name (StoragePool.conn self)
              (StoragePool.name self)) as [[] | e] eqn:Hname;
    [| exact (Hself e (validate_name_raises env self e Hname))].
  assert (Hrun : ∀ v,
    Py.truthy (StoragePool.target_path self) = true ∨
    StoragePool.default_target_path env self = Return v →
    trace (StoragePool.validate env self) = [] ∧
    StoragePool.conn (final (StoragePool.validate env self))
    = StoragePool.conn self ∧
    StoragePool.name (final (StoragePool.validate env self))
    = StoragePool.name self ∧
    StoragePool.type (final (StoragePool.validate env self))
    = StoragePool.type self ∧
    StoragePool.hosts (final (StoragePool.validate env self))
    = StoragePool.hosts self ∧
    StoragePool._source_dir (final (StoragePool.validate env self))
    = StoragePool._source_dir self ∧
    StoragePool._source_adapter (final (StoragePool.validate env self))
    = StoragePool._source_adapter self ∧
    StoragePool._source_device (final (StoragePool.validate env self))
    = StoragePool._source_device self ∧
    (Py.truthy (StoragePool.target_path self) = true →
     StoragePool.target_path (final (StoragePool.validate env self))
     = StoragePool.target_path self) ∧
    (Py.truthy (StoragePool.source_name self) = true →
     StoragePool.source_name (final (StoragePool.validate env self))
     = StoragePool.source_name self) ∧
    (Py.truthy (StoragePool.format self) = true →
     StoragePool.format (final (StoragePool.validate env self))
     = StoragePool.format self ∨
     (has_type_in self ["disk"] ∧ StoragePool.format self = Some "auto" ∧
      value (StoragePool.validate env self) = Return tt ∧
      StoragePool.format (final (StoragePool.validate env self)) = None))).
  { intros v Hdtp. rewrite (validate_outcome self v Hname Hdtp).
    destruct (Hkept v) as (Hc & Hn & Hty & Hh & Hd & Ha & Hv & Ht & Hs & Hf).
    destruct (_ && bool_decide (StoragePool.hosts self = []));
      [simpl; repeat split; auto |].
    destruct (_ && negb (Py.truthy (StoragePool.source_path self)));
      [simpl; repeat split; auto |].
    destruct (StoragePool.type_is self "disk") eqn:Hdisk;
      [| simpl; repeat split; auto].
    destruct (bool_decide (StoragePool.format (defaulted self v)
                           = Some "auto")) eqn:Hauto;
      [| simpl; repeat split; auto].
    simpl. repeat split; auto.
    intros Htr. right. apply bool_decide_eq_true in Hauto.
    rewrite (Hf Htr) in Hauto. repeat split; auto.
    exists "disk". split; [now apply type_is_true | repeat constructor]. }
  destruct (Py.truthy (StoragePool.target_path self)) eqn:Htp;
    [exact (Hrun None (or_introl eq_refl)) |].
  destruct (StoragePool.default_target_path env self) as [v | e] eqn:Hdtp;
    [exact (Hrun v (or_intror eq_refl)) |].
  exact (Hself e (validate_default_raises env self e Hname Htp Hdtp)).
Qed.

(** X12: [validate] returns exactly when the name is accepted, a target
    path is given or can be computed, and neither a host nor a source
    path is missing. *)
Theorem pool_validate_returns_iff (self : StoragePool.t) :
  value (StoragePool.validate env self) = Return tt ↔
  StoragePool.validate_name (StoragePool.conn self) (StoragePool.name self)
  = Return tt ∧
  (Py.truthy (StoragePool.target_path self) = true ∨
   ∃ v, StoragePool.default_target_path env self = Return v) ∧
  ¬ missing_host self ∧ ¬ missing_source_path self.
Proof.
  rewrite missing_host_bool, missing_source_path_bool. split.
  - intros Hval.
    destruct (validate_returns_inv env self Hval) as (Hname & v & Hdtp).
    split; [exact Hname |]. split; [destruct Hdtp; eauto |].
    rewrite (validate_outcome self v Hname Hdtp) in Hval.
    destruct (_ && bool_decide (StoragePool.hosts self = []));
      [discriminate |].
    destruct (_ && negb (Py.truthy (StoragePool.source_path self)));
      [discriminate |].
    split; discriminate.
  - intros (Hname & Hdtp & Hhost & Hsrc).
    apply not_true_is_false in Hhost, Hsrc.
    assert (∃ v, Py.truthy (StoragePool.target_path self) = true ∨
                 StoragePool.default_target_path env self = Return v)
      as [v Hv] by (destruct Hdtp as [? | [v ?]]; [exists None | exists v]; eauto).
    rewrite (validate_outcome self v Hname Hv), Hhost, Hsrc.
    now destruct (StoragePool.type_is self "disk" && _).
Qed.

Lemma source_path_same (p q : StoragePool.t) :
  StoragePool.type p = StoragePool.type q →
  StoragePool._source_dir p = StoragePool._source_dir q →
  StoragePool._source_adapter p = StoragePool._source_adapter q →
  StoragePool._source_device p = StoragePool._source_device q →
  StoragePool.source_path p = StoragePool.source_path q.
Proof.
  intros Hty Hd Ha Hv. unfold StoragePool.source_path. cbv zeta.
  rewrite (type_to_source_prop_type_only p q Hty), Hd, Ha, Hv. reflexivity.
Qed.

(** Past its two checks, [install] raises no [ValueError]. *)
Lemma install_no_value_error (self : StoragePool.t)
    (create' build' autostart : bool) (msg : string) :
  build_needs_source_path self build' = false →
  build_needs_format self build' = false →
  value (StoragePool.install create' build' autostart self)
  ≠ Raise (ValueError msg).
Proof.
  intros Hpre1 Hpre2. rewrite install_run, Hpre1, Hpre2.
  destruct (storagePoolDefineXML _ _ _) as [pool | e]; cbv zeta; simpl;
    [destruct (Py.truthy _) |]; discriminate.
Qed.

(** X13: a pool on which [validate] has returned is never refused by
    [install] for an unspecified disk format, whatever is asked of
    [install]; but it is refused for a missing source path exactly when
    it is a logical pool without one and a build is asked for, a case
    that [validate] lets through. *)
Theorem install_after_validate (self : StoragePool.t)
    (create' build' autostart : bool) :
  value (StoragePool.validate env self) = Return tt →
  let self' := final (StoragePool.validate env self) in
  let o := StoragePool.install create' build' autostart self' in
  value o ≠ Raise (ValueError
    "Must explicitly specify disk format if formatting disk device.") ∧
  (value o = Raise (ValueError
     "Must explicitly specify source path if building pool") ↔
   has_type_in self ["logical"] ∧ build' = true ∧
   Py.truthy (StoragePool.source_path self) = false).
Proof.
  intros Hval. cbv zeta.
  destruct (validate_returns_inv env self Hval) as (Hname & v & Hdtp).
  assert (∃ s', final (StoragePool.validate env self) = s' ∧
            StoragePool.type s' = StoragePool.type self ∧
            StoragePool.source_path s' = StoragePool.source_path self ∧
            build_needs_format s' build' = false)
    as (s' & -> & Hty & Hsp & Hfmt).
  { rewrite (validate_outcome self v Hname Hdtp) in Hval |- *.
    destruct (_ && bool_decide (StoragePool.hosts self = []));
      [discriminate |].
    destruct (_ && negb (Py.truthy (StoragePool.source_path self)));
      [discriminate |].
    destruct (StoragePool.type_is self "disk" &&
              bool_decide (StoragePool.format (defaulted self v)
                           = Some "auto")) eqn:Hauto;
      eexists; (split; [reflexivity |]); simpl.
    - split; [apply defaulted_type |]. split.
      + rewrite <- (defaulted_source_path self v).
        apply source_path_same; reflexivity.
      + unfold build_needs_format. simpl.
        now rewrite andb_false_r.
    - split; [apply defaulted_type |].
      split; [apply defaulted_source_path |].
      unfold build_needs_format. rewrite defaulted_type_is.
      destruct (StoragePool.type_is self "disk"); [| reflexivity].
      simpl in Hauto. rewrite Hauto. now rewrite andb_false_r. }
  assert (Hpre : build_needs_source_path s' build' = true ↔
                 has_type_in self ["logical"] ∧ build' = true ∧
                 Py.truthy (StoragePool.source_path self) = false).
  { unfold build_needs_source_path, StoragePool.type_is.
    rewrite Hsp, Hty, !andb_true_iff, negb_true_iff, bool_decide_eq_true.
    split.
    - intros [[Hl Hb] Ht]. repeat split; try assumption.
      exists "logical". split; [exact Hl | repeat constructor].
    - intros ((ty & Ety & Hin) & Hb & Ht). repeat split; try assumption.
      apply elem_of_cons in Hin as [-> | Hin];
        [exact Ety | by apply elem_of_nil in Hin]. }
  destruct (build_needs_source_path s' build') eqn:Hpre1.
  - rewrite install_run, Hpre1. simpl. split; [discriminate |].
    split; [intros _; now apply Hpre | reflexivity].
  - split; [now apply install_no_value_error |]. split.
    + intros Hv. now apply install_no_value_error in Hv.
    + intros Hrhs. apply Hpre in Hrhs. discriminate.
Qed.

End PoolValidateOutcomes.

(** ** The pools that source discovery proposes *)

Section PoolSourcesFound.
Context `{!XMLBuilder StoragePool.t}.
Variable enumerate_sources : Connection → string → list string.

Lemma fmt_pool_wrapper (src : string) :
  Py.fmt ("<pool>" +:+ Py.LF +:+ "%s" +:+ Py.LF +:+ "</pool>") [src]
  = "<pool>" +:+ Py.LF +:+ src +:+ Py.LF +:+ "</pool>".
Proof. reflexivity. Qed.

(** The pool built from one discovered source. *)
Lemma pool_from_source_fields (c : Connection) (pool_type src : string) :
  let parsed := parsexml (T:=StoragePool.t) c
                  ("<pool>" +:+ Py.LF +:+ src +:+ Py.LF +:+ "</pool>") in
  let p := StoragePool.pool_from_source c pool_type src in
  StoragePool.conn p = c ∧
  StoragePool.type p = Some pool_type ∧
  StoragePool.name p = None ∧
  StoragePool.target_path p = None ∧
  StoragePool.source_path p
  = StoragePool.source_path (StoragePool.set_type (Some pool_type) parsed) ∧
  StoragePool.source_name p = StoragePool.source_name parsed ∧
  StoragePool.format p = StoragePool.format parsed.
Proof.
  cbv zeta. unfold StoragePool.pool_from_source. cbv zeta.
  rewrite fmt_pool_wrapper.
  set (parsed := StoragePool.set_type (Some pool_type) (parsexml c _)).
  set (obj := StoragePool.set_type (Some pool_type) (StoragePool.new c)).
  assert (Hty : StoragePool.type (StoragePool.set_source_path
                                    (StoragePool.source_path parsed) obj)
                = Some pool_type).
  { unfold StoragePool.set_source_path. cbv zeta.
    repeat match goal with
           | |- context [if ?b then _ else _] => destruct b
           end; reflexivity. }
  assert (Hother : ∀ q : StoragePool.t,
            StoragePool.conn (StoragePool.set_source_path
                                (StoragePool.source_path parsed) q)
            = StoragePool.conn q ∧
            StoragePool.name (StoragePool.set_source_path
                                (StoragePool.source_path parsed) q)
            = StoragePool.name q ∧
            StoragePool.target_path (StoragePool.set_source_path
                                       (StoragePool.source_path parsed) q)
            = StoragePool.target_path q ∧
            StoragePool.hosts (StoragePool.set_source_path
                                 (StoragePool.source_path parsed) q)
            = StoragePool.hosts q).
  { intros q. unfold StoragePool.set_source_path. cbv zeta.
    repeat match goal with
           | |- context [if ?b then _ else _] => destruct b
           end; repeat split; reflexivity. }
  destruct (Hother obj) as (Hc & Hn & Ht & Hh).
  simpl. rewrite Hc, Hn, Ht, Hty. simpl.
  repeat split; try reflexivity.
  erewrite source_path_same;
    [apply source_path_after_set | simpl; first [exact Hty | reflexivity] ..].
Qed.

(** X14: when source discovery answers, [pool_list_from_sources] returns
    one pool per discovered source, in the order of discovery.  Each has
    the requested type, no name and no target path; its source name and
    format are those parsed from the source, and its source path is the
    one that the parsed source shows under the requested type. *)
Theorem pool_list_from_sources_pools (c : Connection) (pool_type : string)
    (host : option string) (xml : string) :
  findStoragePoolSources c pool_type (discovery_request host) 0
  = Return xml →
  ∃ pools,
    StoragePool.pool_list_from_sources enumerate_sources c pool_type host
    = Return pools ∧
    length pools = length (enumerate_sources c xml) ∧
    ∀ (i : nat) p src,
      pools !! i = Some p → enumerate_sources c xml !! i = Some src →
      let parsed := parsexml (T:=StoragePool.t) c
                      ("<pool>" +:+ Py.LF +:+ src +:+ Py.LF +:+ "</pool>") in
      StoragePool.conn p = c ∧
      StoragePool.type p = Some pool_type ∧
      StoragePool.name p = None ∧
      StoragePool.target_path p = None ∧
      StoragePool.source_path p
      = StoragePool.source_path
          (StoragePool.set_type (Some pool_type) parsed) ∧
      StoragePool.source_name p = StoragePool.source_name parsed ∧
      StoragePool.format p = StoragePool.format parsed.
Proof.
  intros Hfind. eexists. split; [| split].
  - rewrite pool_list_from_sources_request, Hfind. reflexivity.
  - apply length_map.
  - intros i p src Hp Hsrc. rewrite list_lookup_fmap, Hsrc in Hp.
    injection Hp as <-. apply pool_from_source_fields.
Qed.

End PoolSourcesFound.

(** ** Looking pools up by path, and the default pool *)

Section ListFind.
Context {A : Type} (f : A → bool).

Lemma find_first (pre : list A) (x : A) (post : list A) :
  (∀ y, y ∈ pre → f y = false) → f x = true →
  List.find f (pre ++ x :: post) = Some x.
Proof.
  intros Hpre Hx. induction pre as [| y pre IH]; simpl.
  - now rewrite Hx.
  - rewrite (Hpre y) by constructor.
    apply IH. intros z Hz. apply Hpre. now constructor.
Qed.

Lemma find_nothing (l : list A) :
  (∀ y, y ∈ l → f y = false) ↔ List.find f l = None.
Proof.
  induction l as [| y l IH]; simpl.
  - split; [reflexivity |]. intros _ y Hy. by apply elem_of_nil in Hy.
  - destruct (f y) eqn:Hy; split.
    + intros Hall. rewrite Hall in Hy by constructor. discriminate.
    + discriminate.
    + intros Hall. apply IH. intros z Hz. apply Hall. now constructor.
    + intros Hnone z Hz. apply elem_of_cons in Hz as [-> | Hz];
        [exact Hy | now apply IH].
Qed.

End ListFind.

Section PoolLookup.
Context `{!XMLBuilder StoragePool.t} (env : Environ).
Variable fetch_all_pools : Connection → list StoragePool.t.
Variable os_path_abspath : string → string.

Lemma targets_path_points_at (path : string) (q : StoragePool.t) :
  StoragePool.targets_path os_path_abspath path q = true ↔
  points_at os_path_abspath path q.
Proof.
  unfold StoragePool.targets_path, points_at.
  destruct (StoragePool.target_path q) as [xp |].
  - rewrite bool_decide_eq_true. split.
    + intros Hxp. now exists xp.
    + now intros (xp' & [= <-] & Hxp).
  - split; [discriminate |]. now intros (xp' & [=] & _).
Qed.

Lemma targets_path_not_points_at (path : string) (q : StoragePool.t) :
  StoragePool.targets_path os_path_abspath path q = false ↔
  ¬ points_at os_path_abspath path q.
Proof.
  rewrite <- targets_path_points_at. now destruct (StoragePool.targets_path _ _ _).
Qed.

(** X15: [lookup_pool_by_path] answers [None], without asking the
    connection for a handle, when no cached pool has the path as its
    absolute target path; otherwise it looks up, by name, the first
    cached pool that has, and answers the handle or raises what that
    lookup raises.  A pool without a target path never matches. *)
Theorem lookup_pool_by_path_first (c : Connection) (path : string) :
  ((∀ q, q ∈ fetch_all_pools c → ¬ points_at os_path_abspath path q) →
   StoragePool.lookup_pool_by_path fetch_all_pools os_path_abspath c path
   = Return None) ∧
  (∀ pre p post,
     fetch_all_pools c = (pre ++ p :: post)%list →
     (∀ q, q ∈ pre → ¬ points_at os_path_abspath path q) →
     points_at os_path_abspath path p →
     StoragePool.lookup_pool_by_path fetch_all_pools os_path_abspath c path
     = match storagePoolLookupByName c (StoragePool.name p) with
       | Return pool => Return (Some pool)
       | Raise e => Raise e
       end) ∧
  (∀ q, StoragePool.target_path q = None →
     ¬ points_at os_path_abspath path q).
Proof.
  unfold StoragePool.lookup_pool_by_path, StoragePool._lookup_poolxml_by_path.
  split; [| split].
  - intros Hnone.
    assert (List.find (StoragePool.targets_path os_path_abspath path)
              (fetch_all_pools c) = None) as ->; [| reflexivity].
    apply find_nothing. intros q Hq.
    apply targets_path_not_points_at. now apply Hnone.
  - intros pre p post -> Hpre Hp.
    rewrite (find_first _ pre p post); [reflexivity | |].
    + intros q Hq. apply targets_path_not_points_at. now apply Hpre.
    + now apply targets_path_points_at.
  - intros q Hq (xp & Hxp & _). congruence.
Qed.

End PoolLookup.

Section DefaultPool.
Context `{!XMLBuilder StoragePool.t} (env : Environ).
Variable fetch_all_pools : Connection → list StoragePool.t.
Variable os_path_abspath : string → string.
Context {St : Type}.

(** The whole run of [_lookup_default_pool]. *)
Lemma lookup_default_pool_run (c : Connection) (s : St) :
  StoragePool._lookup_default_pool env fetch_all_pools os_path_abspath c s
  = let poolxml :=
      match List.find
              (λ trypool,
                 bool_decide (StoragePool.name trypool = Some "default"))
              (fetch_all_pools c) with
      | Some trypool => Some trypool
      | None =>
          StoragePool._lookup_poolxml_by_path fetch_all_pools os_path_abspath
            c (_preferred_default_pool_path env c)
      end in
    Outcome s
      match poolxml with
      | Some found =>
          [Log DEBUG "Found default pool name=%s target=%s"
             [Py.str (StoragePool.name found);
              Py.str (StoragePool.target_path found)]]
      | None => []
      end
      (Return poolxml).
Proof.
  unfold StoragePool._lookup_default_pool. cbv zeta.
  destruct (match List.find _ (fetch_all_pools c) with
            | Some trypool => Some trypool
            | None => _
            end) as [found |]; reflexivity.
Qed.

(** X16: [_lookup_default_pool] prefers the name to the path: it answers
    the first cached pool named default whatever the target paths are,
    and only when no pool has that name the first pool whose target is
    the preferred default path.  It never raises, leaves the caller's
    state alone, and logs exactly when it has found a pool. *)
Theorem lookup_default_pool_precedence (c : Connection) (s : St) :
  let o := StoragePool._lookup_default_pool env fetch_all_pools
             os_path_abspath c s in
  final o = s ∧
  (∀ pre p post,
     fetch_all_pools c = (pre ++ p :: post)%list →
     (∀ q, q ∈ pre → StoragePool.name q ≠ Some "default") →
     StoragePool.name p = Some "default" →
     value o = Return (Some p)) ∧
  ((∀ q, q ∈ fetch_all_pools c → StoragePool.name q ≠ Some "default") →
   value o
   = Return (StoragePool._lookup_poolxml_by_path fetch_all_pools
               os_path_abspath c (_preferred_default_pool_path env c))) ∧
  (∃ r, value o = Return r) ∧
  (trace o = [] ↔ value o = Return None).
Proof.
  cbv zeta. rewrite lookup_default_pool_run. cbv zeta. simpl.
  split; [reflexivity |]. split; [| split; [| split]].
  - intros pre p post -> Hpre Hp.
    rewrite (find_first _ pre p post); [reflexivity | |].
    + intros q Hq. apply bool_decide_eq_false. now apply Hpre.
    + now apply bool_decide_eq_true.
  - intros Hnone.
    assert (List.find
              (λ trypool,
                 bool_decide (StoragePool.name trypool = Some "default"))
              (fetch_all_pools c) = None) as ->; [| reflexivity].
    apply find_nothing. intros q Hq.
    apply bool_decide_eq_false. now apply Hnone.
  - eauto.
  - destruct (match List.find _ (fetch_all_pools c) with
              | Some trypool => Some trypool
              | None => _
              end) as [found |]; split; try discriminate; reflexivity.
Qed.

Lemma fmt_could_not_create_default (path a : string) :
  Py.fmt "Couldn't create default storage pool '%s': %s" [path; a]
  = "Couldn't create default storage pool '" +:+ path +:+ "': " +:+ a.
Proof.
  vm_compute. repeat f_equal.
  induction path as [| ch path IH]; simpl.
  - repeat f_equal. apply append_empty_r.
  - f_equal. exact IH.
Qed.

(** The whole run of [build_default_pool]. *)
Lemma build_default_pool_run (c : Connection) (build' : bool) (s : St) :
  StoragePool.build_default_pool env fetch_all_pools os_path_abspath c build' s
  = let found := StoragePool._lookup_default_pool env fetch_all_pools
                   os_path_abspath c s in
    match value found with
    | Return (Some p) => Outcome s (trace found) (Return (Some p))
    | Return None =>
        if build' then
          let i := StoragePool.install true true true (default_pool env c) in
          Outcome s
            (Log DEBUG "Attempting to build default pool with target '%s'"
               [_preferred_default_pool_path env c] :: trace i)
            match value i with
            | Return _ => Return (Some (default_pool env c))
            | Raise e =>
                Raise (RuntimeError
                         ("Couldn't create default storage pool '" +:+
                          _preferred_default_pool_path env c +:+ "': " +:+
                          exc_str e))
            end
        else Outcome s [] (Return None)
    | Raise e => Outcome s (trace found) (Raise e)
    end.
Proof.
  unfold StoragePool.build_default_pool. cbv zeta.
  change (StoragePool.set_target_path _ _) with (default_pool env c).
  pose proof (install_stateless true true true) as Hst. revert Hst.
  generalize (StoragePool.install true true true). intros m Hst.
  unfold mbind at 1. unfold M_bind, bind.
  rewrite lookup_default_pool_run. cbv zeta. simpl.
  destruct (match List.find _ (fetch_all_pools c) with
            | Some trypool => Some trypool
            | None => _
            end) as [found |]; simpl.
  - reflexivity.
  - destruct build'; simpl; [| reflexivity].
    unfold try_except, mbind, M_bind, bind, emit, on_object, gettext. simpl.
    specialize (Hst (default_pool env c)).
    destruct (m (default_pool env c)) as [s1 t1 [pool | e]]; simpl in *.
    + rewrite ?app_nil_r. now subst s1.
    + rewrite <- fmt_could_not_create_default, ?app_nil_r. reflexivity.
Qed.

(** X17: [build_default_pool] answers a default pool that exists
    without any libvirt call.  When there is none it answers [None] if
    no build is asked for; otherwise it installs, with build, start and
    autostart, a directory pool named default at the preferred path and
    answers its description, or raises a [RuntimeError] that quotes the
    path and the error of the installation.  The caller's state is not
    touched. *)
Theorem build_default_pool_cases (c : Connection) (build' : bool) (s : St) :
  let found := StoragePool._lookup_default_pool env fetch_all_pools
                 os_path_abspath c s in
  let o := StoragePool.build_default_pool env fetch_all_pools
             os_path_abspath c build' s in
  let i := StoragePool.install true true true (default_pool env c) in
  final o = s ∧
  (∀ p, value found = Return (Some p) →
     value o = Return (Some p) ∧ trace o = trace found) ∧
  (value found = Return None → build' = false →
     value o = Return None ∧ trace o = []) ∧
  (value found = Return None → build' = true →
     trace o
     = Log DEBUG "Attempting to build default pool with target '%s'"
         [_preferred_default_pool_path env c] :: trace i ∧
     (∀ pool, value i = Return pool →
        value o = Return (Some (default_pool env c))) ∧
     (∀ e, value i = Raise e →
        value o
        = Raise (RuntimeError
                   ("Couldn't create default storage pool '" +:+
                    _preferred_default_pool_path env c +:+ "': " +:+
                    exc_str e)))) ∧
  StoragePool.type (default_pool env c) = Some "dir" ∧
  StoragePool.name (default_pool env c) = Some "default" ∧
  StoragePool.target_path (default_pool env c)
  = Some (_preferred_default_pool_path env c).
Proof.
  cbv zeta. rewrite build_default_pool_run. cbv zeta.
  destruct (value (StoragePool._lookup_default_pool env fetch_all_pools
                     os_path_abspath c s)) as [[p |] | e] eqn:Hfound.
  - cbn [final trace value]. repeat split; intros; simplify_eq; reflexivity.
  - destruct build'; cbn [final trace value]; repeat split; intros;
      simplify_eq;
      repeat match goal with
             | H : value _ = _ |- _ => rewrite H
             end; reflexivity.
  - cbn [final trace value]. repeat split; intros; simplify_eq; reflexivity.
Qed.

End DefaultPool.

(** ** What [StorageVolume.validate] changes *)

Section VolumeValidateFrame.
Context `{!XMLBuilder StoragePool.t} `{!XMLBuilder StorageVolume.t}.

(** The size check at the end of [validate] assigns nothing. *)
Lemma validate_size_check_stateless :
  stateless
    (self ← get;
     '(isfatal, errmsg) ← lift (StorageVolume.is_size_conflict self);
     when isfatal (raise (ValueError errmsg));;
     when (bool_decide (errmsg ≠ "")) (emit (Log WARNING errmsg []))).
Proof.
  apply stateless_bind; [apply stateless_get | intros self].
  apply stateless_bind; [apply stateless_lift | intros [isfatal errmsg]].
  prove_stateless.
Qed.

Lemma final_bind {St A B} (m : M St A) (k : A → M St B) (s : St) :
  final ((m ≫= k) s)
  = match value (m s) with
    | Return a => final (k a (final (m s)))
    | Raise _ => final (m s)
    end.
Proof.
  unfold mbind, M_bind, bind. now destruct (value (m s)).
Qed.

(** The object that [validate] leaves: the three assignments it can
    make, each with the condition under which it is made. *)
Lemma validate_final (self : StorageVolume.t) :
  ∃ s1 s2 s3,
    (s1 = self ∨
     (s1 = StorageVolume.set_format (Some "raw") self ∧
      Py.truthy (StorageVolume.format self) = false ∧
      StorageVolume.file_type self = Return StorageVolume.TYPE_FILE)) ∧
    (s2 = s1 ∨
     (s2 = StorageVolume.set_lazy_refcounts
             (Some (support_conn_qcow2_lazy_refcounts (StorageVolume.conn s1)))
             s1 ∧
      StorageVolume.format s1 = Some "qcow2" ∧
      _prop_is_unset s1 "lazy_refcounts" = true)) ∧
    (s3 = s2 ∨
     (s3 = StorageVolume.set_allocation (StorageVolume.capacity s2) s2 ∧
      StorageVolume.allocation s2 ≠ StorageVolume.capacity s2 ∧
      ∃ pxml, StorageVolume._pool_xml s2 = Some pxml ∧
              StoragePool.type pxml = Some "logical")) ∧
    final (StorageVolume.validate self) = s3.
Proof.
  unfold StorageVolume.validate, gettext.
  rewrite bind_get, bind_lift.
  destruct (StorageVolume.validate_name _ _) as [[] | e];
    [| exists self, self, self; simpl; auto].
  (* the default format *)
  assert (Hfmt : ∃ s1,
    (s1 = self ∨
     (s1 = StorageVolume.set_format (Some "raw") self ∧
      Py.truthy (StorageVolume.format self) = false ∧
      StorageVolume.file_type self = Return StorageVolume.TYPE_FILE)) ∧
    ∀ B (k : unit → M StorageVolume.t B),
      final ((when (negb (Py.truthy (StorageVolume.format self)))
                (ft ← lift (StorageVolume.file_type self);
                 when (ft =? StorageVolume.TYPE_FILE)
                   (modify (StorageVolume.set_format (Some "raw")))) ≫= k)
               self)
      = final (k tt s1) ∨
      final ((when (negb (Py.truthy (StorageVolume.format self)))
                (ft ← lift (StorageVolume.file_type self);
                 when (ft =? StorageVolume.TYPE_FILE)
                   (modify (StorageVolume.set_format (Some "raw")))) ≫= k)
               self)
      = self).
  { destruct (Py.truthy (StorageVolume.format self)) eqn:Hf.
    - exists self. split; [now left |]. intros B k. left.
      now rewrite bind_when.
    - destruct (StorageVolume.file_type self) as [ft | e] eqn:Hft.
      + destruct (Z.eqb_spec ft StorageVolume.TYPE_FILE) as [-> | Hne].
        * exists (StorageVolume.set_format (Some "raw") self).
          split; [right; auto |]. intros B k. left.
          rewrite bind_when. cbn [negb]. rewrite bind_bind, bind_lift.
          rewrite bind_when. change (_ =? _) with true. cbv iota.
          now rewrite bind_modify.
        * exists self. split; [now left |]. intros B k. left.
          rewrite bind_when. cbn [negb]. rewrite bind_bind, bind_lift.
          rewrite bind_when. apply Z.eqb_neq in Hne. now rewrite Hne.
      + exists self. split; [now left |]. intros B k. right.
        rewrite bind_when. cbn [negb]. rewrite bind_bind, bind_lift.
        reflexivity. }
  destruct Hfmt as (s1 & Hs1 & Hstep).
  match goal with
  | |- context [final ((when _ _ ≫= ?k) self)] =>
      destruct (Hstep _ k) as [-> | ->]
  end; [| exists self, self, self; auto].
  clear Hstep.
  rewrite bind_get, bind_when.
  assert (Htail : ∀ (s2 : StorageVolume.t),
    StorageVolume._pool_xml s2 = StorageVolume._pool_xml s1 →
    ∃ s3,
      (s3 = s2 ∨
       (s3 = StorageVolume.set_allocation (StorageVolume.capacity s2) s2 ∧
        StorageVolume.allocation s2 ≠ StorageVolume.capacity s2 ∧
        ∃ pxml, StorageVolume._pool_xml s2 = Some pxml ∧
                StoragePool.type pxml = Some "logical")) ∧
      final
        ((pxml ← lift match StorageVolume._pool_xml s1 with
                      | Some pxml => Return pxml
                      | None => Raise (AttributeError_None "type")
                      end;
          when (StoragePool.type_is pxml StoragePool.TYPE_LOGICAL)
            (self ← get;
             when (negb (bool_decide (StorageVolume.allocation self
                                      = StorageVolume.capacity self)))
               (emit (Log WARNING
                        ("Sparse logical volumes are not supported, " +:+
                         "setting allocation equal to capacity") []);;
                modify (StorageVolume.set_allocation
                          (StorageVolume.capacity self))));;
          self ← get;
          '(isfatal, errmsg) ← lift (StorageVolume.is_size_conflict self);
          when isfatal (raise (ValueError errmsg));;
          when (bool_decide (errmsg ≠ "")) (emit (Log WARNING errmsg [])))
           s2)
      = s3).
  { intros s2 Hpx. rewrite bind_lift.
    destruct (StorageVolume._pool_xml s1) as [pxml |] eqn:Hp;
      [| exists s2; split; [now left | reflexivity]].
    rewrite bind_when.
    destruct (StoragePool.type_is pxml StoragePool.TYPE_LOGICAL) eqn:Hl;
      [| exists s2; split;
         [now left | apply validate_size_check_stateless]].
    rewrite bind_bind, bind_get, bind_when.
    destruct (bool_decide (StorageVolume.allocation s2
                           = StorageVolume.capacity s2)) eqn:Ha; cbn [negb].
    - exists s2. split; [now left | apply validate_size_check_stateless].
    - exists (StorageVolume.set_allocation (StorageVolume.capacity s2) s2).
      split.
      + right. split; [reflexivity |].
        split; [now apply bool_decide_eq_false in Ha |].
        exists pxml. split; [congruence | now apply type_is_true in Hl].
      + rewrite bind_bind, bind_emit, bind_modify. unfold prepend.
        cbn [final]. apply validate_size_check_stateless. }
  destruct (_prop_is_unset s1 "lazy_refcounts" &&
            bool_decide (StorageVolume.format s1 = Some "qcow2")) eqn:Hlazy.
  - rewrite bind_modify.
    destruct (Htail (StorageVolume.set_lazy_refcounts
                       (Some (support_conn_qcow2_lazy_refcounts
                                (StorageVolume.conn s1))) s1) eq_refl)
      as (s3 & Hs3 & Hfinal).
    eexists s1, _, s3. split; [exact Hs1 |]. split; [| split;
      [exact Hs3 | exact Hfinal]].
    right. apply andb_true_iff in Hlazy as [Hu Hq].
    apply bool_decide_eq_true in Hq. auto.
  - destruct (Htail s1 eq_refl) as (s3 & Hs3 & Hfinal).
    exists s1, s1, s3. auto.
Qed.

(** X18: whatever [validate] answers, it leaves the volume's connection,
    name, type, capacity, backing store, backing format, input volume,
    pool and reflink setting as they were.  It assigns a format only
    when none was given, and then the format raw to a volume of the file
    class; it assigns lazy refcounts only to a qcow2 volume, and then
    what the connection supports; and it assigns an allocation only in a
    logical pool, and then the capacity. *)
Theorem volume_validate_frame (self : StorageVolume.t) :
  let o := StorageVolume.validate self in
  StorageVolume.conn (final o) = StorageVolume.conn self ∧
  StorageVolume.name (final o) = StorageVolume.name self ∧
  StorageVolume.type (final o) = StorageVolume.type self ∧
  StorageVolume.capacity (final o) = StorageVolume.capacity self ∧
  StorageVolume.backing_store (final o) = StorageVolume.backing_store self ∧
  StorageVolume.backing_format (final o) = StorageVolume.backing_format self ∧
  StorageVolume._input_vol (final o) = StorageVolume._input_vol self ∧
  StorageVolume._pool (final o) = StorageVolume._pool self ∧
  StorageVolume._pool_xml (final o) = StorageVolume._pool_xml self ∧
  StorageVolume._reflink (final o) = StorageVolume._reflink self ∧
  (StorageVolume.format (final o) ≠ StorageVolume.format self →
   Py.truthy (StorageVolume.format self) = false ∧
   StorageVolume.format (final o) = Some "raw" ∧
   StorageVolume.file_type self = Return StorageVolume.TYPE_FILE) ∧
  (StorageVolume.lazy_refcounts (final o)
   ≠ StorageVolume.lazy_refcounts self →
   StorageVolume.format (final o) = Some "qcow2" ∧
   StorageVolume.lazy_refcounts (final o)
   = Some (support_conn_qcow2_lazy_refcounts (StorageVolume.conn self))) ∧
  (StorageVolume.allocation (final o) ≠ StorageVolume.allocation self →
   StorageVolume.allocation (final o) = StorageVolume.capacity self ∧
   ∃ pxml, StorageVolume._pool_xml self = Some pxml ∧
           StoragePool.type pxml = Some "logical").
Proof.
  cbv zeta.
  destruct (validate_final self) as (s1 & s2 & s3 & H1 & H2 & H3 & ->).
  destruct H1 as [-> | (-> & Hf & Hft)];
    destruct H2 as [-> | (-> & Hq & Hu)];
    destruct H3 as [-> | (-> & Ha & pxml & Hp & Hl)];
    cbn in *; repeat split; intros; try congruence; eauto.
Qed.

(** The whole run of [validate]. *)
Lemma volume_validate_run (self : StorageVolume.t) :
  StorageVolume.validate self
  = match StorageVolume.validate_name (StorageVolume.pool self)
            (StorageVolume.name self) with
    | Raise e => Outcome self [] (Raise e)
    | Return _ =>
        match (if Py.truthy (StorageVolume.format self) then Return self
               else match StorageVolume.file_type self with
                    | Raise e => Raise e
                    | Return ft =>
                        Return (if ft =? StorageVolume.TYPE_FILE
                                then StorageVolume.set_format (Some "raw") self
                                else self)
                    end) with
        | Raise e => Outcome self [] (Raise e)
        | Return s1 =>
            let s2 :=
              if _prop_is_unset s1 "lazy_refcounts" &&
                 bool_decide (StorageVolume.format s1 = Some "qcow2")
              then StorageVolume.set_lazy_refcounts
                     (Some (support_conn_qcow2_lazy_refcounts
                              (StorageVolume.conn s1))) s1
              else s1 in
            match StorageVolume._pool_xml s1 with
            | None => Outcome s2 [] (Raise (AttributeError_None "type"))
            | Some pxml =>
                let sparse :=
                  StoragePool.type_is pxml "logical" &&
                  negb (bool_decide (StorageVolume.allocation s2
                                     = StorageVolume.capacity s2)) in
                let s3 := if sparse
                          then StorageVolume.set_allocation
                                 (StorageVolume.capacity s2) s2
                          else s2 in
                let evs := if sparse then [sparse_warning] else [] in
                match StorageVolume.is_size_conflict s3 with
                | Raise e => Outcome s3 evs (Raise e)
                | Return (isfatal, errmsg) =>
                    if isfatal
                    then Outcome s3 evs (Raise (ValueError errmsg))
                    else Outcome s3
                           (evs ++ if bool_decide (errmsg ≠ "")
                                   then [Log WARNING errmsg []] else [])%list
                           (Return tt)
                end
            end
        end
    end.
Proof.
  assert (Hsize : ∀ s3 evs,
    prepend evs
      ((self ← get;
        '(isfatal, errmsg) ← lift (StorageVolume.is_size_conflict self);
        when isfatal (raise (ValueError errmsg));;
        when (bool_decide (errmsg ≠ "")) (emit (Log WARNING errmsg []))) s3)
    = match StorageVolume.is_size_conflict s3 with
      | Raise e => Outcome s3 evs (Raise e)
      | Return (isfatal, errmsg) =>
          if isfatal
          then Outcome s3 evs (Raise (ValueError errmsg))
          else Outcome s3
                 (evs ++ if bool_decide (errmsg ≠ "")
                         then [Log WARNING errmsg []] else [])%list
                 (Return tt)
      end).
  { intros s3 evs. rewrite bind_get, bind_lift.
    destruct (StorageVolume.is_size_conflict s3) as [[[|] errmsg] | e];
      unfold prepend; rewrite ?bind_when; cbv iota; rewrite ?bind_raise;
      cbn [final trace value]; rewrite ?app_nil_r; try reflexivity.
    rewrite when_run.
    destruct (bool_decide (errmsg ≠ "")); reflexivity. }
  assert (Hrest : ∀ s1,
    (self ← get;
     when (_prop_is_unset self "lazy_refcounts" &&
           bool_decide (StorageVolume.format self = Some "qcow2"))
       (modify (StorageVolume.set_lazy_refcounts
                  (Some (support_conn_qcow2_lazy_refcounts
                           (StorageVolume.conn self)))));;
     pxml ← lift (match StorageVolume._pool_xml self with
                  | Some pxml => Return pxml
                  | None => Raise (AttributeError_None "type")
                  end);
     when (StoragePool.type_is pxml StoragePool.TYPE_LOGICAL)
       (self ← get;
        when (negb (bool_decide (StorageVolume.allocation self
                                 = StorageVolume.capacity self)))
          (emit (Log WARNING
                   (gettext ("Sparse logical volumes are not supported, " +:+
                             "setting allocation equal to capacity")) []);;
           modify (StorageVolume.set_allocation
                     (StorageVolume.capacity self))));;
     self ← get;
     '(isfatal, errmsg) ← lift (StorageVolume.is_size_conflict self);
     when isfatal (raise (ValueError errmsg));;
     when (bool_decide (errmsg ≠ "")) (emit (Log WARNING errmsg []))) s1
    = let s2 :=
        if _prop_is_unset s1 "lazy_refcounts" &&
           bool_decide (StorageVolume.format s1 = Some "qcow2")
        then StorageVolume.set_lazy_refcounts
               (Some (support_conn_qcow2_lazy_refcounts
                        (StorageVolume.conn s1))) s1
        else s1 in
      match StorageVolume._pool_xml s1 with
      | None => Outcome s2 [] (Raise (AttributeError_None "type"))
      | Some pxml =>
          let sparse :=
            StoragePool.type_is pxml "logical" &&
            negb (bool_decide (StorageVolume.allocation s2
                               = StorageVolume.capacity s2)) in
          let s3 := if sparse
                    then StorageVolume.set_allocation
                           (StorageVolume.capacity s2) s2
                    else s2 in
          let evs := if sparse then [sparse_warning] else [] in
          match StorageVolume.is_size_conflict s3 with
          | Raise e => Outcome s3 evs (Raise e)
          | Return (isfatal, errmsg) =>
              if isfatal
              then Outcome s3 evs (Raise (ValueError errmsg))
              else Outcome s3
                     (evs ++ if bool_decide (errmsg ≠ "")
                             then [Log WARNING errmsg []] else [])%list
                     (Return tt)
          end
      end).
  { intros s1. rewrite bind_get, bind_when. cbv zeta.
    unfold StoragePool.TYPE_LOGICAL, gettext.
    destruct (_prop_is_unset s1 "lazy_refcounts" &&
              bool_decide (StorageVolume.format s1 = Some "qcow2"));
      rewrite ?bind_modify, bind_lift;
      (destruct (StorageVolume._pool_xml s1) as [pxml |]; [| reflexivity]);
      rewrite bind_when;
      (destruct (StoragePool.type_is pxml "logical"); cbn [andb];
       [ rewrite bind_bind, bind_get, bind_when;
         match goal with
         | |- context [negb (bool_decide ?P)] => destruct (bool_decide P)
         end; cbn [negb];
         [ etrans; [symmetry; apply prepend_nil | rewrite Hsize; reflexivity]
         | rewrite bind_bind, bind_emit, bind_modify;
           apply (Hsize _ [sparse_warning]) ]
       | etrans; [symmetry; apply prepend_nil | rewrite Hsize; reflexivity] ]). }
  unfold StorageVolume.validate.
  rewrite bind_get, bind_lift.
  destruct (StorageVolume.validate_name _ _) as [[] | e]; [| reflexivity].
  rewrite bind_when.
  destruct (Py.truthy (StorageVolume.format self)); cbn [negb];
    [apply Hrest |].
  rewrite bind_bind, bind_lift.
  destruct (StorageVolume.file_type self) as [ft | e]; [| reflexivity].
  rewrite bind_when.
  destruct (ft =? StorageVolume.TYPE_FILE);
    rewrite ?bind_modify; apply Hrest.
Qed.

Lemma validate_name_needs_pool (nm : option string) :
  StorageVolume.validate_name None nm ≠ Return tt.
Proof.
  unfold StorageVolume.validate_name.
  now destruct (validate_generic_name _ nm).
Qed.

(** A size check that is not fatal has read the pool's free space and
    found the allocation within it. *)
Lemma is_size_conflict_not_fatal (s : StorageVolume.t) (p : virStoragePool)
    (msg : string) :
  StorageVolume._pool s = Some p →
  StorageVolume.is_size_conflict s = Return (false, msg) →
  ∃ state pool_cap pool_alloc avail alloc cap,
    info p = Return (state, pool_cap, pool_alloc, avail) ∧
    StorageVolume.allocation s = Some alloc ∧
    StorageVolume.capacity s = Some cap ∧
    alloc ≤ avail.
Proof.
  intros Hp. unfold StorageVolume.is_size_conflict, StorageVolume.pool.
  rewrite Hp.
  destruct (info p) as [[[[state pool_cap] pool_alloc] avail] | e];
    [| discriminate].
  destruct (StorageVolume.allocation s) as [alloc |]; [| discriminate].
  destruct (alloc >? avail) eqn:Hgt; [discriminate |].
  destruct (StorageVolume.capacity s) as [cap |]; [| discriminate].
  intros _. exists state, pool_cap, pool_alloc, avail, alloc, cap.
  repeat split. lia.
Qed.

(** X23: when [validate] returns, the volume has a pool and a pool
    description, the name has passed its check, the pool has reported
    its free space, and the volume that [validate] leaves has a known
    capacity and an allocation that fits in that space; in a logical
    pool its allocation equals its capacity. *)
Theorem volume_validate_returns (self : StorageVolume.t) :
  value (StorageVolume.validate self) = Return tt →
  let self' := final (StorageVolume.validate self) in
  StorageVolume.validate_name (StorageVolume.pool self)
    (StorageVolume.name self) = Return tt ∧
  ∃ p pxml state pool_cap pool_alloc avail alloc cap,
    StorageVolume.pool self = Some p ∧
    StorageVolume._pool_xml self = Some pxml ∧
    info p = Return (state, pool_cap, pool_alloc, avail) ∧
    StorageVolume.allocation self' = Some alloc ∧
    StorageVolume.capacity self' = Some cap ∧
    alloc ≤ avail ∧
    (has_type_in pxml ["logical"] → alloc = cap).
Proof.
  cbv zeta. rewrite volume_validate_run.
  destruct (StorageVolume.validate_name _ _) as [[] | e] eqn:Hname;
    [| discriminate].
  destruct (StorageVolume.pool self) as [p |] eqn:Hpool;
    [| now apply validate_name_needs_pool in Hname].
  unfold StorageVolume.pool in Hpool.
  assert (Hs1 : ∀ s1,
    StorageVolume._pool s1 = Some p →
    StorageVolume._pool_xml s1 = StorageVolume._pool_xml self →
    value
      (let s2 :=
         if _prop_is_unset s1 "lazy_refcounts" &&
            bool_decide (StorageVolume.format s1 = Some "qcow2")
         then StorageVolume.set_lazy_refcounts
                (Some (support_conn_qcow2_lazy_refcounts
                         (StorageVolume.conn s1))) s1
         else s1 in
       match StorageVolume._pool_xml s1 with
       | None => Outcome s2 [] (Raise (AttributeError_None "type"))
       | Some pxml =>
           let sparse :=
             StoragePool.type_is pxml "logical" &&
             negb (bool_decide (StorageVolume.allocation s2
                                = StorageVolume.capacity s2)) in
           let s3 := if sparse
                     then StorageVolume.set_allocation
                            (StorageVolume.capacity s2) s2
                     else s2 in
           let evs := if sparse then [sparse_warning] else [] in
           match StorageVolume.is_size_conflict s3 with
           | Raise e => Outcome s3 evs (Raise e)
           | Return (isfatal, errmsg) =>
               if isfatal
               then Outcome s3 evs (Raise (ValueError errmsg))
               else Outcome s3
                      (evs ++ if bool_decide (errmsg ≠ "")
                              then [Log WARNING errmsg []] else [])%list
                      (Return tt)
           end
       end) = Return tt →
    True ∧
    ∃ p0 pxml state pool_cap pool_alloc avail alloc cap,
      Some p = Some p0 ∧
      StorageVolume._pool_xml self = Some pxml ∧
      info p0 = Return (state, pool_cap, pool_alloc, avail) ∧
      StorageVolume.allocation
        (final
           (let s2 :=
              if _prop_is_unset s1 "lazy_refcounts" &&
                 bool_decide (StorageVolume.format s1 = Some "qcow2")
              then StorageVolume.set_lazy_refcounts
                     (Some (support_conn_qcow2_lazy_refcounts
                              (StorageVolume.conn s1))) s1
              else s1 in
            match StorageVolume._pool_xml s1 with
            | None => Outcome s2 [] (Raise (AttributeError_None "type"))
            | Some pxml =>
                let sparse :=
                  StoragePool.type_is pxml "logical" &&
                  negb (bool_decide (StorageVolume.allocation s2
                                     = StorageVolume.capacity s2)) in
                let s3 := if sparse
                          then StorageVolume.set_allocation
                                 (StorageVolume.capacity s2) s2
                          else s2 in
                let evs := if sparse then [sparse_warning] else [] in
                match StorageVolume.is_size_conflict s3 with
                | Raise e => Outcome s3 evs (Raise e)
                | Return (isfatal, errmsg) =>
                    if isfatal
                    then Outcome s3 evs (Raise (ValueError errmsg))
                    else Outcome s3
                           (evs ++ if bool_decide (errmsg ≠ "")
                                   then [Log WARNING errmsg []] else [])%list
                           (Return tt)
                end
            end)) = Some alloc ∧
      StorageVolume.capacity
        (final
           (let s2 :=
              if _prop_is_unset s1 "lazy_refcounts" &&
                 bool_decide (StorageVolume.format s1 = Some "qcow2")
              then StorageVolume.set_lazy_refcounts
                     (Some (support_conn_qcow2_lazy_refcounts
                              (StorageVolume.conn s1))) s1
              else s1 in
            match StorageVolume._pool_xml s1 with
            | None => Outcome s2 [] (Raise (AttributeError_None "type"))
            | Some pxml =>
                let sparse :=
                  StoragePool.type_is pxml "logical" &&
                  negb (bool_decide (StorageVolume.allocation s2
                                     = StorageVolume.capacity s2)) in
                let s3 := if sparse
                          then StorageVolume.set_allocation
                                 (StorageVolume.capacity s2) s2
                          else s2 in
                let evs := if sparse then [sparse_warning] else [] in
                match StorageVolume.is_size_conflict s3 with
                | Raise e => Outcome s3 evs (Raise e)
                | Return (isfatal, errmsg) =>
                    if isfatal
                    then Outcome s3 evs (Raise (ValueError errmsg))
                    else Outcome s3
                           (evs ++ if bool_decide (errmsg ≠ "")
                                   then [Log WARNING errmsg []] else [])%list
                           (Return tt)
                end
            end)) = Some cap ∧
      alloc ≤ avail ∧
      (has_type_in pxml ["logical"] → alloc = cap)).
  { intros s1 Hp1 Hx1. cbv zeta. rewrite Hx1.
    destruct (StorageVolume._pool_xml self) as [pxml |]; [| discriminate].
    set (s2 := if _ && _ then _ else s1).
    assert (Hp2 : StorageVolume._pool s2 = Some p)
      by (subst s2; now destruct (_ && _)).
    set (sparse := StoragePool.type_is pxml "logical" && _).
    set (s3 := if sparse then _ else s2).
    assert (Hp3 : StorageVolume._pool s3 = Some p)
      by (subst s3; now destruct sparse).
    assert (Hlog : has_type_in pxml ["logical"] →
                   StorageVolume.allocation s3 = StorageVolume.capacity s3).
    { intros (ty & Ety & Hin).
      apply elem_of_cons in Hin as [-> | Hin];
        [| by apply elem_of_nil in Hin].
      subst s3 sparse. unfold StoragePool.type_is.
      rewrite (bool_decide_eq_true_2 _ Ety). cbn [andb].
      destruct (bool_decide (StorageVolume.allocation s2
                             = StorageVolume.capacity s2)) eqn:Heq;
        cbn [negb]; [now apply bool_decide_eq_true in Heq | reflexivity]. }
    destruct (StorageVolume.is_size_conflict s3) as [[[|] msg] | e] eqn:Hsz;
      cbn [value final]; try discriminate.
    intros _. split; [exact I |].
    destruct (is_size_conflict_not_fatal s3 p msg Hp3 Hsz)
      as (state & pool_cap & pool_alloc & avail & alloc & cap &
          Hinfo & Ha & Hc & Hle).
    exists p, pxml, state, pool_cap, pool_alloc, avail, alloc, cap.
    repeat split; try assumption.
    intros Hl. specialize (Hlog Hl). congruence. }
  destruct (Py.truthy (StorageVolume.format self)).
  - intros Hval. destruct (Hs1 self Hpool eq_refl Hval) as [_ Hex].
    split; [reflexivity | exact Hex].
  - destruct (StorageVolume.file_type self) as [ft | e]; [| discriminate].
    destruct (ft =? StorageVolume.TYPE_FILE).
    + intros Hval.
      destruct (Hs1 (StorageVolume.set_format (Some "raw") self) Hpool
                  eq_refl Hval) as [_ Hex].
      split; [reflexivity | exact Hex].
    + intros Hval. destruct (Hs1 self Hpool eq_refl Hval) as [_ Hex].
      split; [reflexivity | exact Hex].
Qed.

End VolumeValidateFrame.

(** ** Attaching a pool to a volume *)

Section VolumePool.
Context `{!XMLBuilder StoragePool.t} `{!XMLBuilder StorageVolume.t}.

Lemma ensure_pool_is_running_stateless {St} (pool : option virStoragePool)
    (refresh' : bool) :
  stateless (St:=St) (StoragePool.ensure_pool_is_running pool refresh').
Proof.
  destruct pool as [p |]; [| apply stateless_raise].
  unfold StoragePool.ensure_pool_is_running.
  apply stateless_bind; [apply stateless_lift |].
  intros [[[state cap] alloc] avail]. prove_stateless.
Qed.

(** The whole run of the setter of [pool]. *)
Lemma set_pool_run (p : virStoragePool) (self : StorageVolume.t) :
  StorageVolume._set_pool (Some p) self
  = let r := StoragePool.ensure_pool_is_running (Some p) false self in
    match value r with
    | Raise e => Outcome self (trace r) (Raise e)
    | Return _ =>
        match pool_XMLDesc p 0 with
        | Raise e =>
            Outcome (StorageVolume.set__pool (Some p) self) (trace r) (Raise e)
        | Return xml =>
            Outcome (StorageVolume.set__pool_xml
                       (Some (parsexml (StorageVolume.conn self) xml))
                       (StorageVolume.set__pool (Some p) self))
              (trace r) (Return tt)
        end
    end.
Proof.
  unfold StorageVolume._set_pool. cbv zeta.
  pose proof (ensure_pool_is_running_stateless (Some p) false self) as Hst.
  unfold mbind at 1. unfold M_bind, bind.
  destruct (StoragePool.ensure_pool_is_running (Some p) false self)
    as [s1 t1 [[] | e]]; simpl in Hst |- *; subst s1; [| reflexivity].
  unfold mbind, M_bind, bind, lift, modify.
  destruct (pool_XMLDesc p 0) as [xml | e]; simpl;
    now rewrite ?app_nil_r.
Qed.


Variable storagePoolLookupByVolume : virStorageVol → result virStoragePool.

(** The three assignments of [sync_input_vol]. *)
Lemma sync_input_vol_run (only_format : bool) (self : StorageVolume.t)
    (iv : virStorageVol) (xml : string) :
  StorageVolume._input_vol self = Some iv →
  vol_XMLDesc iv 0 = Return xml →
  StorageVolume.sync_input_vol storagePoolLookupByVolume only_format self
  = let parsevol := parsexml (StorageVolume.conn self) xml in
    let synced :=
      StorageVolume.set_allocation (StorageVolume.allocation parsevol)
        (StorageVolume.set_capacity (StorageVolume.capacity parsevol)
           (StorageVolume.set_format (StorageVolume.format parsevol) self)) in
    if only_format then Outcome synced [] (Return tt)
    else match storagePoolLookupByVolume iv with
         | Return newpool => StorageVolume._set_pool (Some newpool) synced
         | Raise e => Outcome synced [] (Raise e)
         end.
Proof.
  intros Hiv Hxml. unfold StorageVolume.sync_input_vol.
  rewrite bind_get, Hiv, bind_lift, Hxml. cbv zeta.
  rewrite !bind_modify.
  destruct only_format; [reflexivity |].
  rewrite bind_get.
  cbn [StorageVolume._input_vol StorageVolume.set_allocation
         StorageVolume.set_capacity StorageVolume.set_format].
  rewrite Hiv, bind_lift.
  now destruct (storagePoolLookupByVolume iv).
Qed.

(** X20: [sync_input_vol] copies the format, the capacity and the
    allocation of the input volume into the volume, also when asked for
    the format only, in which case it stops there without touching the
    pool.  Asked for more, it then assigns the pool of the input volume;
    when that pool cannot be found the error is raised with the three
    values already copied and the pool as it was. *)
Theorem sync_input_vol_copies (self : StorageVolume.t) (iv : virStorageVol)
    (xml : string) :
  StorageVolume._input_vol self = Some iv →
  vol_XMLDesc iv 0 = Return xml →
  let parsevol := parsexml (StorageVolume.conn self) xml in
  let o := StorageVolume.sync_input_vol storagePoolLookupByVolume true self in
  let o' := StorageVolume.sync_input_vol storagePoolLookupByVolume false self in
  (value o = Return tt ∧ trace o = [] ∧
   StorageVolume.format (final o) = StorageVolume.format parsevol ∧
   StorageVolume.capacity (final o) = StorageVolume.capacity parsevol ∧
   StorageVolume.allocation (final o) = StorageVolume.allocation parsevol ∧
   StorageVolume._pool (final o) = StorageVolume._pool self ∧
   StorageVolume._pool_xml (final o) = StorageVolume._pool_xml self) ∧
  (∀ e, storagePoolLookupByVolume iv = Raise e →
     value o' = Raise e ∧ final o' = final o) ∧
  (∀ newpool, storagePoolLookupByVolume iv = Return newpool →
     o' = StorageVolume._set_pool (Some newpool) (final o)).
Proof.
  intros Hiv Hxml. cbv zeta.
  rewrite !(sync_input_vol_run _ self iv xml Hiv Hxml). cbv zeta.
  split; [repeat split |]. split.
  - now intros e ->.
  - now intros newpool ->.
Qed.

End VolumePool.

(** ** Detecting the format of a backing store *)

Section BackingStore.
Context `{!XMLBuilder StoragePool.t} `{!XMLBuilder StorageVolume.t}.
Variable manage_path :
  Connection → option string →
  result (option virStorageVol * option virStoragePool).

Lemma stateless_on_object {St Obj A} (o : Obj) (m : M Obj A) :
  stateless (St:=St) (on_object o m).
Proof. now intros s. Qed.

Lemma bind_on_object {St Obj A B} (o : Obj) (m : M Obj A)
    (k : Obj * A → M St B) (s : St) :
  (on_object o m ≫= k) s
  = match value (m o) with
    | Return a => prepend (trace (m o)) (k (final (m o), a) s)
    | Raise e => Outcome s (trace (m o)) (Raise e)
    end.
Proof.
  unfold mbind, M_bind, bind, on_object, prepend. simpl.
  now destruct (value (m o)).
Qed.

Lemma detect_backing_store_format_stateless :
  stateless (StorageVolume._detect_backing_store_format manage_path).
Proof.
  unfold StorageVolume._detect_backing_store_format.
  apply stateless_bind; [apply stateless_get | intros self].
  apply stateless_bind; [apply stateless_emit | intros _].
  apply stateless_bind; [apply stateless_lift | intros [vol pool']].
  destruct vol as [vol |]; [| prove_stateless].
  apply stateless_bind; [apply stateless_lift | intros xml].
  apply stateless_bind; [apply stateless_on_object | intros [volxml u]].
  apply stateless_bind; [apply stateless_emit | intros _].
  apply stateless_bind; [apply stateless_lift | intros sup].
  destruct sup; prove_stateless.
Qed.

(** What the detection answers, by what is found at the backing path. *)
Lemma detect_backing_store_format_value (self : StorageVolume.t) :
  value (StorageVolume._detect_backing_store_format manage_path self)
  = match manage_path (StorageVolume.conn self)
            (StorageVolume.backing_store self) with
    | Raise e => Raise e
    | Return (None, _) => Return None
    | Return (Some vol, pool') =>
        match vol_XMLDesc vol 0 with
        | Raise e => Raise e
        | Return xml =>
            let found := StorageVolume._set_pool pool'
                           (parsexml (StorageVolume.conn self) xml) in
            match value found with
            | Raise e => Raise e
            | Return _ =>
                match StorageVolume.supports_property (final found)
                        "format" with
                | Raise e => Raise e
                | Return true => Return (StorageVolume.format (final found))
                | Return false => Return None
                end
            end
        end
    end.
Proof.
  unfold StorageVolume._detect_backing_store_format.
  rewrite bind_get, bind_emit, bind_lift.
  destruct (manage_path _ _) as [[[vol |] pool'] | e]; [| reflexivity ..].
  rewrite bind_lift.
  destruct (vol_XMLDesc vol 0) as [xml | e]; [| reflexivity].
  rewrite bind_on_object. cbv zeta.
  destruct (value (StorageVolume._set_pool pool' _)) as [[] | e];
    [| reflexivity].
  rewrite bind_emit, bind_lift.
  destruct (StorageVolume.supports_property _ "format") as [[|] | e];
    reflexivity.
Qed.

(** X21: the detection of a backing store's format never assigns to the
    volume that asks.  It raises what the lookup of the path raises;
    answers [None], after two log entries and nothing else, when the
    path belongs to no volume; raises, and not a libvirt error, when a
    volume is found without a pool; and when it answers a format, a
    volume and a pool were found and the format is the one parsed from
    the description of that volume. *)
Theorem detect_backing_store_format_cases (self : StorageVolume.t) :
  let o := StorageVolume._detect_backing_store_format manage_path self in
  let found := manage_path (StorageVolume.conn self)
                 (StorageVolume.backing_store self) in
  final o = self ∧
  (∀ e, found = Raise e → value o = Raise e) ∧
  (∀ pool', found = Return (None, pool') →
     value o = Return None ∧
     trace o
     = [Log DEBUG "Attempting to detect format for backing_store=%s"
          [Py.str (StorageVolume.backing_store self)];
        Log DEBUG "Didn't find any volume for backing_store" []]) ∧
  (∀ vol xml, found = Return (Some vol, None) →
     vol_XMLDesc vol 0 = Return xml →
     ∃ e, value o = Raise e ∧ is_libvirtError e = false) ∧
  (∀ f, value o = Return (Some f) →
     ∃ vol p xml,
       found = Return (Some vol, Some p) ∧
       vol_XMLDesc vol 0 = Return xml ∧
       StorageVolume.format (parsexml (StorageVolume.conn self) xml)
       = Some f).
Proof.
  cbv zeta. split; [apply detect_backing_store_format_stateless |].
  split; [| split; [| split]].
  - intros e He. now rewrite detect_backing_store_format_value, He.
  - intros pool' Hnone. split.
    + now rewrite detect_backing_store_format_value, Hnone.
    + unfold StorageVolume._detect_backing_store_format.
      now rewrite bind_get, bind_emit, bind_lift, Hnone.
  - intros vol xml Hfound Hxml.
    rewrite detect_backing_store_format_value, Hfound, Hxml. cbv zeta.
    eexists. split; reflexivity.
  - intros f. rewrite detect_backing_store_format_value.
    destruct (manage_path _ _) as [[[vol |] pool'] | e]; try discriminate.
    destruct (vol_XMLDesc vol 0) as [xml | e] eqn:Hxml; [| discriminate].
    cbv zeta. destruct pool' as [p |]; [| discriminate].
    rewrite set_pool_run. cbv zeta.
    destruct (value (StoragePool.ensure_pool_is_running (Some p) false _))
      as [[] | e]; [| discriminate].
    destruct (pool_XMLDesc p 0) as [pxml | e]; [| discriminate].
    cbn [value final].
    destruct (StorageVolume.supports_property _ "format") as [[|] | e];
      try discriminate.
    intros [= Hf]. exists vol, p, xml.
    split; [reflexivity | split; [exact Hxml | exact Hf]].
Qed.

End BackingStore.

(** ** The outcomes of [StorageVolume.install] *)

Section VolumeInstallOutcomes.
Context `{!XMLBuilder StoragePool.t} `{!XMLBuilder StorageVolume.t}.
Context (env : Environ).
Variable manage_path :
  Connection → option string →
  result (option virStorageVol * option virStoragePool).

Lemma fmt_could_not_create_volume (a b : string) :
  Py.fmt "Couldn't create storage volume '%s': '%s'" [a; b]
  = "Couldn't create storage volume '" +:+ a +:+ "': '" +:+ b +:+ "'".
Proof. reflexivity. Qed.

(** The first step of [install]: the backing format is detected when a
    backing store is given without one. *)
Lemma install_detect_step {B} (k : unit → M StorageVolume.t B)
    (self : StorageVolume.t) :
  (when (Py.truthy (StorageVolume.backing_store self) &&
         negb (Py.truthy (StorageVolume.backing_format self)))
     (f ← StorageVolume._detect_backing_store_format manage_path;
      modify (StorageVolume.set_backing_format f)) ≫= k) self
  = let d := StorageVolume._detect_backing_store_format manage_path self in
    if Py.truthy (StorageVolume.backing_store self) &&
       negb (Py.truthy (StorageVolume.backing_format self))
    then match value d with
         | Raise e => Outcome self (trace d) (Raise e)
         | Return f =>
             prepend (trace d) (k tt (StorageVolume.set_backing_format f self))
         end
    else k tt self.
Proof.
  rewrite bind_when. cbv zeta.
  destruct (_ && _); [| reflexivity].
  rewrite bind_bind.
  pose proof (detect_backing_store_format_stateless manage_path self) as Hst.
  unfold mbind at 1. unfold M_bind, bind.
  destruct (StorageVolume._detect_backing_store_format manage_path self)
    as [s1 t1 [f | e]]; simpl in Hst |- *; subst s1; [| reflexivity].
  unfold mbind, M_bind, bind, modify, prepend. simpl. reflexivity.
Qed.

(** The rest of [install]: the creation of the volume. *)
Lemma install_create_phase (s1 : StorageVolume.t) :
  (self ← get;
   let xml := get_xml self in
   emit (Log DEBUG
           ("Creating storage volume '%s' with xml:" +:+ Py.LF +:+ "%s")
           [Py.str (StorageVolume.name self); xml]);;
   let '(cloneflags, createflags) := StorageVolume.install_flags env self in
   try_except
     (vol ← match StorageVolume.input_vol self with
            | Some iv =>
                match StorageVolume.pool self with
                | Some p =>
                    emit (VolCreateXMLFrom p xml iv cloneflags);;
                    lift (createXMLFrom p xml iv cloneflags)
                | None => raise (AttributeError_None "createXMLFrom")
                end
            | None =>
                emit (Log DEBUG "Using vol create flags=%s"
                        [Py.fmt_d createflags]);;
                match StorageVolume.pool self with
                | Some p =>
                    emit (VolCreateXML p xml createflags);;
                    lift (createXML p xml createflags)
                | None => raise (AttributeError_None "createXML")
                end
            end;
      emit (Log DEBUG "Storage volume '%s' install complete."
              [Py.str (StorageVolume.name self)]);;
      mret vol)
     (λ e,
        emit (Log DEBUG "Error creating storage volume" []);;
        raise (RuntimeError
                 (Py.fmt "Couldn't create storage volume '%s': '%s'"
                    [Py.str (StorageVolume.name self); exc_str e])))) s1
  = Outcome s1
      ([Log DEBUG
          ("Creating storage volume '%s' with xml:" +:+ Py.LF +:+ "%s")
          [Py.str (StorageVolume.name s1); get_xml s1]] ++
       match StorageVolume.input_vol s1 with
       | Some _ => []
       | None => [Log DEBUG "Using vol create flags=%s"
                    [Py.fmt_d (snd (StorageVolume.install_flags env s1))]]
       end ++
       create_request env s1 ++
       [match create_answer env s1 with
        | Return _ => Log DEBUG "Storage volume '%s' install complete."
                        [Py.str (StorageVolume.name s1)]
        | Raise _ => Log DEBUG "Error creating storage volume" []
        end])%list
      match create_answer env s1 with
      | Return vol => Return vol
      | Raise e =>
          Raise (RuntimeError
                   ("Couldn't create storage volume '" +:+
                    Py.str (StorageVolume.name s1) +:+ "': '" +:+
                    exc_str e +:+ "'"))
      end.
Proof.
  rewrite bind_get. cbv zeta. rewrite bind_emit.
  unfold create_request, create_answer.
  destruct (StorageVolume.install_flags env s1) as [cloneflags createflags].
  cbn [fst snd]. rewrite try_except_run.
  destruct (StorageVolume.input_vol s1) as [iv |];
    destruct (StorageVolume.pool s1) as [p |];
    rewrite ?bind_bind, ?bind_emit, ?bind_bind, ?bind_emit, ?bind_lift,
      ?bind_raise;
    try match goal with
        | |- context [createXMLFrom ?p ?x ?i ?f] =>
            destruct (createXMLFrom p x i f)
        | |- context [createXML ?p ?x ?f] => destruct (createXML p x f)
        end;
    unfold prepend; cbn [final trace value app];
    rewrite ?bind_emit, ?bind_raise;
    unfold prepend, raise, mret, M_ret, ret; cbn [final trace value app];
    rewrite ?fmt_could_not_create_volume; reflexivity.
Qed.

Lemma create_answer_pool (s1 : StorageVolume.t) (vol : virStorageVol) :
  create_answer env s1 = Return vol → ∃ p, StorageVolume.pool s1 = Some p.
Proof.
  unfold create_answer.
  destruct (StorageVolume.input_vol s1), (StorageVolume.pool s1);
    try discriminate; eauto.
Qed.

(** [install] with the detection step spelled out. *)
Lemma volume_install_run (self : StorageVolume.t) :
  StorageVolume.install env manage_path self
  = let d := StorageVolume._detect_backing_store_format manage_path self in
    let created (s1 : StorageVolume.t) (before : list event) :=
      Outcome s1
        (before ++
         [Log DEBUG
            ("Creating storage volume '%s' with xml:" +:+ Py.LF +:+ "%s")
            [Py.str (StorageVolume.name s1); get_xml s1]] ++
         match StorageVolume.input_vol s1 with
         | Some _ => []
         | None => [Log DEBUG "Using vol create flags=%s"
                      [Py.fmt_d (snd (StorageVolume.install_flags env s1))]]
         end ++
         create_request env s1 ++
         [match create_answer env s1 with
          | Return _ => Log DEBUG "Storage volume '%s' install complete."
                          [Py.str (StorageVolume.name s1)]
          | Raise _ => Log DEBUG "Error creating storage volume" []
          end])%list
        match create_answer env s1 with
        | Return vol => Return vol
        | Raise e =>
            Raise (RuntimeError
                     ("Couldn't create storage volume '" +:+
                      Py.str (StorageVolume.name s1) +:+ "': '" +:+
                      exc_str e +:+ "'"))
        end in
    if Py.truthy (StorageVolume.backing_store self) &&
       negb (Py.truthy (StorageVolume.backing_format self))
    then match value d with
         | Raise e => Outcome self (trace d) (Raise e)
         | Return f =>
             created (StorageVolume.set_backing_format f self) (trace d)
         end
    else created self [].
Proof.
  unfold StorageVolume.install.
  rewrite bind_get, install_detect_step. cbv zeta.
  destruct (_ && _); [destruct (value _) as [f | e]; [| reflexivity] |];
    rewrite install_create_phase; reflexivity.
Qed.

(** X22: [install] of a volume assigns nothing but, when a backing
    store is given without a format, the backing format it detects.  An
    error of that detection is raised as it is, before anything is
    created; every other error is a [RuntimeError] that quotes the
    volume's name and the text of the error of the creation, which also
    covers a volume that has no pool.  A volume is returned only when
    the volume has a pool and is then the answer of the creation call. *)
Theorem volume_install_outcomes (self : StorageVolume.t) :
  let detect := Py.truthy (StorageVolume.backing_store self) &&
                negb (Py.truthy (StorageVolume.backing_format self)) in
  let d := StorageVolume._detect_backing_store_format manage_path self in
  let o := StorageVolume.install env manage_path self in
  (StorageVolume.conn (final o) = StorageVolume.conn self ∧
   StorageVolume.name (final o) = StorageVolume.name self ∧
   StorageVolume.type (final o) = StorageVolume.type self ∧
   StorageVolume.capacity (final o) = StorageVolume.capacity self ∧
   StorageVolume.allocation (final o) = StorageVolume.allocation self ∧
   StorageVolume.format (final o) = StorageVolume.format self ∧
   StorageVolume.backing_store (final o) = StorageVolume.backing_store self ∧
   StorageVolume.lazy_refcounts (final o)
   = StorageVolume.lazy_refcounts self ∧
   StorageVolume._input_vol (final o) = StorageVolume._input_vol self ∧
   StorageVolume._pool (final o) = StorageVolume._pool self ∧
   StorageVolume._pool_xml (final o) = StorageVolume._pool_xml self ∧
   StorageVolume._reflink (final o) = StorageVolume._reflink self) ∧
  (StorageVolume.backing_format (final o)
   ≠ StorageVolume.backing_format self →
   detect = true ∧
   value d = Return (StorageVolume.backing_format (final o))) ∧
  (∀ e, detect = true → value d = Raise e →
     o = Outcome self (trace d) (Raise e)) ∧
  (∀ e, value o = Raise e →
     (detect = true ∧ value d = Raise e) ∨
     ∃ cause,
       create_answer env (final o) = Raise cause ∧
       e = RuntimeError
             ("Couldn't create storage volume '" +:+
              Py.str (StorageVolume.name self) +:+ "': '" +:+
              exc_str cause +:+ "'")) ∧
  (∀ vol, value o = Return vol →
     create_answer env (final o) = Return vol ∧
     ∃ p, StorageVolume.pool self = Some p).
Proof.
  cbv zeta. rewrite volume_install_run. cbv zeta.
  destruct (Py.truthy (StorageVolume.backing_store self) &&
            negb (Py.truthy (StorageVolume.backing_format self))).
  - destruct (value (StorageVolume._detect_backing_store_format
                       manage_path self)) as [f | e].
    + cbn [final trace value].
      split; [repeat split |]. split; [now intros _ |].
      split; [discriminate |]. split.
      * intros e He. right.
        destruct (create_answer env _) as [vol | cause]; [discriminate |].
        injection He as <-. now exists cause.
      * intros vol Hvol.
        destruct (create_answer env _) as [vol' | cause] eqn:Hans;
          [| discriminate].
        injection Hvol as ->. split; [reflexivity |].
        exact (create_answer_pool _ _ Hans).
    + cbn [final trace value].
      split; [repeat split |]. split; [now intros [] |].
      split; [now intros e' _ [= ->] |]. split.
      * intros e' [= ->]. now left.
      * discriminate.
  - cbn [final trace value].
    split; [repeat split |]. split; [now intros [] |].
    split; [discriminate |]. split.
    + intros e He. right.
      destruct (create_answer env _) as [vol | cause]; [discriminate |].
      injection He as <-. now exists cause.
    + intros vol Hvol.
      destruct (create_answer env _) as [vol' | cause] eqn:Hans;
        [| discriminate].
      injection Hvol as ->. split; [reflexivity |].
      exact (create_answer_pool _ _ Hans).
Qed.

End VolumeInstallOutcomes.

(** ** Errors of the size check, and installing a validated volume *)

Section VolumeChecked.
Context `{!XMLBuilder StoragePool.t} `{!XMLBuilder StorageVolume.t}.
Context (env : Environ).
Variable manage_path :
  Connection → option string →
  result (option virStorageVol * option virStoragePool).

(** X24: [is_size_conflict] raises only for a volume with a pool: what
    the pool's [info()] raises, or a [TypeError] for a size that is
    missing where it is compared.  The allocation is compared first, so
    a missing capacity goes unnoticed when the allocation already
    exceeds the free space. *)
Theorem is_size_conflict_errors (self : StorageVolume.t) (e : exception) :
  StorageVolume.is_size_conflict self = Raise e ↔
  ∃ p, StorageVolume.pool self = Some p ∧
       (info p = Raise e ∨
        ∃ state pool_cap pool_alloc avail,
          info p = Return (state, pool_cap, pool_alloc, avail) ∧
          e = TypeError_None_gt ∧
          (StorageVolume.allocation self = None ∨
           ∃ alloc, StorageVolume.allocation self = Some alloc ∧
                    alloc ≤ avail ∧
                    StorageVolume.capacity self = None)).
Proof.
  unfold StorageVolume.is_size_conflict. split.
  - destruct (StorageVolume.pool self) as [p |]; [| discriminate].
    intros Hraise. exists p. split; [reflexivity |].
    destruct (info p) as [[[[state pool_cap] pool_alloc] avail] | ei];
      [| left; congruence].
    right. exists state, pool_cap, pool_alloc, avail.
    split; [reflexivity |].
    destruct (StorageVolume.allocation self) as [alloc |];
      [| split; [congruence | now left]].
    destruct (alloc >? avail) eqn:Hgt; [discriminate |].
    destruct (StorageVolume.capacity self) as [cap |];
      [destruct (cap >? avail); discriminate |].
    split; [congruence |]. right. exists alloc. repeat split. lia.
  - intros (p & -> & [-> | (state & pool_cap & pool_alloc & avail & -> & -> &
                            [-> | (alloc & -> & Hle & ->)])]);
      try reflexivity.
    assert ((alloc >? avail) = false) as -> by lia. reflexivity.
Qed.

Lemma validate_keeps_pool (self : StorageVolume.t) :
  StorageVolume._pool (final (StorageVolume.validate self))
  = StorageVolume._pool self ∧
  StorageVolume._input_vol (final (StorageVolume.validate self))
  = StorageVolume._input_vol self ∧
  StorageVolume.backing_store (final (StorageVolume.validate self))
  = StorageVolume.backing_store self ∧
  StorageVolume.backing_format (final (StorageVolume.validate self))
  = StorageVolume.backing_format self.
Proof.
  destruct (validate_final self) as (s1 & s2 & s3 & H1 & H2 & H3 & ->).
  destruct H1 as [-> | (-> & _)]; destruct H2 as [-> | (-> & _)];
    destruct H3 as [-> | (-> & _)]; repeat split.
Qed.

(** X25: a volume on which [validate] has returned has a pool, so that
    [install], unless the detection of a backing format raises first,
    reaches libvirt: the creation call, a clone when there is an input
    volume and a fresh volume otherwise, is in its trace. *)
Theorem install_after_volume_validate (self : StorageVolume.t) :
  value (StorageVolume.validate self) = Return tt →
  let self' := final (StorageVolume.validate self) in
  let o := StorageVolume.install env manage_path self' in
  Py.truthy (StorageVolume.backing_store self) &&
    negb (Py.truthy (StorageVolume.backing_format self)) = false →
  final o = self' ∧
  ∃ p, StorageVolume.pool self = Some p ∧
       match StorageVolume.input_vol self with
       | Some iv =>
           VolCreateXMLFrom p (get_xml self') iv
             (fst (StorageVolume.install_flags env self')) ∈ trace o
       | None =>
           VolCreateXML p (get_xml self')
             (snd (StorageVolume.install_flags env self')) ∈ trace o
       end.
Proof.
  intros Hval. cbv zeta. intros Hdetect.
  destruct (validate_keeps_pool self) as (Hp & Hiv & Hbs & Hbf).
  assert (Hdetect' :
    Py.truthy (StorageVolume.backing_store
                 (final (StorageVolume.validate self))) &&
    negb (Py.truthy (StorageVolume.backing_format
                       (final (StorageVolume.validate self)))) = false)
    by now rewrite Hbs, Hbf.
  split.
  - rewrite volume_install_run. cbv zeta. now rewrite Hdetect'.
  - rewrite volume_validate_run in Hval.
    destruct (StorageVolume.validate_name _ _) as [[] | e] eqn:Hname;
      [| discriminate].
    destruct (StorageVolume.pool self) as [p |] eqn:Hpool;
      [| now apply validate_name_needs_pool in Hname].
    exists p. split; [reflexivity |].
    assert (Hpool' : StorageVolume.pool (final (StorageVolume.validate self))
                     = Some p)
      by (unfold StorageVolume.pool in *; now rewrite Hp).
    unfold StorageVolume.input_vol.
    destruct (StorageVolume._input_vol self) as [iv |] eqn:Hinput.
    + apply install_clone_call; [exact Hdetect' | exact Hpool' |].
      unfold StorageVolume.input_vol. now rewrite Hiv.
    + apply install_create_call; [exact Hdetect' | exact Hpool' |].
      unfold StorageVolume.input_vol. now rewrite Hiv.
Qed.

End VolumeChecked.

(** ** Further examples *)

Section FurtherExamples.
Import Fixtures.
#[local] Existing Instance pool_builder.
#[local] Existing Instance volume_builder.

(** A netfs pool given the source [/export] and then retyped to disk
    reads the source device, which nothing has set. *)
Lemma source_path_lost_on_retype_witness :
  StoragePool._type_to_source_prop
    (StoragePool.set_type (Some "disk") (a_pool "netfs" "nas"))
  ≠ StoragePool._type_to_source_prop (a_pool "netfs" "nas") ∧
  StoragePool.source_path
    (StoragePool.set_type (Some "disk")
       (StoragePool.set_source_path (Some "/export") (a_pool "netfs" "nas")))
  = None.
Proof.
  assert (Hsel : StoragePool._type_to_source_prop
                   (StoragePool.set_type (Some "disk") (a_pool "netfs" "nas"))
                 ≠ StoragePool._type_to_source_prop (a_pool "netfs" "nas"))
    by (vm_compute; discriminate).
  split; [exact Hsel |].
  exact (eq_trans
           (source_path_lost_on_retype (a_pool "netfs" "nas")
              (Some "/export") (Some "disk") Hsel)
           eq_refl).
Defined.

(** A stopped pool whose start fails: the start is attempted, the
    refresh that was asked for is not. *)
Lemma ensure_pool_is_running_steps_witness :
  info failing_pool = Return (0, 0, 0, 0) ∧
  PoolCreate failing_pool 0
  ∈ trace (StoragePool.ensure_pool_is_running (Some failing_pool) true tt) ∧
  PoolRefresh failing_pool 0
  ∉ trace (StoragePool.ensure_pool_is_running (Some failing_pool) true tt).
Proof.
  destruct (ensure_pool_is_running_steps failing_pool true 0 0 0 0 tt eq_refl)
    as (_ & Hcreate & Hrefresh & _).
  split; [reflexivity |]. split.
  - apply Hcreate. discriminate.
  - intros Hin. apply Hrefresh in Hin as [_ [Hrun | Hok]]; discriminate.
Defined.

(** A logical pool without a source path: [validate] returns on it, and
    [install] with a build refuses it. *)
Lemma install_after_validate_witness :
  value (StoragePool.validate env0 (a_pool "logical" "vg0")) = Return tt ∧
  value (StoragePool.install false true false
           (final (StoragePool.validate env0 (a_pool "logical" "vg0"))))
  = Raise (ValueError "Must explicitly specify source path if building pool").
Proof.
  assert (Hval : value (StoragePool.validate env0 (a_pool "logical" "vg0"))
                 = Return tt) by reflexivity.
  split; [exact Hval |].
  destruct (install_after_validate env0 (a_pool "logical" "vg0")
              false true false Hval) as [_ Hsrc].
  apply Hsrc. split; [| split; reflexivity].
  exists "logical". split; [reflexivity | apply list_elem_of_here].
Defined.

(** A discovery that finds one source proposes one pool. *)
Lemma pool_list_from_sources_pools_witness :
  findStoragePoolSources conn0 "logical" (discovery_request None) 0
  = Return "<sources/>" ∧
  ∃ pools,
    StoragePool.pool_list_from_sources (λ _ _, ["<source/>"]) conn0
      "logical" None = Return pools ∧
    length pools = 1%nat.
Proof.
  split; [reflexivity |].
  destruct (pool_list_from_sources_pools (λ _ _, ["<source/>"]) conn0
              "logical" None "<sources/>" eq_refl) as (pools & Hp & Hl & _).
  exists pools. split; [exact Hp | exact Hl].
Defined.

(** A volume to be cloned, holding 20 GiB: synchronising its format
    only replaces its capacity by the one parsed from the input volume. *)
Lemma sync_input_vol_copies_witness :
  StorageVolume._input_vol a_reflink_volume = Some a_volume ∧
  vol_XMLDesc a_volume 0 = Return "<volume/>" ∧
  StorageVolume.capacity a_reflink_volume = Some (20 * GiB) ∧
  StorageVolume.capacity
    (final (StorageVolume.sync_input_vol (λ _, Return (healthy_pool 0))
              true a_reflink_volume))
  = None.
Proof.
  destruct (sync_input_vol_copies (λ _, Return (healthy_pool 0))
              a_reflink_volume a_volume "<volume/>" eq_refl eq_refl)
    as [(_ & _ & _ & Hcap & _) _].
  split; [reflexivity |]. split; [reflexivity |]. split; [reflexivity |].
  exact (eq_trans Hcap eq_refl).
Defined.

(** A raw volume of 1 GiB in a directory pool with 2 GiB free. *)
Lemma volume_validate_returns_witness :
  value (StorageVolume.validate
           (a_volume_in "dir" (Some "raw") GiB GiB (2 * GiB))) = Return tt ∧
  StorageVolume.validate_name
    (StorageVolume.pool (a_volume_in "dir" (Some "raw") GiB GiB (2 * GiB)))
    (StorageVolume.name (a_volume_in "dir" (Some "raw") GiB GiB (2 * GiB)))
  = Return tt.
Proof.
  assert (Hval : value (StorageVolume.validate
                          (a_volume_in "dir" (Some "raw") GiB GiB (2 * GiB)))
                 = Return tt) by reflexivity.
  split; [exact Hval |].
  exact (proj1 (volume_validate_returns _ Hval)).
Defined.

(** The same volume, validated and then installed: the creation call
    reaches its pool. *)
Lemma install_after_volume_validate_witness :
  value (StorageVolume.validate
           (a_volume_in "dir" (Some "raw") GiB GiB (2 * GiB))) = Return tt ∧
  ∃ p, StorageVolume.pool (a_volume_in "dir" (Some "raw") GiB GiB (2 * GiB))
       = Some p.
Proof.
  assert (Hval : value (StorageVolume.validate
                          (a_volume_in "dir" (Some "raw") GiB GiB (2 * GiB)))
                 = Return tt) by reflexivity.
  split; [exact Hval |].
  destruct (install_after_volume_validate env0 (λ _ _, Return (None, None))
              _ Hval eq_refl) as (_ & p & Hp & _).
  exists p. exact Hp.
Defined.

End FurtherExamples.
